(** * Statistical test engine of the hotel-bookings analysis (src/utils_stats.py)

  A shallow embedding of [utils_stats.py] and the properties its
  specification states about it.

  Modelling conventions.
  - A Python/NumPy float is a [num]: either [NaN] or a finite real.  Arithmetic
    on finite values is exact (no rounding, no overflow); [NaN] propagates
    through arithmetic and makes every comparison false, as in IEEE 754.
  - A pandas DataFrame is a schema (column names with dtypes) and a list of
    rows; every row carries its index label and one [cell] per column.
  - Python objects that the module creates or mutates live in a [heap];
    the module's functions are computations in a state-and-exception monad
    over that heap, so that aliasing and in-place updates are visible.
  - Functions of SciPy that are not closed-form (p-values, rank tests,
    quantiles) are parameters of the development. *)

From Stdlib Require Import String.
From Stdlib Require Import Reals Lra Lia ZArith Bool List Permutation Sorted.
Import ListNotations.

Set Implicit Arguments.
Open Scope R_scope.

(** ** Floating-point values *)

Inductive num : Type :=
| NaN
| Fin (x : R).

Declare Scope num_scope.
Delimit Scope num_scope with num.
Bind Scope num_scope with num.

Definition Rltb (x y : R) : bool := if Rlt_dec x y then true else false.
Definition Reqb (x y : R) : bool := if Req_dec_T x y then true else false.

Lemma Rltb_true x y : Rltb x y = true <-> x < y.
Proof. unfold Rltb. destruct (Rlt_dec x y); split; intros; try discriminate; tauto. Qed.

Lemma Rltb_false x y : Rltb x y = false <-> y <= x.
Proof.
  unfold Rltb. destruct (Rlt_dec x y); split; intros; try discriminate; try lra; auto.
Qed.

Lemma Reqb_true x y : Reqb x y = true <-> x = y.
Proof. unfold Reqb. destruct (Req_dec_T x y); split; intros; try discriminate; tauto. Qed.

Lemma Reqb_refl x : Reqb x x = true.
Proof. now apply Reqb_true. Qed.

Lemma Reqb_sym x y : Reqb x y = Reqb y x.
Proof.
  unfold Reqb. destruct (Req_dec_T x y), (Req_dec_T y x); auto; congruence.
Qed.

Module Num.

Definition lift2 (f : R -> R -> R) (a b : num) : num :=
  match a, b with
  | Fin x, Fin y => Fin (f x y)
  | _, _ => NaN
  end.

Definition add := lift2 Rplus.
Definition sub := lift2 Rminus.
Definition mul := lift2 Rmult.

(** [x / y].  Every division of the module has a divisor that is guarded
    or known to be non-zero, except for [0 / 0] forms, which are [NaN]. *)
Definition div (a b : num) : num :=
  match a, b with
  | Fin x, Fin y => if Reqb y 0 then NaN else Fin (x / y)
  | _, _ => NaN
  end.

(** [np.sqrt]: [NaN] on negative input (the warning is silenced). *)
Definition sqrt (a : num) : num :=
  match a with
  | Fin x => if Rltb x 0 then NaN else Fin (sqrt x)
  | NaN => NaN
  end.

Definition abs (a : num) : num :=
  match a with
  | Fin x => Fin (Rabs x)
  | NaN => NaN
  end.

Definition sqr (a : num) : num := mul a a.

(** Comparisons: false as soon as an operand is [NaN]. *)
Definition ltb (a b : num) : bool :=
  match a, b with
  | Fin x, Fin y => Rltb x y
  | _, _ => false
  end.

Definition gtb (a b : num) : bool := ltb b a.

Definition eqb (a b : num) : bool :=
  match a, b with
  | Fin x, Fin y => Reqb x y
  | _, _ => false
  end.

(** Truth value of a float in a Boolean context: everything but zero. *)
Definition truthy (a : num) : bool :=
  match a with
  | Fin x => negb (Reqb x 0)
  | NaN => true
  end.

(** Python's built-in [max(a, b)] and [min(a, b)] on two arguments: the
    first argument is kept unless the second one compares strictly
    greater (smaller). *)
Definition pymax (a b : num) : num := if gtb b a then b else a.
Definition pymin (a b : num) : num := if ltb b a then b else a.

Definition of_Z (z : Z) : num := Fin (IZR z).
Definition of_nat (n : nat) : num := Fin (INR n).

(** Python's [sum] over a list of floats, starting from the integer 0. *)
Definition sum (l : list num) : num := fold_left add l (Fin 0).

Definition is_nan (a : num) : bool :=
  match a with NaN => true | Fin _ => false end.

(** [lo <= a <= hi] for a finite [a]; false for [NaN]. *)
Definition within (lo hi : R) (a : num) : Prop :=
  match a with
  | Fin x => lo <= x <= hi
  | NaN => False
  end.

End Num.

Notation "a + b" := (Num.add a b) : num_scope.
Notation "a - b" := (Num.sub a b) : num_scope.
Notation "a * b" := (Num.mul a b) : num_scope.
Notation "a / b" := (Num.div a b) : num_scope.
Notation "a <? b" := (Num.ltb a b) (at level 70) : num_scope.
Notation "a >? b" := (Num.gtb a b) (at level 70) : num_scope.
Notation "a =? b" := (Num.eqb a b) (at level 70) : num_scope.

(** The significance level and the other float literals of the module. *)
Definition lit (n d : Z) : num := Fin (IZR n / IZR d).

(** ** Cells, series and data frames *)

(** One entry of a column: a missing value ([NaN]/[None]), a category or
    string label, an integer, or a finite float. *)
Inductive cell : Type :=
| Missing
| Label (s : string)
| Int (z : Z)
| Flt (x : R).

Inductive dtype : Type := DObject | DCategory | DInt | DFloat.

(** [a == b] on scalars; a missing value equals nothing, an integer equals
    the float of the same value. *)
Definition cell_eqb (a b : cell) : bool :=
  match a, b with
  | Label s, Label t => String.eqb s t
  | Int x, Int y => Z.eqb x y
  | Int x, Flt y => Reqb (IZR x) y
  | Flt x, Int y => Reqb x (IZR y)
  | Flt x, Flt y => Reqb x y
  | _, _ => false
  end.

Definition is_missing (c : cell) : bool :=
  match c with Missing => true | _ => false end.

(** The float a numeric cell stands for. *)
Definition cell_num (c : cell) : num :=
  match c with
  | Int z => Fin (IZR z)
  | Flt x => Fin x
  | Missing | Label _ => NaN
  end.

Definition num_cell (a : num) : cell :=
  match a with
  | Fin x => Flt x
  | NaN => Missing
  end.

(** Order on labels used to sort group keys: integers and floats by value,
    strings lexicographically. *)
Definition cell_leb (a b : cell) : bool :=
  match a, b with
  | Label s, Label t => String.leb s t
  | Int x, Int y => Z.leb x y
  | Int x, Flt y => negb (Rltb y (IZR x))
  | Flt x, Int y => negb (Rltb (IZR y) x)
  | Flt x, Flt y => negb (Rltb y x)
  | Missing, _ => false
  | _, Missing => true
  | Label _, _ => false
  | _, Label _ => true
  end.

(** A row: its index label (a tuple of cells) and its cells, one per column
    of the schema. *)
Definition row : Type := (list cell * list cell)%type.

Record DataFrame : Type := mkDataFrame {
  schema : list (string * dtype);
  rows : list row
}.

Record Series : Type := mkSeries {
  s_dtype : dtype;
  s_values : list cell
}.

Inductive exn : Type :=
| KeyError (k : string)
| TypeError
| ValueError.

Inductive res (A : Type) : Type :=
| Ok (a : A)
| Raise (e : exn).

Arguments Ok {A} a.
Arguments Raise {A} e.

Definition res_bind {A B : Type} (r : res A) (k : A -> res B) : res B :=
  match r with
  | Ok a => k a
  | Raise e => Raise e
  end.

Fixpoint col_index (name : string) (sch : list (string * dtype)) : option (nat * dtype) :=
  match sch with
  | [] => None
  | (n, t) :: rest =>
      if String.eqb n name then Some (O, t)
      else match col_index name rest with
           | Some (j, t') => Some (S j, t')
           | None => None
           end
  end.

Definition cell_at (j : nat) (r : row) : cell := nth j (snd r) Missing.

(** ['name' in df.columns] *)
Definition has_column (d : DataFrame) (name : string) : bool :=
  match col_index name (schema d) with Some _ => true | None => false end.

(** [df[name]]: [KeyError] when the column does not exist. *)
Definition getitem (d : DataFrame) (name : string) : res Series :=
  match col_index name (schema d) with
  | Some (j, t) => Ok (mkSeries t (map (cell_at j) (rows d)))
  | None => Raise (KeyError name)
  end.

(** [df[df[name] == v]] *)
Definition select_eq (d : DataFrame) (name : string) (v : cell) : res DataFrame :=
  match col_index name (schema d) with
  | Some (j, _) =>
      Ok (mkDataFrame (schema d) (filter (fun r => cell_eqb (cell_at j r) v) (rows d)))
  | None => Raise (KeyError name)
  end.

Definition is_numeric (t : dtype) : bool :=
  match t with DInt | DFloat => true | DObject | DCategory => false end.

(** [df[df[name] > 0]]: ordering a non-numeric column against a number is a
    [TypeError]. *)
Definition select_pos (d : DataFrame) (name : string) : res DataFrame :=
  match col_index name (schema d) with
  | Some (j, t) =>
      if is_numeric t then
        Ok (mkDataFrame (schema d)
              (filter (fun r => Num.gtb (cell_num (cell_at j r)) (Fin 0)) (rows d)))
      else Raise TypeError
  | None => Raise (KeyError name)
  end.

(** The floats of a numeric series, missing values as [NaN]. *)
Definition to_nums (s : Series) : res (list num) :=
  if is_numeric (s_dtype s) then Ok (map cell_num (s_values s)) else Raise TypeError.

Fixpoint finite_values (l : list num) : list R :=
  match l with
  | [] => []
  | Fin x :: t => x :: finite_values t
  | NaN :: t => finite_values t
  end.

(** [series.dropna()] on a numeric series: the sample of its present values. *)
Definition dropna (s : Series) : res (list R) :=
  res_bind (to_nums s) (fun l => Ok (finite_values l)).

(** ** Descriptive statistics of a sample *)

Fixpoint Rsum (l : list R) : R :=
  match l with
  | [] => 0
  | x :: t => x + Rsum t
  end.

(** [mean()]: [NaN] on an empty sample. *)
Definition mean (l : list R) : num :=
  match l with
  | [] => NaN
  | _ => Fin (Rsum l / INR (length l))
  end.

(** [std()] with one delta degree of freedom (the pandas default): [NaN] on
    fewer than two values. *)
Definition std (l : list R) : num :=
  match l with
  | [] | [_] => NaN
  | _ =>
      let m := Rsum l / INR (length l) in
      Fin (sqrt (Rsum (map (fun x => (x - m) * (x - m)) l) / (INR (length l) - 1)))
  end.

Fixpoint Rinsert (x : R) (l : list R) : list R :=
  match l with
  | [] => [x]
  | y :: t => if Rltb y x then y :: Rinsert x t else x :: l
  end.

Definition Rsort (l : list R) : list R := fold_right Rinsert [] l.

(** [median()]: the middle value of the sorted sample, or the mean of the two
    middle values; [NaN] on an empty sample. *)
Definition median (l : list R) : num :=
  match l with
  | [] => NaN
  | _ =>
      let s := Rsort l in
      let n := length l in
      if Nat.even n
      then Fin ((nth (Nat.div n 2 - 1) s 0 + nth (Nat.div n 2) s 0) / 2)
      else Fin (nth (Nat.div n 2) s 0)
  end.

(** [sum()] of a numeric series: missing values are skipped. *)
Definition series_sum (s : Series) : res num :=
  res_bind (dropna s) (fun l => Ok (Fin (Rsum l))).

Definition series_mean (s : Series) : res num :=
  res_bind (dropna s) (fun l => Ok (mean l)).

(** [series.fillna(v)] *)
Definition fillna (v : num) (l : list num) : list num :=
  map (fun a => match a with NaN => v | Fin _ => a end) l.

(** ** Distinct labels and contingency tables *)

(** The distinct elements of a list up to [eqb], in order of first
    appearance. *)
Fixpoint uniq_by {A : Type} (eqb : A -> A -> bool) (l : list A) : list A :=
  match l with
  | [] => []
  | x :: t => x :: filter (fun y => negb (eqb x y)) (uniq_by eqb t)
  end.

Fixpoint insert_by {A : Type} (leb : A -> A -> bool) (x : A) (l : list A) : list A :=
  match l with
  | [] => [x]
  | y :: t => if leb x y then x :: l else y :: insert_by leb x t
  end.

Definition sort_by {A : Type} (leb : A -> A -> bool) (l : list A) : list A :=
  fold_right (insert_by leb) [] l.

(** The sorted distinct labels that index a cross-tabulation or a group-by. *)
Definition labels (l : list cell) : list cell := sort_by cell_leb (uniq_by cell_eqb l).

(** [series.unique()]: distinct values in order of appearance; a missing
    value is listed once. *)
Definition cell_same (a b : cell) : bool :=
  (is_missing a && is_missing b) || cell_eqb a b.

Definition unique (l : list cell) : list cell := uniq_by cell_same l.

(** Group keys made of several columns: equality and lexicographic order
    on tuples of labels. *)
Fixpoint tuple_eqb (a b : list cell) : bool :=
  match a, b with
  | [], [] => true
  | x :: a', y :: b' => cell_eqb x y && tuple_eqb a' b'
  | _, _ => false
  end.

Fixpoint tuple_leb (a b : list cell) : bool :=
  match a, b with
  | [], _ => true
  | _ :: _, [] => false
  | x :: a', y :: b' =>
      if cell_eqb x y then tuple_leb a' b' else cell_leb x y
  end.

Record Crosstab : Type := mkCrosstab {
  row_labels : list cell;
  col_labels : list cell;
  counts : list (list Z)
}.

(** The pairs of values of two aligned series, rows with a missing value on
    either side dropped. *)
Definition present_pairs (l1 l2 : list cell) : list (cell * cell) :=
  filter (fun p => negb (is_missing (fst p)) && negb (is_missing (snd p)))
         (combine l1 l2).

Definition pair_count (ps : list (cell * cell)) (r c : cell) : Z :=
  Z.of_nat (length (filter (fun p => cell_eqb (fst p) r && cell_eqb (snd p) c) ps)).

(** [tab A B f]: the matrix whose entry at row label [a] and column label
    [b] is [f a b]. *)
Definition tab {A B C : Type} (la : list A) (lb : list B) (f : A -> B -> C) : list (list C) :=
  map (fun a => map (fun b => f a b) lb) la.

(** [pd.crosstab(s1, s2)] *)
Definition crosstab (s1 s2 : Series) : Crosstab :=
  let ps := present_pairs (s_values s1) (s_values s2) in
  let rl := labels (map fst ps) in
  let cl := labels (map snd ps) in
  mkCrosstab rl cl (tab rl cl (pair_count ps)).

(** [contingency_table.shape] *)
Definition shape (t : Crosstab) : Z * Z :=
  (Z.of_nat (length (row_labels t)), Z.of_nat (length (col_labels t))).

Fixpoint Zsum (l : list Z) : Z :=
  match l with
  | [] => 0%Z
  | x :: t => (x + Zsum t)%Z
  end.

(** [contingency_table.sum().sum()] *)
Definition table_total (t : Crosstab) : Z := Zsum (map Zsum (counts t)).

(** ** The chi-square test of independence (SciPy) *)

Definition zip_with {A B C : Type} (f : A -> B -> C) (l1 : list A) (l2 : list B) : list C :=
  map (fun p => f (fst p) (snd p)) (combine l1 l2).

Definition matrix : Type := list (list R).

Definition row_sums (T : matrix) : list R := map Rsum T.

(** Column sums of a matrix with [ncols] columns. *)
Definition col_sums (ncols : nat) (T : matrix) : list R :=
  fold_right (zip_with Rplus) (repeat 0 ncols) T.

Definition matrix_sum (T : matrix) : R := Rsum (map Rsum T).

Definition ncols (T : matrix) : nat := length (hd [] T).

(** [scipy.stats.contingency.expected_freq]: the product of the margins
    over the grand total. *)
Definition expected_freq (T : matrix) : matrix :=
  let n := matrix_sum T in
  tab (row_sums T) (col_sums (ncols T) T) (fun r c => r * c / n).

Definition Rsign (x : R) : R :=
  if Rltb 0 x then 1 else if Rltb x 0 then -1 else 0.

(** Yates' continuity correction of one observed count towards its
    expected frequency, by at most one half. *)
Definition yates (o e : R) : R :=
  let diff := e - o in
  o + Rmin (1 / 2) (Rabs diff) * Rsign diff.

(** Pearson's statistic: the sum of [(observed - expected)^2 / expected]
    over all cells. *)
Definition pearson (O E : matrix) : R :=
  matrix_sum (zip_with (zip_with (fun o e => (o - e) * (o - e) / e)) O E).

Definition observed_of (T : list (list Z)) : matrix := map (map IZR) T.

Definition any_zero (T : matrix) : bool :=
  existsb (existsb (fun e => Reqb e 0)) T.

Section ChiSquareContingency.

(** Survival function of the chi-square distribution:
    [chi2.sf(statistic, dof)]. *)
Variable chi2_sf : R -> Z -> num.

(** Modelled from the spec: [scipy.stats.chi2_contingency] is library code
    outside the repository; this is the standard chi-square test of
    independence the specification names, as SciPy computes it: expected
    frequencies from the margins, [(rows-1)*(cols-1)] degrees of freedom, a
    zero statistic with p-value 1 when there is no degree of freedom, and
    Yates' continuity correction (SciPy's default) when there is exactly
    one.  It raises [ValueError] on an empty table and on a zero expected
    frequency. *)
Definition chi2_contingency (t : list (list Z)) (correction : bool)
  : res (num * num * Z * matrix) :=
  let O := observed_of t in
  let size := (length O * ncols O)%nat in
  if Nat.eqb size 0 then Raise ValueError
  else
    let E := expected_freq O in
    if any_zero E then Raise ValueError
    else
      let dof := (Z.of_nat size - (Z.of_nat (length O) + Z.of_nat (ncols O)) + 2 - 1)%Z in
      if Z.eqb dof 0 then Ok (Fin 0, Fin 1, dof, E)
      else
        let O' := if Z.eqb dof 1 && correction then zip_with (zip_with yates) O E else O in
        let chi2 := pearson O' E in
        Ok (Fin chi2, chi2_sf chi2 dof, dof, E).

End ChiSquareContingency.

(** ** Result records *)

Definition addr : Type := nat.

Module ChiSquare.
Record result : Type := mk {
  chi2_statistic : num;
  p_value : num;
  degrees_of_freedom : Z;
  cramers_v : num;
  is_significant : bool;
  interpretation : string;
  effect_size : string;
  contingency_table : addr
}.
End ChiSquare.

Module TTest.
Record result : Type := mk {
  test_type : string;
  statistic : num;
  p_value : num;
  mean_group1 : num;
  mean_group2 : num;
  std_group1 : num;
  std_group2 : num;
  cohens_d : num;
  effect_size : string;
  is_significant : bool;
  interpretation : string;
  n_group1 : nat;
  n_group2 : nat
}.
End TTest.

Module Anova.
Record result : Type := mk {
  f_statistic : num;
  p_value : num;
  eta_squared : num;
  effect_size : string;
  is_significant : bool;
  interpretation : string;
  group_stats : addr;
  n_groups : nat
}.
End Anova.

Module Importance.
Record entry : Type := mk {
  feature : string;
  importance_score : num;
  test_type : string;
  interpretation : string
}.
End Importance.

(** ** The heap of Python objects *)

(** An element of a Python list: a reference to an object or a scalar. *)
Inductive value : Type :=
| VRef (a : addr)
| VCell (c : cell).

Inductive obj : Type :=
| ODataFrame (d : DataFrame)
| OSample (s : list R)
| OCrosstab (t : Crosstab)
| OList (l : list value)
| ODict (d : list (string * num))
| OChiSquare (r : ChiSquare.result)
| OTTest (r : TTest.result)
| OAnova (r : Anova.result)
| OEntry (r : Importance.entry).

Definition heap : Type := list obj.

Fixpoint update (a : addr) (o : obj) (h : heap) : heap :=
  match h, a with
  | [], _ => []
  | _ :: t, O => o :: t
  | x :: t, S a' => x :: update a' o t
  end.

(** ** Computations: state over the heap, with exceptions *)

Definition M (A : Type) : Type := heap -> res A * heap.

Definition ret {A : Type} (a : A) : M A := fun h => (Ok a, h).

Definition bind {A B : Type} (m : M A) (k : A -> M B) : M B :=
  fun h =>
    match m h with
    | (Ok a, h') => k a h'
    | (Raise e, h') => (Raise e, h')
    end.

Definition raise {A : Type} (e : exn) : M A := fun h => (Raise e, h).

(** A computation that does not touch the heap. *)
Definition pure {A : Type} (r : res A) : M A := fun h => (r, h).

(** A new object, at the next free address. *)
Definition alloc (o : obj) : M addr := fun h => (Ok (length h), h ++ [o]).

Definition load (a : addr) : M obj :=
  fun h =>
    match nth_error h a with
    | Some o => (Ok o, h)
    | None => (Raise TypeError, h)
    end.

Definition store (a : addr) (o : obj) : M unit := fun h => (Ok tt, update a o h).

Notation "x <- m ;; k" := (bind m (fun x => k))
  (at level 61, m at next level, right associativity).
Notation "' p <- m ;; k" := (bind m (fun x => match x with p => k end))
  (at level 61, p pattern, m at next level, right associativity).
Notation "m ;;; k" := (bind m (fun _ => k))
  (at level 61, right associativity).

Definition load_frame (a : addr) : M DataFrame :=
  o <- load a ;;
  match o with
  | ODataFrame d => ret d
  | _ => raise TypeError
  end.

Definition load_sample (a : addr) : M (list R) :=
  o <- load a ;;
  match o with
  | OSample s => ret s
  | _ => raise TypeError
  end.

Definition load_list (a : addr) : M (list value) :=
  o <- load a ;;
  match o with
  | OList l => ret l
  | _ => raise TypeError
  end.

Definition load_dict (a : addr) : M (list (string * num)) :=
  o <- load a ;;
  match o with
  | ODict d => ret d
  | _ => raise TypeError
  end.

(** [lst.append(v)] *)
Definition list_append (a : addr) (v : value) : M unit :=
  l <- load_list a ;;
  store a (OList (l ++ [v])).

Fixpoint dict_set (k : string) (v : num) (d : list (string * num)) : list (string * num) :=
  match d with
  | [] => [(k, v)]
  | (k', v') :: t => if String.eqb k' k then (k, v) :: t else (k', v') :: dict_set k v t
  end.

Fixpoint dict_get (k : string) (d : list (string * num)) : option num :=
  match d with
  | [] => None
  | (k', v) :: t => if String.eqb k' k then Some v else dict_get k t
  end.

(** [d[k] = v] *)
Definition dict_setitem (a : addr) (k : string) (v : num) : M unit :=
  d <- load_dict a ;;
  store a (ODict (dict_set k v d)).

(** [for x in l: body x] *)
Fixpoint for_each {A : Type} (l : list A) (body : A -> M unit) : M unit :=
  match l with
  | [] => ret tt
  | x :: t => body x ;;; for_each t body
  end.

(** The samples a list of references points to. *)
Fixpoint load_samples (l : list value) : M (list (list R)) :=
  match l with
  | [] => ret []
  | VRef a :: t =>
      s <- load_sample a ;;
      r <- load_samples t ;;
      ret (s :: r)
  | VCell _ :: _ => raise TypeError
  end.

(** ** Operations on data frames *)

Fixpoint col_indices (names : list string) (sch : list (string * dtype)) : res (list nat) :=
  match names with
  | [] => Ok []
  | n :: t =>
      match col_index n sch with
      | Some (j, _) => res_bind (col_indices t sch) (fun js => Ok (j :: js))
      | None => Raise (KeyError n)
      end
  end.

Definition key_of (js : list nat) (r : row) : list cell := map (fun j => cell_at j r) js.

Definition key_present (k : list cell) : bool := forallb (fun c => negb (is_missing c)) k.

(** [df.groupby(names)]: the sorted distinct keys, each with the rows that
    carry it; rows with a missing key are left out. *)
Definition groupby (d : DataFrame) (names : list string) : res (list (list cell * list row)) :=
  res_bind (col_indices names (schema d)) (fun js =>
    let present := filter (fun r => key_present (key_of js r)) (rows d) in
    let keys := sort_by tuple_leb (uniq_by tuple_eqb (map (key_of js) present)) in
    Ok (map (fun k => (k, filter (fun r => tuple_eqb (key_of js r) k) present)) keys)).

(** [df.groupby(group_var)[numeric_var]]: the groups of one column, keyed by
    one label. *)
Definition groupby_series (d : DataFrame) (group_var numeric_var : string)
  : res (list (cell * Series)) :=
  res_bind (groupby d [group_var]) (fun gs =>
    match col_index numeric_var (schema d) with
    | Some (j, t) =>
        Ok (map (fun g => (hd Missing (fst g), mkSeries t (map (cell_at j) (snd g)))) gs)
    | None => Raise (KeyError numeric_var)
    end).

(** Rows in descending order of the number in column [j]; rows whose key is
    [NaN] come last, as pandas places them. *)
Fixpoint insert_desc (j : nat) (x : row) (l : list row) : list row :=
  match l with
  | [] => [x]
  | y :: t =>
      if Num.ltb (cell_num (cell_at j y)) (cell_num (cell_at j x))
      then x :: l
      else y :: insert_desc j x t
  end.

Definition sort_rows_desc (j : nat) (l : list row) : list row :=
  fold_right (insert_desc j) []
             (filter (fun r => negb (Num.is_nan (cell_num (cell_at j r)))) l)
  ++ filter (fun r => Num.is_nan (cell_num (cell_at j r))) l.

(** [df.sort_values(by, ascending=False)]: a new frame. *)
Definition sort_values_desc (d : DataFrame) (by_ : string) : res DataFrame :=
  match col_index by_ (schema d) with
  | Some (j, _) => Ok (mkDataFrame (schema d) (sort_rows_desc j (rows d)))
  | None => Raise (KeyError by_)
  end.

Fixpoint set_nth (j : nat) (c : cell) (l : list cell) : list cell :=
  match l, j with
  | [], _ => []
  | _ :: t, O => c :: t
  | x :: t, S j' => x :: set_nth j' c t
  end.

(** The frame after [df[name] = values]: the column is replaced when it
    exists and appended otherwise. *)
Definition with_column (d : DataFrame) (name : string) (t : dtype) (vals : list cell)
  : DataFrame :=
  match col_index name (schema d) with
  | Some (j, _) =>
      mkDataFrame (map (fun c => if String.eqb (fst c) name then (name, t) else c) (schema d))
                  (map (fun p => (fst (fst p), set_nth j (snd p) (snd (fst p))))
                       (combine (rows d) vals))
  | None =>
      mkDataFrame (schema d ++ [(name, t)])
                  (map (fun p => (fst (fst p), snd (fst p) ++ [snd p]))
                       (combine (rows d) vals))
  end.

(** [df[name] = values], in place. *)
Definition frame_setitem (a : addr) (name : string) (t : dtype) (vals : list cell) : M unit :=
  d <- load_frame a ;;
  store a (ODataFrame (with_column d name t vals)).

(** [df.columns = names], in place; [ValueError] on a length mismatch. *)
Definition frame_set_columns (a : addr) (names : list string) : M unit :=
  d <- load_frame a ;;
  if Nat.eqb (length names) (length (schema d))
  then store a (ODataFrame (mkDataFrame (map (fun p => (fst p, snd (snd p)))
                                             (combine names (schema d)))
                                        (rows d)))
  else raise ValueError.

(** [row[name]] inside [df.apply(..., axis=1)]. *)
Definition row_get (d : DataFrame) (name : string) (r : row) : res num :=
  match col_index name (schema d) with
  | Some (j, _) => Ok (cell_num (cell_at j r))
  | None => Raise (KeyError name)
  end.

Fixpoint res_map {A B : Type} (f : A -> res B) (l : list A) : res (list B) :=
  match l with
  | [] => Ok []
  | x :: t => res_bind (f x) (fun y => res_bind (res_map f t) (fun r => Ok (y :: r)))
  end.

Definition value_cell (v : value) : cell :=
  match v with VCell c => c | VRef _ => Missing end.

Fixpoint load_entries (l : list value) : M (list Importance.entry) :=
  match l with
  | [] => ret []
  | VRef a :: t =>
      o <- load a ;;
      match o with
      | OEntry e => r <- load_entries t ;; ret (e :: r)
      | _ => raise TypeError
      end
  | VCell _ :: _ => raise TypeError
  end.

(** Row [i] of a frame with the default integer index. *)
Definition indexed {A : Type} (f : A -> list cell) (l : list A) : list row :=
  map (fun p => ([Int (Z.of_nat (fst p))], f (snd p))) (combine (seq 0 (length l)) l).

(** ** The module [utils_stats] *)

Open Scope string_scope.

Definition alpha : num := lit 5 100.

Definition interpret_cramers_v (v : num) : string :=
  if (v <? lit 1 10)%num then "Efecto despreciable"
  else if (v <? lit 3 10)%num then "Efecto pequeño"
  else if (v <? lit 5 10)%num then "Efecto mediano"
  else "Efecto grande".

Definition interpret_cohens_d (d : num) : string :=
  if (d <? lit 2 10)%num then "Efecto despreciable"
  else if (d <? lit 5 10)%num then "Efecto pequeño"
  else if (d <? lit 8 10)%num then "Efecto mediano"
  else "Efecto grande".

Definition interpret_eta_squared (eta2 : num) : string :=
  if (eta2 <? lit 1 100)%num then "Efecto despreciable"
  else if (eta2 <? lit 6 100)%num then "Efecto pequeño"
  else if (eta2 <? lit 14 100)%num then "Efecto mediano"
  else "Efecto grande".

Definition interpret_importance_score (score : num) : string :=
  if (score <? lit 1 10)%num then "Muy baja"
  else if (score <? lit 3 10)%num then "Baja"
  else if (score <? lit 5 10)%num then "Moderada"
  else if (score <? lit 7 10)%num then "Alta"
  else "Muy alta".

Definition is_categorical (t : dtype) : bool :=
  match t with DObject | DCategory => true | DInt | DFloat => false end.

Section Engine.

(** *** Library functions the module calls *)

(** [scipy.stats]: each test maps its samples to a statistic and a p-value,
    or raises; none of them modifies its arguments. *)
Variable chi2_sf : R -> Z -> num.
Variable shapiro : list R -> res (num * num).
Variable levene : list R -> list R -> res (num * num).
Variable ttest_ind : list R -> list R -> bool -> res (num * num).
Variable mannwhitneyu : list R -> list R -> res (num * num).
Variable f_oneway : list (list R) -> res (num * num).
Variable pointbiserialr : list num -> list num -> res (num * num).
Variable norm_ppf : num -> num.

(** String formatting: [f"{p:.4f}"] and [f"{x}"] for a number. *)
Variable format_4f : num -> string.
Variable format_number : R -> string.

Definition str_of_cell (c : cell) : string :=
  match c with
  | Label s => s
  | Missing => "nan"
  | Int z => format_number (IZR z)
  | Flt x => format_number x
  end.

Definition verdict (is_significant : bool) : string :=
  if is_significant then "Existe" else "No existe".

(** *** perform_chi_square_test *)

Definition perform_chi_square_test (df : addr) (var1 var2 : string) : M addr :=
  d <- load_frame df ;;
  s1 <- pure (getitem d var1) ;;
  s2 <- pure (getitem d var2) ;;
  let table := crosstab s1 s2 in
  contingency_table <- alloc (OCrosstab table) ;;
  ' (chi2, p_value, dof, expected) <- pure (chi2_contingency chi2_sf (counts table) true) ;;
  let n := table_total table in
  let min_dim := (Z.min (fst (shape table)) (snd (shape table)) - 1)%Z in
  let cramers_v :=
    if (0 <? min_dim)%Z
    then Num.sqrt (chi2 / Num.of_Z (n * min_dim))%num
    else Fin 0 in
  let is_significant := (p_value <? alpha)%num in
  alloc (OChiSquare
    (ChiSquare.mk chi2 p_value dof cramers_v is_significant
       (verdict is_significant ++ " asociación significativa entre " ++ var1
          ++ " y " ++ var2 ++ " (p=" ++ format_4f p_value ++ ")")
       (interpret_cramers_v cramers_v)
       contingency_table)).

(** *** perform_t_test *)

(** [df[df[group_var] == group][numeric_var].dropna()] *)
Definition group_sample (d : DataFrame) (numeric_var group_var group : string)
  : res (list R) :=
  res_bind (select_eq d group_var (Label group)) (fun g =>
  res_bind (getitem g numeric_var) dropna).

(** The p-value of the normality check of one sample; the check is skipped
    for samples of 5000 values or more. *)
Definition normality_p (data : list R) : res num :=
  if (length data <? 5000)%nat
  then res_bind (shapiro data) (fun sp => Ok (snd sp))
  else Ok (Fin 1).

Definition perform_t_test (df : addr) (numeric_var group_var group1 group2 : string)
  : M addr :=
  d <- load_frame df ;;
  s1 <- pure (group_sample d numeric_var group_var group1) ;;
  data1 <- alloc (OSample s1) ;;
  s2 <- pure (group_sample d numeric_var group_var group2) ;;
  data2 <- alloc (OSample s2) ;;
  p_norm1 <- pure (normality_p s1) ;;
  p_norm2 <- pure (normality_p s2) ;;
  ' (_, p_levene) <- pure (levene s1 s2) ;;
  ' (test_type, t_stat, p_value) <-
    pure (if Num.truthy p_norm1 && Num.truthy p_norm2
             && (p_norm1 >? alpha)%num && (p_norm2 >? alpha)%num
          then
            if (p_levene >? alpha)%num
            then res_bind (ttest_ind s1 s2 true) (fun tp =>
                   Ok ("T-test (varianzas iguales)", fst tp, snd tp))
            else res_bind (ttest_ind s1 s2 false) (fun tp =>
                   Ok ("T-test de Welch (varianzas diferentes)", fst tp, snd tp))
          else res_bind (mannwhitneyu s1 s2) (fun up =>
                   Ok ("Mann-Whitney U", fst up, snd up))) ;;
  let mean1 := mean s1 in
  let mean2 := mean s2 in
  let std1 := std s1 in
  let std2 := std s2 in
  let pooled_std := Num.sqrt ((Num.sqr std1 + Num.sqr std2) / Fin 2)%num in
  let cohens_d :=
    if (pooled_std >? Fin 0)%num then ((mean1 - mean2) / pooled_std)%num else Fin 0 in
  let is_significant := (p_value <? alpha)%num in
  alloc (OTTest
    (TTest.mk test_type t_stat p_value mean1 mean2 std1 std2 cohens_d
       (interpret_cohens_d (Num.abs cohens_d))
       is_significant
       (verdict is_significant ++ " diferencia significativa entre " ++ group1
          ++ " y " ++ group2 ++ " (p=" ++ format_4f p_value ++ ")")
       (length s1) (length s2))).

(** *** perform_anova *)

(** [pd.DataFrame({'group': ..., 'n': ..., 'mean': ..., 'std': ..., 'median': ...})] *)
Definition group_stats_frame (names : list cell) (groups : list (list R)) : DataFrame :=
  mkDataFrame
    [("group", DObject); ("n", DInt); ("mean", DFloat); ("std", DFloat); ("median", DFloat)]
    (indexed (fun p : cell * list R =>
                [fst p; Int (Z.of_nat (length (snd p))); num_cell (mean (snd p));
                 num_cell (std (snd p)); num_cell (median (snd p))])
             (combine names groups)).

Definition ss_between (grand_mean : num) (groups : list (list R)) : num :=
  Num.sum (map (fun g => (Num.of_nat (length g) * Num.sqr (mean g - grand_mean))%num) groups).

Definition ss_total (grand_mean : num) (groups : list (list R)) : num :=
  Num.sum (flat_map (fun g => map (fun x => Num.sqr (Fin x - grand_mean)%num) g) groups).

Definition perform_anova (df : addr) (numeric_var group_var : string) : M addr :=
  groups <- alloc (OList []) ;;
  group_names <- alloc (OList []) ;;
  d <- load_frame df ;;
  grouped <- pure (groupby_series d group_var numeric_var) ;;
  for_each grouped (fun ng =>
    g <- pure (dropna (snd ng)) ;;
    sample <- alloc (OSample g) ;;
    list_append groups (VRef sample) ;;;
    list_append group_names (VCell (fst ng))) ;;;
  refs <- load_list groups ;;
  samples <- load_samples refs ;;
  ' (f_stat, p_value) <- pure (f_oneway samples) ;;
  grand_mean <- pure (res_bind (getitem d numeric_var) series_mean) ;;
  let ssb := ss_between grand_mean samples in
  let sst := ss_total grand_mean samples in
  let eta_squared := if (sst >? Fin 0)%num then (ssb / sst)%num else Fin 0 in
  let is_significant := (p_value <? alpha)%num in
  names <- load_list group_names ;;
  group_stats <- alloc (ODataFrame (group_stats_frame (map value_cell names) samples)) ;;
  alloc (OAnova
    (Anova.mk f_stat p_value eta_squared
       (interpret_eta_squared eta_squared)
       is_significant
       (verdict is_significant ++ " diferencia significativa entre grupos (p="
          ++ format_4f p_value ++ ")")
       group_stats
       (length refs))).

(** *** calculate_proportion_ci *)

Definition calculate_proportion_ci (successes total confidence : num) : num * num :=
  if (total =? Fin 0)%num then (Fin 0, Fin 0)
  else
    let p := (successes / total)%num in
    let z := norm_ppf (Fin 1 - (Fin 1 - confidence) / Fin 2)%num in
    let se := Num.sqrt (p * (Fin 1 - p) / total)%num in
    let ci_lower := Num.pymax (Fin 0) (p - z * se)%num in
    let ci_upper := Num.pymin (Fin 1) (p + z * se)%num in
    (ci_lower, ci_upper).

Definition default_confidence : num := lit 95 100.

(** *** calculate_cancellation_metrics *)

(** [df.groupby(group_vars).agg({'is_canceled': ['sum', 'mean', 'count']})]:
    one row per group, indexed by the group key. *)
Definition agg_is_canceled (d : DataFrame) (group_vars : list string) : res DataFrame :=
  res_bind (groupby d group_vars) (fun gs =>
  match col_index "is_canceled" (schema d) with
  | Some (j, t) =>
      res_bind
        (res_map (fun g : list cell * list row =>
                    res_bind (dropna (mkSeries t (map (cell_at j) (snd g)))) (fun l =>
                    Ok (fst g, [Flt (Rsum l); num_cell (mean l); Int (Z.of_nat (length l))])))
                 gs)
        (fun body =>
           Ok (mkDataFrame [("('is_canceled', 'sum')", t);
                            ("('is_canceled', 'mean')", DFloat);
                            ("('is_canceled', 'count')", DInt)]
                           body))
  | None => Raise (KeyError "is_canceled")
  end).

(** [metrics.apply(lambda row: calculate_proportion_ci(row['cancelaciones'],
    row['total_reservas'])[k], axis=1)] *)
Definition ci_column (d : DataFrame) (pick : num * num -> num) : res (list cell) :=
  res_map (fun r =>
             res_bind (row_get d "cancelaciones" r) (fun c =>
             res_bind (row_get d "total_reservas" r) (fun t =>
             Ok (num_cell (pick (calculate_proportion_ci c t default_confidence))))))
          (rows d).

Definition calculate_cancellation_metrics (df : addr) (group_vars : list string) : M addr :=
  d <- load_frame df ;;
  agg <- pure (agg_is_canceled d group_vars) ;;
  metrics <- alloc (ODataFrame agg) ;;
  frame_set_columns metrics ["cancelaciones"; "tasa_cancelacion"; "total_reservas"] ;;;
  m <- load_frame metrics ;;
  total <- pure (res_bind (getitem m "total_reservas") to_nums) ;;
  canc <- pure (res_bind (getitem m "cancelaciones") to_nums) ;;
  frame_setitem metrics "no_canceladas" DFloat
    (map num_cell (zip_with Num.sub total canc)) ;;;
  m <- load_frame metrics ;;
  rate <- pure (res_bind (getitem m "tasa_cancelacion") to_nums) ;;
  frame_setitem metrics "tasa_confirmacion" DFloat
    (map (fun r => num_cell (Fin 1 - r)%num) rate) ;;;
  m <- load_frame metrics ;;
  lower <- pure (ci_column m fst) ;;
  frame_setitem metrics "ci_lower" DFloat lower ;;;
  m <- load_frame metrics ;;
  upper <- pure (ci_column m snd) ;;
  frame_setitem metrics "ci_upper" DFloat upper ;;;
  m <- load_frame metrics ;;
  sorted <- pure (sort_values_desc m "tasa_cancelacion") ;;
  alloc (ODataFrame sorted).

(** *** analyze_feature_importance *)

(** [pd.DataFrame(importance_scores)]: one row per entry; no column at all
    when the list is empty. *)
Definition importance_frame (entries : list Importance.entry) : DataFrame :=
  match entries with
  | [] => mkDataFrame [] []
  | _ =>
      mkDataFrame
        [("feature", DObject); ("importance_score", DFloat);
         ("test_type", DObject); ("interpretation", DObject)]
        (indexed (fun e =>
                    [Label (Importance.feature e); num_cell (Importance.importance_score e);
                     Label (Importance.test_type e); Label (Importance.interpretation e)])
                 entries)
  end.

(** [df[feature].fillna(df[feature].median())] *)
Definition impute_median (l : list num) : list num :=
  fillna (median (finite_values l)) l.

(** The score of one feature and the name of the measure. *)
Definition score_feature (df : addr) (d : DataFrame) (target feature : string)
  : M (num * string) :=
  s <- pure (getitem d feature) ;;
  if is_categorical (s_dtype s) then
    result <- perform_chi_square_test df feature target ;;
    o <- load result ;;
    match o with
    | OChiSquare r => ret (ChiSquare.cramers_v r, "Cramér's V")
    | _ => raise TypeError
    end
  else
    t <- pure (res_bind (getitem d target) to_nums) ;;
    f <- pure (to_nums s) ;;
    ' (score, p_value) <- pure (pointbiserialr t (impute_median f)) ;;
    ret (Num.abs score, "Correlación").

Definition analyze_feature_importance (df : addr) (target : string) (features : list string)
  : M addr :=
  importance_scores <- alloc (OList []) ;;
  for_each features (fun feature =>
    d <- load_frame df ;;
    ' (score, test_type) <- score_feature df d target feature ;;
    e <- alloc (OEntry (Importance.mk feature score test_type
                          (interpret_importance_score score))) ;;
    list_append importance_scores (VRef e)) ;;;
  refs <- load_list importance_scores ;;
  entries <- load_entries refs ;;
  importance_df <- alloc (ODataFrame (importance_frame entries)) ;;
  unsorted <- load_frame importance_df ;;
  sorted <- pure (sort_values_desc unsorted "importance_score") ;;
  alloc (ODataFrame sorted).

(** *** calculate_business_metrics *)

(** [df[df[name] > 0][name].mean() if name in df.columns else 0] *)
Definition positive_mean (d : DataFrame) (name : string) : res num :=
  if has_column d name
  then res_bind (select_pos d name) (fun p => res_bind (getitem p name) series_mean)
  else Ok (Fin 0).

(** [df[name].sum() if name in df.columns else 0] *)
Definition sum_if_present (d : DataFrame) (name : string) : res num :=
  if has_column d name
  then res_bind (getitem d name) series_sum
  else Ok (Fin 0).

(** [(a * b).sum()] over two aligned numeric series. *)
Definition sum_product (a b : Series) : res num :=
  res_bind (to_nums a) (fun x =>
  res_bind (to_nums b) (fun y =>
  Ok (Fin (Rsum (finite_values (zip_with Num.mul x y)))))).

Definition occupancy (total_room_nights canceled_room_nights : num) : num :=
  if (total_room_nights >? Fin 0)%num
  then ((total_room_nights - canceled_room_nights) / total_room_nights)%num
  else Fin 0.

Definition calculate_business_metrics (df : addr) : M addr :=
  metrics <- alloc (ODict []) ;;
  d <- load_frame df ;;
  dict_setitem metrics "total_bookings" (Num.of_nat (length (rows d))) ;;;
  rate <- pure (res_bind (getitem d "is_canceled") series_mean) ;;
  dict_setitem metrics "cancellation_rate" rate ;;;
  lead <- pure (res_bind (getitem d "lead_time") series_mean) ;;
  dict_setitem metrics "avg_lead_time" lead ;;;
  adr <- pure (positive_mean d "adr") ;;
  dict_setitem metrics "avg_adr" adr ;;;
  hotel <- pure (getitem d "hotel") ;;
  for_each (unique (s_values hotel)) (fun hotel_type =>
    hd <- pure (select_eq d "hotel" hotel_type) ;;
    hotel_data <- alloc (ODataFrame hd) ;;
    r <- pure (res_bind (getitem hd "is_canceled") series_mean) ;;
    dict_setitem metrics (str_of_cell hotel_type ++ "_cancellation_rate") r ;;;
    a <- pure (positive_mean hd "adr") ;;
    dict_setitem metrics (str_of_cell hotel_type ++ "_avg_adr") a) ;;;
  (if has_column d "adr" && has_column d "total_stay_nights" then
     cb <- pure (select_eq d "is_canceled" (Int 1)) ;;
     canceled_bookings <- alloc (ODataFrame cb) ;;
     loss <- pure (res_bind (getitem cb "adr") (fun a =>
                   res_bind (getitem cb "total_stay_nights") (fun n =>
                   sum_product a n))) ;;
     dict_setitem metrics "potential_revenue_loss" loss
   else ret tt) ;;;
  total_room_nights <- pure (sum_if_present d "total_stay_nights") ;;
  canceled_room_nights <-
    pure (if has_column d "total_stay_nights"
          then res_bind (select_eq d "is_canceled" (Int 1)) (fun c =>
               res_bind (getitem c "total_stay_nights") series_sum)
          else Ok (Fin 0)) ;;
  dict_setitem metrics "estimated_occupancy_rate"
    (occupancy total_room_nights canceled_room_nights) ;;;
  ret metrics.

(** * Verification *)

Open Scope list_scope.

(** ** Sums over lists *)


Lemma Rsum_nonneg (l : list R) : (forall x, In x l -> 0 <= x) -> 0 <= Rsum l.
Proof.
  induction l as [|x l IH]; simpl; intros H; [lra |].
  assert (0 <= x) by (apply H; auto).
  assert (0 <= Rsum l) by (apply IH; intros; apply H; auto).
  lra.
Qed.

Lemma Rsum_map_le {A : Type} (f g : A -> R) (l : list A) :
  (forall a, In a l -> f a <= g a) ->
  Rsum (map f l) <= Rsum (map g l).
Proof.
  induction l as [|a l IH]; simpl; intros H; [lra |].
  assert (f a <= g a) by (apply H; auto).
  assert (Rsum (map f l) <= Rsum (map g l)) by (apply IH; intros; apply H; auto).
  lra.
Qed.

Lemma Rsum_map_ext {A : Type} (f g : A -> R) (l : list A) :
  (forall a, In a l -> f a = g a) ->
  Rsum (map f l) = Rsum (map g l).
Proof.
  intros H. f_equal. apply map_ext_in. exact H.
Qed.

Lemma Rsum_map_plus {A : Type} (f g : A -> R) (l : list A) :
  Rsum (map (fun a => f a + g a) l) = Rsum (map f l) + Rsum (map g l).
Proof. induction l as [|a l IH]; simpl; [lra | rewrite IH; lra]. Qed.

Lemma Rsum_map_scale {A : Type} (c : R) (f : A -> R) (l : list A) :
  Rsum (map (fun a => c * f a) l) = c * Rsum (map f l).
Proof. induction l as [|a l IH]; simpl; [lra | rewrite IH; lra]. Qed.

Lemma Rsum_map_const {A : Type} (c : R) (l : list A) :
  Rsum (map (fun _ => c) l) = INR (length l) * c.
Proof.
  induction l as [|a l IH]; [simpl; lra |].
  cbn [map Rsum length]. rewrite IH, S_INR. lra.
Qed.

Lemma Rsum_member_le {A : Type} (f : A -> R) (l : list A) (a : A) :
  (forall x, In x l -> 0 <= f x) -> In a l -> f a <= Rsum (map f l).
Proof.
  induction l as [|x l IH]; simpl; intros Hpos Hin; [tauto |].
  assert (0 <= f x) by (apply Hpos; auto).
  assert (0 <= Rsum (map f l)).
  { apply Rsum_nonneg. intros y Hy. apply in_map_iff in Hy as [z [<- Hz]]. apply Hpos; auto. }
  destruct Hin as [-> | Hin]; [lra |].
  assert (f a <= Rsum (map f l)) by (apply IH; auto).
  lra.
Qed.

(** Double sums over two label lists, and the exchange of the two sums. *)
Definition dsum {A B : Type} (la : list A) (lb : list B) (h : A -> B -> R) : R :=
  Rsum (map (fun a => Rsum (map (h a) lb)) la).

Lemma dsum_swap {A B : Type} (la : list A) (lb : list B) (h : A -> B -> R) :
  dsum la lb h = dsum lb la (fun b a => h a b).
Proof.
  unfold dsum. induction la as [|a la IH]; simpl.
  - symmetry. rewrite (Rsum_map_const 0). lra.
  - rewrite IH. rewrite <- Rsum_map_plus. reflexivity.
Qed.

Lemma dsum_le {A B : Type} (la : list A) (lb : list B) (h1 h2 : A -> B -> R) :
  (forall a b, In a la -> In b lb -> h1 a b <= h2 a b) ->
  dsum la lb h1 <= dsum la lb h2.
Proof.
  intros H. unfold dsum. apply Rsum_map_le. intros a Ha.
  apply Rsum_map_le. intros b Hb. auto.
Qed.

Lemma dsum_nonneg {A B : Type} (la : list A) (lb : list B) (h : A -> B -> R) :
  (forall a b, In a la -> In b lb -> 0 <= h a b) ->
  0 <= dsum la lb h.
Proof.
  intros H. unfold dsum. apply Rsum_nonneg. intros x Hx.
  apply in_map_iff in Hx as [a [<- Ha]].
  apply Rsum_nonneg. intros y Hy.
  apply in_map_iff in Hy as [b [<- Hb]]. auto.
Qed.

(** ** Matrices given by their entries *)

Lemma zip_with_map_same {A B C D : Type} (g : B -> C -> D) (f1 : A -> B) (f2 : A -> C)
      (l : list A) :
  zip_with g (map f1 l) (map f2 l) = map (fun a => g (f1 a) (f2 a)) l.
Proof. unfold zip_with. induction l as [|a l IH]; simpl; [reflexivity | now rewrite IH]. Qed.

Lemma tab_zip {A B C D E : Type} (g : C -> D -> E) (la : list A) (lb : list B)
      (f : A -> B -> C) (e : A -> B -> D) :
  zip_with (zip_with g) (tab la lb f) (tab la lb e) = tab la lb (fun a b => g (f a b) (e a b)).
Proof.
  unfold tab. rewrite zip_with_map_same. apply map_ext. intros a.
  apply zip_with_map_same.
Qed.

Lemma tab_map {A B C D : Type} (g : C -> D) (la : list A) (lb : list B) (f : A -> B -> C) :
  map (map g) (tab la lb f) = tab la lb (fun a b => g (f a b)).
Proof.
  unfold tab. rewrite map_map. apply map_ext. intros a. now rewrite map_map.
Qed.

Lemma tab_of_maps {A B A' B' C : Type} (u : A -> A') (v : B -> B') (la : list A) (lb : list B)
      (g : A' -> B' -> C) :
  tab (map u la) (map v lb) g = tab la lb (fun a b => g (u a) (v b)).
Proof.
  unfold tab. rewrite map_map. apply map_ext. intros a. now rewrite map_map.
Qed.

Lemma matrix_sum_tab {A B : Type} (la : list A) (lb : list B) (f : A -> B -> R) :
  matrix_sum (tab la lb f) = dsum la lb f.
Proof. unfold matrix_sum, tab, dsum. now rewrite map_map. Qed.

Lemma row_sums_tab {A B : Type} (la : list A) (lb : list B) (f : A -> B -> R) :
  row_sums (tab la lb f) = map (fun a => Rsum (map (f a) lb)) la.
Proof. unfold row_sums, tab. now rewrite map_map. Qed.

Lemma col_sums_tab {A B : Type} (la : list A) (lb : list B) (f : A -> B -> R) :
  col_sums (length lb) (tab la lb f) = map (fun b => Rsum (map (fun a => f a b) la)) lb.
Proof.
  unfold col_sums. induction la as [|a la IH]; simpl.
  - induction lb as [|b lb IHb]; simpl; [reflexivity | now rewrite IHb].
  - rewrite IH. apply zip_with_map_same.
Qed.

Lemma ncols_tab {A B C : Type} (a : A) (la : list A) (lb : list B) (f : A -> B -> C) :
  length (hd [] (tab (a :: la) lb f)) = length lb.
Proof. simpl. apply length_map. Qed.

(** ** Pearson's statistic is bounded by the table size *)

Section PearsonBound.

Context {A B : Type}.
Variables (la : list A) (lb : list B) (f : A -> B -> R).

Definition rsum (a : A) : R := Rsum (map (f a) lb).
Definition csum (b : B) : R := Rsum (map (fun a => f a b) la).
Definition total : R := dsum la lb f.
Definition expect (a : A) (b : B) : R := rsum a * csum b / total.

Hypothesis f_nonneg : forall a b, In a la -> In b lb -> 0 <= f a b.
Hypothesis rsum_pos : forall a, In a la -> 0 < rsum a.
Hypothesis csum_pos : forall b, In b lb -> 0 < csum b.
Hypothesis la_nonempty : la <> [].

Lemma total_rsum : total = Rsum (map rsum la).
Proof. reflexivity. Qed.

Lemma total_csum : total = Rsum (map csum lb).
Proof. unfold total. rewrite dsum_swap. reflexivity. Qed.

Lemma total_pos : 0 < total.
Proof.
  rewrite total_rsum. destruct la as [|a l]; [congruence |].
  simpl. assert (0 < rsum a) by (apply rsum_pos; simpl; auto).
  assert (0 <= Rsum (map rsum l)).
  { apply Rsum_nonneg. intros x Hx. apply in_map_iff in Hx as [y [<- Hy]].
    apply Rlt_le, rsum_pos. simpl; auto. }
  lra.
Qed.

Lemma expect_pos a b : In a la -> In b lb -> 0 < expect a b.
Proof.
  intros Ha Hb. unfold expect.
  apply Rdiv_lt_0_compat; [apply Rmult_lt_0_compat; auto | apply total_pos].
Qed.

Lemma entry_le_csum a b : In a la -> In b lb -> f a b <= csum b.
Proof.
  intros Ha Hb. unfold csum.
  apply (Rsum_member_le (fun a => f a b)); auto.
Qed.

Lemma pearson_term_bound a b :
  In a la -> In b lb ->
  (f a b - expect a b) * (f a b - expect a b) / expect a b
  <= total / rsum a * f a b + (-2) * f a b + rsum a / total * csum b.
Proof.
  intros Ha Hb.
  pose proof (f_nonneg a b Ha Hb) as Hx.
  pose proof (rsum_pos a Ha) as Hr.
  pose proof (csum_pos b Hb) as Hg.
  pose proof total_pos as Hn.
  pose proof (entry_le_csum a b Ha Hb) as Hle.
  unfold expect.
  set (x := f a b) in *. set (r := rsum a) in *. set (g := csum b) in *.
  set (n := total) in *.
  assert (E : n / r * x + -2 * x + r / n * g - (x - r * g / n) * (x - r * g / n) / (r * g / n)
              = n * x * (g - x) / (r * g)).
  { field. repeat split; lra. }
  assert (0 <= n * x * (g - x) / (r * g)).
  { apply Rmult_le_pos.
    - apply Rmult_le_pos; [apply Rmult_le_pos; lra | lra].
    - apply Rlt_le, Rinv_0_lt_compat, Rmult_lt_0_compat; lra. }
  lra.
Qed.

Lemma pearson_row_sum a :
  In a la ->
  Rsum (map (fun b => total / rsum a * f a b + (-2) * f a b + rsum a / total * csum b) lb)
  = total - rsum a.
Proof.
  intros Ha.
  pose proof (rsum_pos a Ha) as Hr. pose proof total_pos as Hn.
  rewrite (Rsum_map_plus (fun b => total / rsum a * f a b + -2 * f a b)
                         (fun b => rsum a / total * csum b)).
  rewrite (Rsum_map_plus (fun b => total / rsum a * f a b) (fun b => -2 * f a b)).
  rewrite !Rsum_map_scale. rewrite <- total_csum.
  fold (rsum a). field. split; lra.
Qed.

(** The statistic is at most [total * (rows - 1)]. *)
Lemma pearson_rows_bound :
  dsum la lb (fun a b => (f a b - expect a b) * (f a b - expect a b) / expect a b)
  <= total * (INR (length la) - 1).
Proof.
  apply Rle_trans with
    (dsum la lb (fun a b => total / rsum a * f a b + (-2) * f a b + rsum a / total * csum b)).
  - apply dsum_le. intros a b Ha Hb. now apply pearson_term_bound.
  - unfold dsum at 1.
    rewrite (Rsum_map_ext _ (fun a => total + (-1) * rsum a)).
    + rewrite Rsum_map_plus, Rsum_map_const, Rsum_map_scale, <- total_rsum. lra.
    + intros a Ha. rewrite pearson_row_sum by assumption. lra.
Qed.

Lemma pearson_nonneg :
  0 <= dsum la lb (fun a b => (f a b - expect a b) * (f a b - expect a b) / expect a b).
Proof.
  apply dsum_nonneg. intros a b Ha Hb.
  pose proof (expect_pos a b Ha Hb).
  pose proof (Rle_0_sqr (f a b - expect a b)) as Hsq. unfold Rsqr in Hsq.
  apply Rmult_le_pos; [exact Hsq | apply Rlt_le, Rinv_0_lt_compat; assumption].
Qed.

End PearsonBound.

Lemma expect_swap {A B : Type} (la : list A) (lb : list B) (f : A -> B -> R) a b :
  expect lb la (fun b a => f a b) b a = expect la lb f a b.
Proof.
  unfold expect, rsum, csum, total. rewrite <- (dsum_swap la lb f).
  rewrite (Rmult_comm (Rsum (map (fun a0 => f a0 b) la))). reflexivity.
Qed.

(** The statistic is also at most [total * (columns - 1)]. *)
Lemma pearson_cols_bound {A B : Type} (la : list A) (lb : list B) (f : A -> B -> R) :
  (forall a b, In a la -> In b lb -> 0 <= f a b) ->
  (forall a, In a la -> 0 < rsum lb f a) ->
  (forall b, In b lb -> 0 < csum la f b) ->
  lb <> [] ->
  dsum la lb (fun a b => (f a b - expect la lb f a b) * (f a b - expect la lb f a b)
                         / expect la lb f a b)
  <= total la lb f * (INR (length lb) - 1).
Proof.
  intros Hf Hr Hc Hne.
  rewrite dsum_swap.
  unfold total. rewrite (dsum_swap la lb f).
  assert (E : dsum lb la (fun b a => (f a b - expect la lb f a b)
                                     * (f a b - expect la lb f a b)
                                     / expect la lb f a b)
              = dsum lb la (fun b a =>
                  ((fun b a => f a b) b a - expect lb la (fun b a => f a b) b a)
                  * ((fun b a => f a b) b a - expect lb la (fun b a => f a b) b a)
                  / expect lb la (fun b a => f a b) b a)).
  { unfold dsum. apply Rsum_map_ext. intros b _. apply Rsum_map_ext. intros a _.
    now rewrite expect_swap. }
  rewrite E.
  apply (@pearson_rows_bound _ _ lb la (fun b a => f a b)); auto.
Qed.

(** Yates' correction never moves a count further from its expectation. *)
Lemma yates_closer (o e : R) :
  (yates o e - e) * (yates o e - e) <= (o - e) * (o - e).
Proof.
  unfold yates, Rsign, Rmin, Rabs, Rltb.
  destruct (Rlt_dec 0 (e - o)); destruct (Rlt_dec (e - o) 0);
    destruct (Rcase_abs (e - o));
    destruct (Rle_dec (1 / 2) _); try lra; nra.
Qed.

(** ** The expected frequencies and the statistic of a labelled table *)

Lemma expected_freq_tab {A B : Type} (a : A) (la : list A) (lb : list B) (f : A -> B -> R) :
  expected_freq (tab (a :: la) lb f) = tab (a :: la) lb (expect (a :: la) lb f).
Proof.
  unfold expected_freq, ncols. rewrite ncols_tab, row_sums_tab, col_sums_tab.
  rewrite tab_of_maps, matrix_sum_tab. reflexivity.
Qed.

Lemma pearson_tab {A B : Type} (la : list A) (lb : list B) (f e : A -> B -> R) :
  pearson (tab la lb f) (tab la lb e)
  = dsum la lb (fun a b => (f a b - e a b) * (f a b - e a b) / e a b).
Proof. unfold pearson. now rewrite tab_zip, matrix_sum_tab. Qed.

Lemma any_zero_tab {A B : Type} (la : list A) (lb : list B) (e : A -> B -> R) :
  (forall a b, In a la -> In b lb -> e a b <> 0) ->
  any_zero (tab la lb e) = false.
Proof.
  intros H. unfold any_zero, tab.
  destruct (existsb _ _) eqn:E; [| reflexivity].
  apply existsb_exists in E as [row [Hrow E]].
  apply in_map_iff in Hrow as [a [<- Ha]].
  apply existsb_exists in E as [x [Hx E]].
  apply in_map_iff in Hx as [b [<- Hb]].
  apply Reqb_true in E. now apply H in E.
Qed.

Lemma IZR_Zsum (l : list Z) : IZR (Zsum l) = Rsum (map IZR l).
Proof. induction l as [|x l IH]; simpl; [reflexivity | now rewrite plus_IZR, IH]. Qed.

Lemma IZR_table_sum (T : list (list Z)) :
  IZR (Zsum (map Zsum T)) = matrix_sum (observed_of T).
Proof.
  unfold matrix_sum, observed_of. rewrite IZR_Zsum, !map_map.
  f_equal. apply map_ext. intros l. apply IZR_Zsum.
Qed.

(** ** Labels of a cross-tabulation *)

Lemma cell_eqb_refl (c : cell) : is_missing c = false -> cell_eqb c c = true.
Proof.
  destruct c; simpl; intros H; try discriminate.
  - apply String.eqb_refl.
  - apply Z.eqb_refl.
  - apply Reqb_refl.
Qed.

Lemma cell_eqb_sym (a b : cell) : cell_eqb a b = cell_eqb b a.
Proof.
  destruct a, b; simpl; auto using String.eqb_sym, Z.eqb_sym, Reqb_sym.
Qed.

Lemma cell_eqb_trans (a b c : cell) :
  cell_eqb a b = true -> cell_eqb b c = true -> cell_eqb a c = true.
Proof.
  destruct a, b, c; simpl; try discriminate;
    rewrite ?String.eqb_eq, ?Z.eqb_eq, ?Reqb_true; intros; subst;
    try reflexivity; try congruence.
  all: try (apply eq_IZR; congruence).
Qed.

Lemma cell_eqb_present (a b : cell) : cell_eqb a b = true -> is_missing b = false.
Proof. destruct a, b; simpl; auto; discriminate. Qed.

Lemma insert_by_perm {A : Type} (leb : A -> A -> bool) (x : A) (l : list A) :
  Permutation (x :: l) (insert_by leb x l).
Proof.
  induction l as [|y l IH]; simpl; [reflexivity |].
  destruct (leb x y); [reflexivity |].
  rewrite perm_swap. now apply perm_skip.
Qed.

Lemma sort_by_perm {A : Type} (leb : A -> A -> bool) (l : list A) :
  Permutation l (sort_by leb l).
Proof.
  induction l as [|x l IH]; simpl; [reflexivity |].
  rewrite <- insert_by_perm. now apply perm_skip.
Qed.

Lemma uniq_by_incl {A : Type} (eqb : A -> A -> bool) (l : list A) (x : A) :
  In x (uniq_by eqb l) -> In x l.
Proof.
  induction l as [|a l IH]; simpl; [tauto |].
  intros [-> | H]; [auto |].
  apply filter_In in H as [H _]. auto.
Qed.

Lemma uniq_cells_complete (l : list cell) (x : cell) :
  In x l -> is_missing x = false ->
  exists y, In y (uniq_by cell_eqb l) /\ cell_eqb x y = true.
Proof.
  induction l as [|a l IH]; simpl; [tauto |].
  intros [-> | Hin] Hx.
  - exists x. split; [auto | now apply cell_eqb_refl].
  - destruct (IH Hin Hx) as [y [Hy Hxy]].
    destruct (cell_eqb a y) eqn:Hay.
    + exists a. split; [auto |].
      apply cell_eqb_trans with y; [assumption | now rewrite cell_eqb_sym].
    + exists y. split; [| assumption].
      right. apply filter_In. split; [assumption | now rewrite Hay].
Qed.

Lemma labels_incl (l : list cell) (x : cell) : In x (labels l) -> In x l.
Proof.
  unfold labels. intros H.
  apply (Permutation_in _ (Permutation_sym (sort_by_perm cell_leb _))) in H.
  now apply uniq_by_incl in H.
Qed.

Lemma labels_complete (l : list cell) (x : cell) :
  In x l -> is_missing x = false ->
  exists y, In y (labels l) /\ cell_eqb x y = true.
Proof.
  intros Hin Hx. destruct (uniq_cells_complete l x Hin Hx) as [y [Hy Hxy]].
  exists y. split; [| assumption].
  unfold labels. now apply (Permutation_in _ (sort_by_perm cell_leb _)).
Qed.

Lemma present_pairs_present (l1 l2 : list cell) (p : cell * cell) :
  In p (present_pairs l1 l2) ->
  is_missing (fst p) = false /\ is_missing (snd p) = false.
Proof.
  unfold present_pairs. intros H. apply filter_In in H as [_ H].
  apply andb_prop in H as [H1 H2].
  split; now apply negb_true_iff.
Qed.

Lemma pair_count_nonneg (ps : list (cell * cell)) (r c : cell) : (0 <= pair_count ps r c)%Z.
Proof. unfold pair_count. lia. Qed.

Lemma pair_count_pos (ps : list (cell * cell)) (a b r c : cell) :
  In (a, b) ps -> cell_eqb a r = true -> cell_eqb b c = true ->
  (1 <= pair_count ps r c)%Z.
Proof.
  intros Hin Ha Hb. unfold pair_count.
  assert (Hf : In (a, b) (filter (fun p => cell_eqb (fst p) r && cell_eqb (snd p) c) ps)).
  { apply filter_In. split; [assumption |]. simpl. now rewrite Ha, Hb. }
  destruct (filter _ ps); [contradiction | simpl; lia].
Qed.

Section CrosstabMargins.

Variables l1 l2 : list cell.

Definition xt_pairs : list (cell * cell) := present_pairs l1 l2.
Definition xt_rows : list cell := labels (map fst xt_pairs).
Definition xt_cols : list cell := labels (map snd xt_pairs).
Definition xt_entry (r c : cell) : R := IZR (pair_count xt_pairs r c).

Lemma xt_entry_nonneg r c : 0 <= xt_entry r c.
Proof. unfold xt_entry. apply IZR_le, pair_count_nonneg. Qed.

Lemma xt_row_hits r :
  In r xt_rows -> exists c, In c xt_cols /\ 1 <= xt_entry r c.
Proof.
  intros Hr. apply labels_incl in Hr.
  apply in_map_iff in Hr as [[a b] [Ha Hin]]. simpl in Ha. subst a.
  destruct (present_pairs_present _ _ _ Hin) as [Hp1 Hp2]. simpl in Hp1, Hp2.
  destruct (labels_complete (map snd xt_pairs) b) as [c [Hc Hbc]]; auto.
  { apply in_map_iff. exists (r, b). auto. }
  exists c. split; [assumption |].
  unfold xt_entry. apply IZR_le.
  apply pair_count_pos with r b; auto using cell_eqb_refl.
Qed.

Lemma xt_col_hits c :
  In c xt_cols -> exists r, In r xt_rows /\ 1 <= xt_entry r c.
Proof.
  intros Hc. apply labels_incl in Hc.
  apply in_map_iff in Hc as [[a b] [Hb Hin]]. simpl in Hb. subst b.
  destruct (present_pairs_present _ _ _ Hin) as [Hp1 Hp2]. simpl in Hp1, Hp2.
  destruct (labels_complete (map fst xt_pairs) a) as [r [Hr Har]]; auto.
  { apply in_map_iff. exists (a, c). auto. }
  exists r. split; [assumption |].
  unfold xt_entry. apply IZR_le.
  apply pair_count_pos with a c; auto using cell_eqb_refl.
Qed.

Lemma xt_rsum_pos r : In r xt_rows -> 0 < rsum xt_cols xt_entry r.
Proof.
  intros Hr. destruct (xt_row_hits r Hr) as [c [Hc Hge]].
  unfold rsum.
  pose proof (Rsum_member_le (xt_entry r) xt_cols c
                (fun x _ => xt_entry_nonneg r x) Hc).
  lra.
Qed.

Lemma xt_csum_pos c : In c xt_cols -> 0 < csum xt_rows xt_entry c.
Proof.
  intros Hc. destruct (xt_col_hits c Hc) as [r [Hr Hge]].
  unfold csum.
  pose proof (Rsum_member_le (fun a => xt_entry a c) xt_rows r
                (fun x _ => xt_entry_nonneg x c) Hr).
  lra.
Qed.

(** The row and column label lists are empty together. *)
Lemma xt_rows_cols_nil : xt_rows = [] <-> xt_cols = [].
Proof.
  split; intros H.
  - destruct xt_cols as [|c l] eqn:E; [reflexivity |].
    destruct (xt_col_hits c) as [r [Hr _]]; [rewrite E; simpl; auto |].
    rewrite H in Hr. contradiction.
  - destruct xt_rows as [|r l] eqn:E; [reflexivity |].
    destruct (xt_row_hits r) as [c [Hc _]]; [rewrite E; simpl; auto |].
    rewrite H in Hc. contradiction.
Qed.

End CrosstabMargins.

(** ** Symbolic execution of computations *)

Lemma run_bind {A B : Type} (m : M A) (k : A -> M B) (h : heap) :
  bind m k h = match m h with
               | (Ok a, h') => k a h'
               | (Raise e, h') => (Raise e, h')
               end.
Proof. reflexivity. Qed.

Lemma run_pure_bind {A B : Type} (r : res A) (k : A -> M B) (h : heap) :
  bind (pure r) k h = match r with
                      | Ok a => k a h
                      | Raise e => (Raise e, h)
                      end.
Proof. unfold bind, pure. destruct r; reflexivity. Qed.

Lemma run_alloc_bind {B : Type} (o : obj) (k : addr -> M B) (h : heap) :
  bind (alloc o) k h = k (length h) (h ++ [o]).
Proof. reflexivity. Qed.

Lemma run_ret_bind {A B : Type} (a : A) (k : A -> M B) (h : heap) :
  bind (ret a) k h = k a h.
Proof. reflexivity. Qed.

Lemma run_load_frame (a : addr) (h : heap) :
  load_frame a h = match nth_error h a with
                   | Some (ODataFrame d) => (Ok d, h)
                   | _ => (Raise TypeError, h)
                   end.
Proof.
  unfold load_frame, bind, load, ret, raise.
  destruct (nth_error h a) as [[]|]; reflexivity.
Qed.

Lemma run_load_list (a : addr) (h : heap) :
  load_list a h = match nth_error h a with
                  | Some (OList l) => (Ok l, h)
                  | _ => (Raise TypeError, h)
                  end.
Proof.
  unfold load_list, bind, load, ret, raise.
  destruct (nth_error h a) as [[]|]; reflexivity.
Qed.

Lemma run_load_dict (a : addr) (h : heap) :
  load_dict a h = match nth_error h a with
                  | Some (ODict d) => (Ok d, h)
                  | _ => (Raise TypeError, h)
                  end.
Proof.
  unfold load_dict, bind, load, ret, raise.
  destruct (nth_error h a) as [[]|]; reflexivity.
Qed.

Lemma run_load_sample (a : addr) (h : heap) :
  load_sample a h = match nth_error h a with
                    | Some (OSample s) => (Ok s, h)
                    | _ => (Raise TypeError, h)
                    end.
Proof.
  unfold load_sample, bind, load, ret, raise.
  destruct (nth_error h a) as [[]|]; reflexivity.
Qed.

(** The outcome of [perform_chi_square_test] on two series, once the table
    is stored at [ct]. *)
Definition chi_square_outcome (var1 var2 : string) (s1 s2 : Series) (ct : addr)
           (chi2 p_value : num) (dof : Z) : ChiSquare.result :=
  let table := crosstab s1 s2 in
  let min_dim := (Z.min (fst (shape table)) (snd (shape table)) - 1)%Z in
  let cramers_v :=
    if (0 <? min_dim)%Z
    then Num.sqrt (chi2 / Num.of_Z (table_total table * min_dim))%num
    else Fin 0 in
  ChiSquare.mk chi2 p_value dof cramers_v (p_value <? alpha)%num
    (verdict (p_value <? alpha)%num ++ " asociación significativa entre " ++ var1
       ++ " y " ++ var2 ++ " (p=" ++ format_4f p_value ++ ")")%string
    (interpret_cramers_v cramers_v)
    ct.

Lemma perform_chi_square_test_run (df : addr) (var1 var2 : string) (h : heap) :
  perform_chi_square_test df var1 var2 h =
  match nth_error h df with
  | Some (ODataFrame d) =>
      match getitem d var1 with
      | Ok s1 =>
          match getitem d var2 with
          | Ok s2 =>
              match chi2_contingency chi2_sf (counts (crosstab s1 s2)) true with
              | Ok (chi2, p_value, dof, _) =>
                  (Ok (S (length h)),
                   h ++ [OCrosstab (crosstab s1 s2);
                         OChiSquare (chi_square_outcome var1 var2 s1 s2 (length h)
                                                        chi2 p_value dof)])
              | Raise e => (Raise e, h ++ [OCrosstab (crosstab s1 s2)])
              end
          | Raise e => (Raise e, h)
          end
      | Raise e => (Raise e, h)
      end
  | _ => (Raise TypeError, h)
  end.
Proof.
  unfold perform_chi_square_test.
  rewrite run_bind, run_load_frame.
  destruct (nth_error h df) as [[d| | | | | | | |]|]; try reflexivity.
  rewrite run_pure_bind. destruct (getitem d var1) as [s1|e]; [| reflexivity].
  rewrite run_pure_bind. destruct (getitem d var2) as [s2|e]; [| reflexivity].
  rewrite run_alloc_bind, run_pure_bind.
  destruct (chi2_contingency _ _ _) as [[[[chi2 p] dof] E]|e]; [| reflexivity].
  unfold alloc. rewrite length_app, <- app_assoc. simpl.
  rewrite Nat.add_1_r. reflexivity.
Qed.

(** ** The chi-square test on a cross-tabulation *)

Lemma observed_of_crosstab (s1 s2 : Series) :
  observed_of (counts (crosstab s1 s2))
  = tab (xt_rows (s_values s1) (s_values s2)) (xt_cols (s_values s1) (s_values s2))
        (xt_entry (s_values s1) (s_values s2)).
Proof. unfold crosstab, observed_of. simpl. apply tab_map. Qed.

Lemma table_total_crosstab (s1 s2 : Series) :
  IZR (table_total (crosstab s1 s2))
  = total (xt_rows (s_values s1) (s_values s2)) (xt_cols (s_values s1) (s_values s2))
          (xt_entry (s_values s1) (s_values s2)).
Proof.
  unfold table_total. rewrite IZR_table_sum, observed_of_crosstab.
  apply matrix_sum_tab.
Qed.

Lemma INR_length_ge_1 {A : Type} (l : list A) : l <> [] -> 1 <= INR (length l).
Proof.
  destruct l; [congruence |]. intros _. simpl length. rewrite S_INR.
  pose proof (pos_INR (length l)). lra.
Qed.

(** The degrees of freedom of a table with [nr] rows and [nc] columns, and
    the statistic of a labelled table: Pearson's sum, over Yates-corrected
    counts when there is one degree of freedom. *)
Definition dof_of (nr nc : nat) : Z :=
  (Z.of_nat (nr * nc) - (Z.of_nat nr + Z.of_nat nc) + 2 - 1)%Z.

Definition pearson_term (o e : R) : R := (o - e) * (o - e) / e.

Definition stat_of {A B : Type} (la : list A) (lb : list B) (f : A -> B -> R) (dof : Z) : R :=
  if (dof =? 1)%Z
  then dsum la lb (fun a b => pearson_term (yates (f a b) (expect la lb f a b))
                                            (expect la lb f a b))
  else dsum la lb (fun a b => pearson_term (f a b) (expect la lb f a b)).

Section CrosstabStatistic.

Variables s1 s2 : Series.

Definition ct_rows : list cell := xt_rows (s_values s1) (s_values s2).
Definition ct_cols : list cell := xt_cols (s_values s1) (s_values s2).
Definition ct_entry : cell -> cell -> R := xt_entry (s_values s1) (s_values s2).
Definition ct_dof : Z := dof_of (length ct_rows) (length ct_cols).

Lemma ct_entry_nonneg a b : In a ct_rows -> In b ct_cols -> 0 <= ct_entry a b.
Proof. intros. apply xt_entry_nonneg. Qed.

Lemma ct_rsum_pos a : In a ct_rows -> 0 < rsum ct_cols ct_entry a.
Proof. intros. now apply xt_rsum_pos. Qed.

Lemma ct_csum_pos b : In b ct_cols -> 0 < csum ct_rows ct_entry b.
Proof. intros. now apply xt_csum_pos. Qed.

Lemma ct_cols_nonempty : ct_rows <> [] -> ct_cols <> [].
Proof. intros Hne E. apply Hne. now apply xt_rows_cols_nil. Qed.

Lemma ct_expect_pos a b :
  ct_rows <> [] -> In a ct_rows -> In b ct_cols -> 0 < expect ct_rows ct_cols ct_entry a b.
Proof.
  intros Hne Ha Hb.
  apply expect_pos; auto;
    first [exact ct_entry_nonneg | exact ct_rsum_pos | exact ct_csum_pos].
Qed.

Lemma row_labels_crosstab : row_labels (crosstab s1 s2) = ct_rows.
Proof. reflexivity. Qed.

Lemma col_labels_crosstab : col_labels (crosstab s1 s2) = ct_cols.
Proof. reflexivity. Qed.

(** The test on a non-empty cross-tabulation, in closed form. *)
Lemma chi2_contingency_crosstab_eq :
  ct_rows <> [] ->
  chi2_contingency chi2_sf (counts (crosstab s1 s2)) true
  = if (ct_dof =? 0)%Z
    then Ok (Fin 0, Fin 1, ct_dof, tab ct_rows ct_cols (expect ct_rows ct_cols ct_entry))
    else Ok (Fin (stat_of ct_rows ct_cols ct_entry ct_dof),
             chi2_sf (stat_of ct_rows ct_cols ct_entry ct_dof) ct_dof,
             ct_dof,
             tab ct_rows ct_cols (expect ct_rows ct_cols ct_entry)).
Proof.
  intros Hne. pose proof (ct_cols_nonempty Hne) as Hcl.
  unfold chi2_contingency. rewrite observed_of_crosstab.
  fold ct_rows ct_cols ct_entry.
  assert (Hexp : expected_freq (tab ct_rows ct_cols ct_entry)
                 = tab ct_rows ct_cols (expect ct_rows ct_cols ct_entry)).
  { destruct ct_rows as [|r0 rl'] eqn:Erl; [congruence |]. apply expected_freq_tab. }
  assert (Hnc : ncols (tab ct_rows ct_cols ct_entry) = length ct_cols).
  { unfold ncols. destruct ct_rows as [|r0 rl'] eqn:Erl; [congruence |]. apply ncols_tab. }
  assert (Hnr : length (tab ct_rows ct_cols ct_entry) = length ct_rows).
  { unfold tab. apply length_map. }
  rewrite Hexp, Hnc, Hnr.
  assert (Hsize : Nat.eqb (length ct_rows * length ct_cols) 0 = false).
  { apply Nat.eqb_neq. destruct ct_rows; [congruence |].
    destruct ct_cols; [congruence | simpl; lia]. }
  rewrite Hsize.
  rewrite any_zero_tab
    by (intros a b Ha Hb; pose proof (ct_expect_pos a b Hne Ha Hb); lra).
  fold (dof_of (length ct_rows) (length ct_cols)). fold ct_dof.
  destruct (Z.eqb ct_dof 0); [reflexivity |].
  unfold stat_of. rewrite andb_true_r.
  destruct (Z.eqb ct_dof 1).
  - rewrite tab_zip, pearson_tab. reflexivity.
  - rewrite pearson_tab. reflexivity.
Qed.

Lemma stat_of_bounds :
  ct_rows <> [] ->
  0 <= stat_of ct_rows ct_cols ct_entry ct_dof
  /\ stat_of ct_rows ct_cols ct_entry ct_dof
     <= dsum ct_rows ct_cols
             (fun a b => pearson_term (ct_entry a b) (expect ct_rows ct_cols ct_entry a b)).
Proof.
  intros Hne. unfold stat_of.
  assert (Hplain : 0 <= dsum ct_rows ct_cols
             (fun a b => pearson_term (ct_entry a b) (expect ct_rows ct_cols ct_entry a b))).
  { apply pearson_nonneg; auto;
      first [exact ct_entry_nonneg | exact ct_rsum_pos | exact ct_csum_pos]. }
  destruct (Z.eqb ct_dof 1); [| split; [assumption | lra]].
  split.
  - apply dsum_nonneg. intros a b Ha Hb. unfold pearson_term.
    pose proof (ct_expect_pos a b Hne Ha Hb).
    pose proof (Rle_0_sqr (yates (ct_entry a b) (expect ct_rows ct_cols ct_entry a b)
                           - expect ct_rows ct_cols ct_entry a b)) as Hsq.
    unfold Rsqr in Hsq.
    apply Rmult_le_pos; [exact Hsq | apply Rlt_le, Rinv_0_lt_compat; assumption].
  - apply dsum_le. intros a b Ha Hb. unfold pearson_term.
    pose proof (ct_expect_pos a b Hne Ha Hb).
    apply Rmult_le_compat_r; [apply Rlt_le, Rinv_0_lt_compat; auto | apply yates_closer].
Qed.

End CrosstabStatistic.

Lemma chi2_contingency_crosstab (s1 s2 : Series) :
  row_labels (crosstab s1 s2) <> [] ->
  exists chi2 p dof E,
    chi2_contingency chi2_sf (counts (crosstab s1 s2)) true = Ok (Fin chi2, p, dof, E)
    /\ 0 <= chi2
    /\ chi2 <= IZR (table_total (crosstab s1 s2))
               * (INR (length (row_labels (crosstab s1 s2))) - 1)
    /\ chi2 <= IZR (table_total (crosstab s1 s2))
               * (INR (length (col_labels (crosstab s1 s2))) - 1)
    /\ 0 < IZR (table_total (crosstab s1 s2)).
Proof.
  rewrite row_labels_crosstab, col_labels_crosstab, table_total_crosstab.
  fold (ct_rows s1 s2) (ct_cols s1 s2) (ct_entry s1 s2).
  intros Hne. pose proof (ct_cols_nonempty s1 s2 Hne) as Hcl.
  rewrite (chi2_contingency_crosstab_eq s1 s2 Hne).
  set (rl := ct_rows s1 s2) in *. set (cl := ct_cols s1 s2) in *.
  set (f := ct_entry s1 s2).
  assert (Hn : 0 < total rl cl f).
  { apply total_pos; auto;
      first [exact (@ct_entry_nonneg s1 s2) | exact (@ct_rsum_pos s1 s2)
            | exact (@ct_csum_pos s1 s2)]. }
  pose proof (INR_length_ge_1 Hne) as Hlr.
  pose proof (INR_length_ge_1 Hcl) as Hlc.
  destruct (Z.eqb _ 0).
  { do 4 eexists. split; [reflexivity |].
    repeat split; try lra; apply Rmult_le_pos; lra. }
  destruct (stat_of_bounds s1 s2 Hne) as [Hb0 Hb].
  fold rl cl f in Hb0, Hb.
  assert (Hb1 : dsum rl cl (fun a b => pearson_term (f a b) (expect rl cl f a b))
                <= total rl cl f * (INR (length rl) - 1)).
  { apply pearson_rows_bound; auto;
      first [exact (@ct_entry_nonneg s1 s2) | exact (@ct_rsum_pos s1 s2)
            | exact (@ct_csum_pos s1 s2)]. }
  assert (Hb3 : dsum rl cl (fun a b => pearson_term (f a b) (expect rl cl f a b))
                <= total rl cl f * (INR (length cl) - 1)).
  { apply pearson_cols_bound; auto;
      first [exact (@ct_entry_nonneg s1 s2) | exact (@ct_rsum_pos s1 s2)
            | exact (@ct_csum_pos s1 s2)]. }
  do 4 eexists. split; [reflexivity |]. repeat split; lra.
Qed.

Lemma chi2_contingency_empty (s1 s2 : Series) :
  row_labels (crosstab s1 s2) = [] ->
  chi2_contingency chi2_sf (counts (crosstab s1 s2)) true = Raise ValueError.
Proof.
  intros H. unfold chi2_contingency. rewrite observed_of_crosstab.
  simpl in H. fold (xt_pairs (s_values s1) (s_values s2)) in H.
  fold (xt_rows (s_values s1) (s_values s2)) in H. rewrite H. reflexivity.
Qed.


Lemma crosstab_rows_empty (s1 s2 : Series) :
  present_pairs (s_values s1) (s_values s2) = [] ->
  row_labels (crosstab s1 s2) = [].
Proof. intros H. simpl. rewrite H. reflexivity. Qed.

(** The minimum dimension, as the module computes it. *)
Definition min_dim (t : Crosstab) : Z := (Z.min (fst (shape t)) (snd (shape t)) - 1)%Z.

Lemma IZR_min_dim (t : Crosstab) :
  IZR (min_dim t) = Rmin (INR (length (row_labels t))) (INR (length (col_labels t))) - 1.
Proof.
  unfold min_dim, shape. simpl fst. simpl snd.
  rewrite minus_IZR, !INR_IZR_INZ.
  unfold Rmin.
  destruct (Rle_dec _ _) as [H|H].
  - apply le_IZR in H. now rewrite Z.min_l.
  - rewrite Z.min_r; [reflexivity |].
    apply Z.lt_le_incl. apply lt_IZR. lra.
Qed.

(** Cramer's V of a table whose statistic obeys Pearson's bound is a
    number between 0 and 1. *)
Lemma outcome_cramers_v_range (var1 var2 : string) (s1 s2 : Series) (ct : addr)
      (chi2 : R) (p : num) (dof : Z) :
  0 <= chi2 ->
  chi2 <= IZR (table_total (crosstab s1 s2))
          * (INR (length (row_labels (crosstab s1 s2))) - 1) ->
  chi2 <= IZR (table_total (crosstab s1 s2))
          * (INR (length (col_labels (crosstab s1 s2))) - 1) ->
  0 < IZR (table_total (crosstab s1 s2)) ->
  Num.within 0 1
    (ChiSquare.cramers_v (chi_square_outcome var1 var2 s1 s2 ct (Fin chi2) p dof)).
Proof.
  intros H0 Hr Hc Hn.
  unfold chi_square_outcome. cbn [ChiSquare.cramers_v].
  fold (min_dim (crosstab s1 s2)).
  set (t := crosstab s1 s2) in *.
  destruct (Z.ltb_spec 0 (min_dim t)) as [Hpos | Hnpos]; [| simpl; lra].
  assert (HD : 0 < IZR (table_total t * min_dim t)).
  { rewrite mult_IZR. apply Rmult_lt_0_compat; [assumption | now apply (IZR_lt 0)]. }
  assert (Hle : chi2 <= IZR (table_total t * min_dim t)).
  { rewrite mult_IZR, IZR_min_dim. unfold Rmin. destruct (Rle_dec _ _); assumption. }
  unfold Num.of_Z. simpl.
  assert (HE : Reqb (IZR (table_total t * min_dim t)) 0 = false).
  { destruct (Reqb _ 0) eqn:E; [| reflexivity]. apply Reqb_true in E. lra. }
  rewrite HE. simpl.
  assert (Hq0 : 0 <= chi2 / IZR (table_total t * min_dim t)).
  { apply Rmult_le_pos; [assumption | apply Rlt_le, Rinv_0_lt_compat; assumption]. }
  assert (Hq1 : chi2 / IZR (table_total t * min_dim t) <= 1).
  { apply Rmult_le_reg_r with (IZR (table_total t * min_dim t)); [assumption |].
    unfold Rdiv. rewrite Rmult_assoc, Rinv_l by lra. lra. }
  assert (HL : Rltb (chi2 / IZR (table_total t * min_dim t)) 0 = false).
  { apply Rltb_false. assumption. }
  rewrite HL. simpl. split; [apply sqrt_pos |].
  rewrite <- sqrt_1. apply sqrt_le_1; lra.
Qed.

Lemma nil_dec {A : Type} (l : list A) : {l = []} + {l <> []}.
Proof. destruct l; [left; reflexivity | right; discriminate]. Qed.

(** What a successful run of [perform_chi_square_test] did. *)
Lemma perform_chi_square_test_inv (df : addr) (var1 var2 : string) (h h' : heap) (a : addr) :
  perform_chi_square_test df var1 var2 h = (Ok a, h') ->
  exists d s1 s2 chi2 p dof,
    nth_error h df = Some (ODataFrame d)
    /\ getitem d var1 = Ok s1
    /\ getitem d var2 = Ok s2
    /\ row_labels (crosstab s1 s2) <> []
    /\ 0 <= chi2
    /\ chi2 <= IZR (table_total (crosstab s1 s2))
               * (INR (length (row_labels (crosstab s1 s2))) - 1)
    /\ chi2 <= IZR (table_total (crosstab s1 s2))
               * (INR (length (col_labels (crosstab s1 s2))) - 1)
    /\ 0 < IZR (table_total (crosstab s1 s2))
    /\ a = S (length h)
    /\ h' = h ++ [OCrosstab (crosstab s1 s2);
                  OChiSquare (chi_square_outcome var1 var2 s1 s2 (length h)
                                                 (Fin chi2) p dof)].
Proof.
  rewrite perform_chi_square_test_run. intros H.
  destruct (nth_error h df) as [[d| | | | | | | |]|]; try discriminate.
  destruct (getitem d var1) as [s1|] eqn:E1; [| discriminate].
  destruct (getitem d var2) as [s2|] eqn:E2; [| discriminate].
  destruct (nil_dec (row_labels (crosstab s1 s2))) as [Hnil | Hne].
  { rewrite (chi2_contingency_empty _ _ Hnil) in H. discriminate. }
  destruct (chi2_contingency_crosstab s1 s2 Hne) as (chi2 & p & dof & E & Heq & B0 & B1 & B2 & B3).
  rewrite Heq in H. inversion H; subst.
  exists d, s1, s2, chi2, p, dof. repeat split; auto.
Qed.

(** ** Exchanging the two variables of a cross-tabulation *)


















Lemma nth_error_snoc (h : heap) (x : obj) (l : list obj) :
  nth_error (h ++ x :: l) (length h) = Some x.
Proof. induction h as [|y h IH]; simpl; auto. Qed.

Lemma nth_error_snoc2 (h : heap) (x y : obj) (l : list obj) :
  nth_error (h ++ x :: y :: l) (S (length h)) = Some y.
Proof. induction h as [|z h IH]; simpl; auto. Qed.

Lemma nth_error_old (h t : heap) (a : addr) (o : obj) :
  nth_error h a = Some o -> nth_error (h ++ t) a = Some o.
Proof.
  intros H. rewrite nth_error_app1; [assumption |].
  apply nth_error_Some. congruence.
Qed.

(** ** Claims about [perform_chi_square_test] *)





(** ** A weakest-precondition calculus for computations *)

(** [wp m Q h]: running [m] from the heap [h] ends in a result and a heap
    that satisfy [Q]. *)
Definition wp {A : Type} (m : M A) (Q : res A -> heap -> Prop) (h : heap) : Prop :=
  Q (fst (m h)) (snd (m h)).

(** The postcondition of a step that is followed by [k]. *)
Definition then_wp {A B : Type} (k : A -> M B) (Q : res B -> heap -> Prop)
  : res A -> heap -> Prop :=
  fun r h =>
    match r with
    | Ok a => wp (k a) Q h
    | Raise e => Q (Raise e) h
    end.

Lemma wp_bind {A B : Type} (m : M A) (k : A -> M B) (Q : res B -> heap -> Prop) (h : heap) :
  wp m (then_wp k Q) h -> wp (bind m k) Q h.
Proof.
  unfold wp, then_wp, bind. destruct (m h) as [[a|e] h']; simpl; auto.
Qed.

Lemma wp_ret {A : Type} (a : A) (Q : res A -> heap -> Prop) (h : heap) :
  Q (Ok a) h -> wp (ret a) Q h.
Proof. auto. Qed.

Lemma wp_raise {A : Type} (e : exn) (Q : res A -> heap -> Prop) (h : heap) :
  Q (Raise e) h -> wp (raise e) Q h.
Proof. auto. Qed.

Lemma wp_pure {A : Type} (r : res A) (Q : res A -> heap -> Prop) (h : heap) :
  Q r h -> wp (pure r) Q h.
Proof. auto. Qed.

Lemma wp_alloc (o : obj) (Q : res addr -> heap -> Prop) (h : heap) :
  Q (Ok (length h)) (h ++ [o]) -> wp (alloc o) Q h.
Proof. auto. Qed.

Lemma wp_store (a : addr) (o : obj) (Q : res unit -> heap -> Prop) (h : heap) :
  Q (Ok tt) (update a o h) -> wp (store a o) Q h.
Proof. auto. Qed.

Lemma wp_load (a : addr) (Q : res obj -> heap -> Prop) (h : heap) :
  match nth_error h a with
  | Some o => Q (Ok o) h
  | None => Q (Raise TypeError) h
  end ->
  wp (load a) Q h.
Proof. unfold wp, load. destruct (nth_error h a); auto. Qed.

Lemma wp_conseq {A : Type} (m : M A) (Q Q' : res A -> heap -> Prop) (h : heap) :
  wp m Q h -> (forall r h', Q r h' -> Q' r h') -> wp m Q' h.
Proof. unfold wp. auto. Qed.

Lemma wp_run {A : Type} (m : M A) (Q : res A -> heap -> Prop) (h h' : heap) (r : res A) :
  wp m Q h -> m h = (r, h') -> Q r h'.
Proof. unfold wp. intros H E. now rewrite E in H. Qed.

(** A loop keeps an invariant indexed by the elements already processed;
    [E] is what holds when an iteration raises. *)
Lemma wp_for_each {A : Type} (body : A -> M unit) (I : list A -> heap -> Prop)
      (E : exn -> heap -> Prop) :
  (forall done x h, I done h ->
     wp (body x) (fun r h' => match r with
                              | Ok _ => I (done ++ [x]) h'
                              | Raise e => E e h'
                              end) h) ->
  forall l done h, I done h ->
    wp (for_each l body) (fun r h' => match r with
                                      | Ok _ => I (done ++ l) h'
                                      | Raise e => E e h'
                                      end) h.
Proof.
  intros Hbody. induction l as [|x l IH]; intros done h HI.
  - simpl. apply wp_ret. now rewrite app_nil_r.
  - simpl. apply wp_bind.
    eapply wp_conseq; [apply (Hbody done x h HI) |].
    intros [[]|e] h' H; simpl; [| exact H].
    replace (done ++ x :: l) with ((done ++ [x]) ++ l) by (now rewrite <- app_assoc).
    now apply IH.
Qed.

(** *** Heaps that extend a given heap *)

(** [extends h0 h]: [h] is [h0] followed by newer objects; nothing of [h0]
    has been changed. *)
Definition extends (h0 h : heap) : Prop := exists t, h = h0 ++ t.

Lemma extends_refl (h : heap) : extends h h.
Proof. exists []. now rewrite app_nil_r. Qed.

Lemma extends_alloc (h0 h : heap) (o : obj) : extends h0 h -> extends h0 (h ++ [o]).
Proof. intros [t ->]. exists (t ++ [o]). now rewrite app_assoc. Qed.

Lemma extends_length (h0 h : heap) : extends h0 h -> (length h0 <= length h)%nat.
Proof. intros [t ->]. rewrite length_app. lia. Qed.

Lemma extends_lookup (h0 h : heap) (a : addr) (o : obj) :
  extends h0 h -> nth_error h0 a = Some o -> nth_error h a = Some o.
Proof. intros [t ->] H. now apply nth_error_old. Qed.

Lemma update_app_ge (h0 t : heap) (a : addr) (o : obj) :
  (length h0 <= a)%nat -> update a o (h0 ++ t) = h0 ++ update (a - length h0)%nat o t.
Proof.
  revert a. induction h0 as [|x h0 IH]; intros a Ha; simpl.
  - now rewrite Nat.sub_0_r.
  - destruct a as [|a]; [simpl in Ha; lia |].
    simpl. rewrite IH by (simpl in Ha; lia). reflexivity.
Qed.

Lemma extends_update (h0 h : heap) (a : addr) (o : obj) :
  extends h0 h -> (length h0 <= a)%nat -> extends h0 (update a o h).
Proof. intros [t ->] Ha. rewrite update_app_ge by assumption. now eexists. Qed.

Lemma length_update (a : addr) (o : obj) (h : heap) : length (update a o h) = length h.
Proof.
  revert a. induction h as [|x h IH]; intros [|a]; simpl; auto.
Qed.

Lemma nth_error_update_eq (a : addr) (o : obj) (h : heap) :
  (a < length h)%nat -> nth_error (update a o h) a = Some o.
Proof.
  revert a. induction h as [|x h IH]; intros [|a] Ha; simpl in *; try lia; auto.
  apply IH. lia.
Qed.

Lemma nth_error_update_ne (a b : addr) (o : obj) (h : heap) :
  a <> b -> nth_error (update a o h) b = nth_error h b.
Proof.
  revert a b. induction h as [|x h IH]; intros [|a] [|b] Hab; simpl; auto; try congruence.
Qed.

(** ** [perform_t_test] in closed form *)

Definition chosen_test (s1 s2 : list R) (p_norm1 p_norm2 p_levene : num)
  : res (string * num * num) :=
  if Num.truthy p_norm1 && Num.truthy p_norm2
     && (p_norm1 >? alpha)%num && (p_norm2 >? alpha)%num
  then
    if (p_levene >? alpha)%num
    then res_bind (ttest_ind s1 s2 true) (fun tp =>
           Ok ("T-test (varianzas iguales)", fst tp, snd tp))
    else res_bind (ttest_ind s1 s2 false) (fun tp =>
           Ok ("T-test de Welch (varianzas diferentes)", fst tp, snd tp))
  else res_bind (mannwhitneyu s1 s2) (fun up =>
           Ok ("Mann-Whitney U", fst up, snd up)).

Definition pooled_std_of (s1 s2 : list R) : num :=
  Num.sqrt ((Num.sqr (std s1) + Num.sqr (std s2)) / Fin 2)%num.

Definition cohens_d_of (s1 s2 : list R) : num :=
  if (pooled_std_of s1 s2 >? Fin 0)%num
  then ((mean s1 - mean s2) / pooled_std_of s1 s2)%num
  else Fin 0.

Definition t_test_outcome (group1 group2 : string) (s1 s2 : list R)
           (test_type : string) (t_stat p_value : num) : TTest.result :=
  TTest.mk test_type t_stat p_value (mean s1) (mean s2) (std s1) (std s2)
    (cohens_d_of s1 s2)
    (interpret_cohens_d (Num.abs (cohens_d_of s1 s2)))
    (p_value <? alpha)%num
    (verdict (p_value <? alpha)%num ++ " diferencia significativa entre " ++ group1
       ++ " y " ++ group2 ++ " (p=" ++ format_4f p_value ++ ")")%string
    (length s1) (length s2).

Definition t_test_result (group1 group2 : string) (s1 s2 : list R) : res TTest.result :=
  res_bind (normality_p s1) (fun p1 =>
  res_bind (normality_p s2) (fun p2 =>
  res_bind (levene s1 s2) (fun lv =>
  res_bind (chosen_test s1 s2 p1 p2 (snd lv)) (fun c =>
  Ok (t_test_outcome group1 group2 s1 s2 (fst (fst c)) (snd (fst c)) (snd c)))))).

Lemma perform_t_test_run (df : addr) (numeric_var group_var group1 group2 : string)
      (h : heap) :
  perform_t_test df numeric_var group_var group1 group2 h =
  match nth_error h df with
  | Some (ODataFrame d) =>
      match group_sample d numeric_var group_var group1 with
      | Ok s1 =>
          match group_sample d numeric_var group_var group2 with
          | Ok s2 =>
              match t_test_result group1 group2 s1 s2 with
              | Ok r => (Ok (S (S (length h))), h ++ [OSample s1; OSample s2; OTTest r])
              | Raise e => (Raise e, h ++ [OSample s1; OSample s2])
              end
          | Raise e => (Raise e, h ++ [OSample s1])
          end
      | Raise e => (Raise e, h)
      end
  | _ => (Raise TypeError, h)
  end.
Proof.
  unfold perform_t_test.
  rewrite run_bind, run_load_frame.
  destruct (nth_error h df) as [[d| | | | | | | |]|]; try reflexivity.
  rewrite run_pure_bind.
  destruct (group_sample d numeric_var group_var group1) as [s1|e]; [| reflexivity].
  rewrite run_alloc_bind, run_pure_bind.
  destruct (group_sample d numeric_var group_var group2) as [s2|e]; [| reflexivity].
  rewrite run_alloc_bind. rewrite <- app_assoc. simpl app.
  unfold t_test_result.
  rewrite run_pure_bind. destruct (normality_p s1) as [p1|e]; [| reflexivity].
  rewrite run_pure_bind. destruct (normality_p s2) as [p2|e]; [| reflexivity].
  rewrite run_pure_bind. destruct (levene s1 s2) as [[w pl]|e]; [| reflexivity].
  rewrite run_pure_bind. unfold chosen_test. cbn [res_bind snd].
  assert (Hlen : length (h ++ [OSample s1; OSample s2]) = S (S (length h))).
  { rewrite length_app. simpl. lia. }
  destruct (_ && _ && _ && _); [destruct (Num.gtb pl alpha) |];
    [ destruct (ttest_ind s1 s2 true) as [[ts pv]|e]
    | destruct (ttest_ind s1 s2 false) as [[ts pv]|e]
    | destruct (mannwhitneyu s1 s2) as [[ts pv]|e] ];
    try reflexivity.
  all: unfold alloc; cbn [res_bind fst snd]; rewrite Hlen, <- app_assoc; reflexivity.
Qed.

Lemma perform_t_test_inv (df : addr) (numeric_var group_var group1 group2 : string)
      (h h' : heap) (a : addr) :
  perform_t_test df numeric_var group_var group1 group2 h = (Ok a, h') ->
  exists d s1 s2 r,
    nth_error h df = Some (ODataFrame d)
    /\ group_sample d numeric_var group_var group1 = Ok s1
    /\ group_sample d numeric_var group_var group2 = Ok s2
    /\ t_test_result group1 group2 s1 s2 = Ok r
    /\ a = S (S (length h))
    /\ h' = h ++ [OSample s1; OSample s2; OTTest r].
Proof.
  rewrite perform_t_test_run. intros H.
  destruct (nth_error h df) as [[d| | | | | | | |]|]; try discriminate.
  destruct (group_sample d numeric_var group_var group1) as [s1|] eqn:E1; [| discriminate].
  destruct (group_sample d numeric_var group_var group2) as [s2|] eqn:E2; [| discriminate].
  destruct (t_test_result group1 group2 s1 s2) as [r|] eqn:E3; [| discriminate].
  inversion H; subst. exists d, s1, s2, r. repeat split; auto.
Qed.

Lemma t_test_result_inv (group1 group2 : string) (s1 s2 : list R) (r : TTest.result) :
  t_test_result group1 group2 s1 s2 = Ok r ->
  exists p1 p2 w pl name stat p,
    normality_p s1 = Ok p1
    /\ normality_p s2 = Ok p2
    /\ levene s1 s2 = Ok (w, pl)
    /\ chosen_test s1 s2 p1 p2 pl = Ok (name, stat, p)
    /\ r = t_test_outcome group1 group2 s1 s2 name stat p.
Proof.
  unfold t_test_result. intros H.
  destruct (normality_p s1) as [p1|] eqn:E1; [| discriminate].
  destruct (normality_p s2) as [p2|] eqn:E2; [| discriminate].
  destruct (levene s1 s2) as [[w pl]|] eqn:E3; [| discriminate].
  simpl in H.
  destruct (chosen_test s1 s2 p1 p2 pl) as [[[name stat] p]|] eqn:E4; [| discriminate].
  simpl in H. inversion H; subst.
  exists p1, p2, w, pl, name, stat, p. repeat split; auto.
Qed.

Lemma nth_error_snoc3 (h : heap) (x y z : obj) (l : list obj) :
  nth_error (h ++ x :: y :: z :: l) (S (S (length h))) = Some z.
Proof. induction h as [|u h IH]; simpl; auto. Qed.

(** ** Claims about [perform_t_test] *)

Lemma alpha_pos_gt (p : num) : (p >? alpha)%num = true -> Num.truthy p = true.
Proof.
  destruct p as [|x]; simpl; [discriminate |].
  intros H. apply Rltb_true in H.
  destruct (Reqb x 0) eqn:E; [| reflexivity].
  apply Reqb_true in E. subst. lra.
Qed.

Lemma normal_condition (p1 p2 : num) :
  Num.truthy p1 && Num.truthy p2 && (p1 >? alpha)%num && (p2 >? alpha)%num
  = (p1 >? alpha)%num && (p2 >? alpha)%num.
Proof.
  destruct (p1 >? alpha)%num eqn:E1; destruct (p2 >? alpha)%num eqn:E2;
    rewrite ?andb_false_r; try reflexivity.
  now rewrite (alpha_pos_gt p1 E1), (alpha_pos_gt p2 E2).
Qed.

(** The decision procedure, in the words of the specification. *)

(** A group passes the normality check: the check is skipped, and the group
    taken as normal, from 5000 values on; below, the p-value of the
    normality test must exceed 0.05. *)
Definition spec_passes_normality (data : list R) : res bool :=
  if (5000 <=? length data)%nat then Ok true
  else res_bind (shapiro data) (fun sp => Ok (snd sp >? Fin (5 / 100))%num).

(** The variance-equality test passes. *)
Definition spec_variances_equal (s1 s2 : list R) : res bool :=
  res_bind (levene s1 s2) (fun lp => Ok (snd lp >? Fin (5 / 100))%num).

Definition spec_select_test (s1 s2 : list R) : res (string * num * num) :=
  res_bind (spec_passes_normality s1) (fun normal1 =>
  res_bind (spec_passes_normality s2) (fun normal2 =>
  res_bind (spec_variances_equal s1 s2) (fun equal_variances =>
  if normal1 && normal2 then
    if equal_variances
    then res_bind (ttest_ind s1 s2 true) (fun tp =>
           Ok ("T-test (varianzas iguales)", fst tp, snd tp))
    else res_bind (ttest_ind s1 s2 false) (fun tp =>
           Ok ("T-test de Welch (varianzas diferentes)", fst tp, snd tp))
  else res_bind (mannwhitneyu s1 s2) (fun up =>
           Ok ("Mann-Whitney U", fst up, snd up))))).

Lemma normality_p_spec (data : list R) :
  spec_passes_normality data
  = res_bind (normality_p data) (fun p => Ok (p >? alpha)%num).
Proof.
  unfold spec_passes_normality, normality_p.
  destruct (Nat.leb_spec 5000 (length data)) as [H | H].
  - assert (E : (length data <? 5000)%nat = false) by (apply Nat.ltb_ge; lia).
    rewrite E. simpl. f_equal. symmetry. apply Rltb_true. lra.
  - assert (E : (length data <? 5000)%nat = true) by (apply Nat.ltb_lt; lia).
    rewrite E. destruct (shapiro data) as [[w p]|e]; reflexivity.
Qed.

Lemma select_test_refines (s1 s2 : list R) :
  spec_select_test s1 s2
  = res_bind (normality_p s1) (fun p1 =>
    res_bind (normality_p s2) (fun p2 =>
    res_bind (levene s1 s2) (fun lv =>
    chosen_test s1 s2 p1 p2 (snd lv)))).
Proof.
  unfold spec_select_test. rewrite !normality_p_spec.
  destruct (normality_p s1) as [p1|e]; [| reflexivity].
  destruct (normality_p s2) as [p2|e]; [| reflexivity].
  unfold spec_variances_equal.
  destruct (levene s1 s2) as [[w pl]|e]; [| reflexivity].
  cbn [res_bind snd]. unfold chosen_test. rewrite normal_condition. reflexivity.
Qed.

(** C2.  On a frame from which both group samples can be taken,
    [perform_t_test] runs exactly the test the decision procedure selects
    (normality check skipped from 5000 values on, equal-variance t-test when
    both groups are normal and the variance test passes, Welch's test when
    both are normal and it does not, Mann-Whitney U otherwise) and reports
    its name, statistic and p-value; it raises what the procedure raises. *)
Theorem t_test_decision_procedure :
  forall (df : addr) (numeric_var group_var group1 group2 : string) (h : heap)
         (d : DataFrame) (s1 s2 : list R),
    nth_error h df = Some (ODataFrame d) ->
    group_sample d numeric_var group_var group1 = Ok s1 ->
    group_sample d numeric_var group_var group2 = Ok s2 ->
    match spec_select_test s1 s2 with
    | Ok (name, stat, p) =>
        exists r : TTest.result,
          perform_t_test df numeric_var group_var group1 group2 h
          = (Ok (S (S (length h))), h ++ [OSample s1; OSample s2; OTTest r])
          /\ TTest.test_type r = name
          /\ TTest.statistic r = stat
          /\ TTest.p_value r = p
    | Raise e =>
        perform_t_test df numeric_var group_var group1 group2 h
        = (Raise e, h ++ [OSample s1; OSample s2])
    end.
Proof.
  intros df nv gv g1 g2 h d s1 s2 Hdf H1 H2.
  rewrite perform_t_test_run, Hdf, H1, H2, select_test_refines.
  unfold t_test_result.
  destruct (normality_p s1) as [p1|e]; [| reflexivity].
  destruct (normality_p s2) as [p2|e]; [| reflexivity].
  destruct (levene s1 s2) as [[w pl]|e]; [| reflexivity].
  cbn [res_bind snd].
  destruct (chosen_test s1 s2 p1 p2 pl) as [[[name stat] p]|e]; [| reflexivity].
  cbn [res_bind fst snd].
  eexists. split; [reflexivity |]. repeat split; reflexivity.
Qed.



Lemma std_finite_mean_finite (s : list R) (x : R) :
  std s = Fin x -> exists m, mean s = Fin m.
Proof.
  destruct s as [|a [|b l]]; try discriminate. intros _. eexists. reflexivity.
Qed.

Lemma pooled_std_finite (s1 s2 : list R) (q : R) :
  pooled_std_of s1 s2 = Fin q ->
  exists m1 m2, mean s1 = Fin m1 /\ mean s2 = Fin m2.
Proof.
  unfold pooled_std_of. intros H.
  destruct (std s1) as [|x1] eqn:E1; [discriminate |].
  destruct (std s2) as [|x2] eqn:E2; [discriminate |].
  destruct (std_finite_mean_finite s1 E1) as [m1 Hm1].
  destruct (std_finite_mean_finite s2 E2) as [m2 Hm2].
  eauto.
Qed.


Lemma cohens_d_of_guard (s1 s2 : list R) :
  (pooled_std_of s1 s2 >? Fin 0)%num = false -> cohens_d_of s1 s2 = Fin 0.
Proof. intros H. unfold cohens_d_of. now rewrite H. Qed.

Lemma cohens_d_of_finite (s1 s2 : list R) : exists x, cohens_d_of s1 s2 = Fin x.
Proof.
  destruct (pooled_std_of s1 s2 >? Fin 0)%num eqn:H.
  - unfold cohens_d_of. rewrite H.
    destruct (pooled_std_of s1 s2) as [|q] eqn:Eq; [discriminate |].
    simpl in H. apply Rltb_true in H.
    destruct (pooled_std_finite s1 s2 Eq) as (m1 & m2 & -> & ->).
    simpl.
    assert (E : Reqb q 0 = false).
    { destruct (Reqb q 0) eqn:E; [| reflexivity]. apply Reqb_true in E. lra. }
    rewrite E. eauto.
  - rewrite cohens_d_of_guard by assumption. eauto.
Qed.

Lemma lit_ltb (x : R) (n d : Z) : (Fin x <? lit n d)%num = Rltb x (IZR n / IZR d).
Proof. reflexivity. Qed.



(** ** [perform_anova] in closed form *)

Lemma run_list_append (a : addr) (v : value) (l : list value) (h : heap) :
  nth_error h a = Some (OList l) ->
  list_append a v h = (Ok tt, update a (OList (l ++ [v])) h).
Proof.
  intros H. unfold list_append. rewrite run_bind, run_load_list, H. reflexivity.
Qed.

Lemma update_at_length (h0 t : heap) (x o : obj) :
  update (length h0) o (h0 ++ x :: t) = h0 ++ o :: t.
Proof. induction h0 as [|y h0 IH]; simpl; [reflexivity | now rewrite IH]. Qed.

Lemma update_at_length1 (h0 t : heap) (x y o : obj) :
  update (S (length h0)) o (h0 ++ x :: y :: t) = h0 ++ x :: o :: t.
Proof.
  induction h0 as [|z h0 IH]; [reflexivity |].
  change (z :: update (S (length h0)) o (h0 ++ x :: y :: t) = z :: (h0 ++ x :: o :: t)).
  now rewrite IH.
Qed.

Definition anova_body (groups group_names : addr) (ng : cell * Series) : M unit :=
  g <- pure (dropna (snd ng)) ;;
  sample <- alloc (OSample g) ;;
  list_append groups (VRef sample) ;;;
  list_append group_names (VCell (fst ng)).

(** The references the loop stores for [n] samples allocated from address
    [base] on. *)
Definition sample_refs (base n : nat) : list value := map VRef (seq base n).

Lemma sample_refs_snoc (base n : nat) :
  sample_refs base n ++ [VRef (base + n)%nat] = sample_refs base (S n).
Proof. unfold sample_refs. rewrite seq_S, map_app. reflexivity. Qed.

Lemma anova_loop (h0 : heap) (todo : list (cell * Series)) :
  forall (names : list value) (done : list (list R)),
    let base := (length h0 + 2)%nat in
    let start := h0 ++ [OList (sample_refs base (length done)); OList names]
                    ++ map OSample done in
    match res_map (fun ng => dropna (snd ng)) todo with
    | Ok gs =>
        for_each todo (anova_body (length h0) (S (length h0))) start
        = (Ok tt,
           h0 ++ [OList (sample_refs base (length (done ++ gs)));
                  OList (names ++ map (fun ng => VCell (fst ng)) todo)]
              ++ map OSample (done ++ gs))
    | Raise e =>
        exists h'',
          for_each todo (anova_body (length h0) (S (length h0))) start = (Raise e, h'')
          /\ extends h0 h''
    end.
Proof.
  induction todo as [|[name s] todo IH]; intros names done base start.
  - simpl. unfold ret, start. now rewrite !app_nil_r.
  - cbn [res_map snd].
    destruct (dropna s) as [g|e] eqn:Eg; cbn [res_bind].
    2:{ exists start. split; [| unfold start; now eexists].
        cbn [for_each]. rewrite run_bind. unfold anova_body.
        rewrite run_pure_bind. cbn [snd]. now rewrite Eg. }
    assert (Hlen : length start = (base + length done)%nat).
    { unfold start, base. rewrite !length_app, length_map. simpl. lia. }
    assert (Hstep :
      for_each ((name, s) :: todo) (anova_body (length h0) (S (length h0))) start
      = for_each todo (anova_body (length h0) (S (length h0)))
          (h0 ++ [OList (sample_refs base (length (done ++ [g])));
                  OList (names ++ [VCell name])] ++ map OSample (done ++ [g]))).
    { cbn [for_each]. rewrite run_bind. unfold anova_body at 1.
      rewrite run_pure_bind. cbn [snd fst]. rewrite Eg.
      rewrite run_alloc_bind, run_bind, Hlen.
      assert (Hstart : start ++ [OSample g]
                       = h0 ++ OList (sample_refs base (length done))
                            :: OList names :: map OSample (done ++ [g])).
      { unfold start. rewrite map_app. simpl. rewrite <- !app_assoc. reflexivity. }
      rewrite Hstart.
      rewrite (@run_list_append (length h0) _ (sample_refs base (length done)))
        by apply nth_error_snoc.
      rewrite update_at_length, sample_refs_snoc.
      rewrite (@run_list_append (S (length h0)) _ names) by apply nth_error_snoc2.
      rewrite update_at_length1.
      replace (length (done ++ [g])) with (S (length done))
        by (rewrite length_app; simpl; lia).
      reflexivity. }
    rewrite Hstep.
    specialize (IH (names ++ [VCell name]) (done ++ [g])).
    cbn zeta in IH. fold base in IH.
    destruct (res_map (fun ng => dropna (snd ng)) todo) as [gs|e]; cbn [res_bind].
    + rewrite IH. rewrite <- !app_assoc. reflexivity.
    + exact IH.
Qed.

Lemma load_samples_run (prefix : heap) (rest : list (list R)) :
  forall done : list (list R),
    load_samples (sample_refs (length prefix + length done) (length rest))
                 (prefix ++ map OSample (done ++ rest))
    = (Ok rest, prefix ++ map OSample (done ++ rest)).
Proof.
  induction rest as [|g rest IH]; intros done; [reflexivity |].
  simpl length. unfold sample_refs. cbn [seq map load_samples].
  rewrite run_bind, run_load_sample.
  assert (Hn : nth_error (prefix ++ map OSample (done ++ g :: rest))
                         (length prefix + length done)
               = Some (OSample g)).
  { rewrite map_app, app_assoc. cbn [map].
    replace (length prefix + length done)%nat
      with (length (prefix ++ map OSample done))
      by (rewrite length_app, length_map; reflexivity).
    apply nth_error_snoc. }
  rewrite Hn. rewrite run_bind.
  specialize (IH (done ++ [g])).
  rewrite length_app in IH. simpl length in IH.
  replace (length prefix + (length done + 1))%nat
    with (S (length prefix + length done)) in IH by lia.
  rewrite <- app_assoc in IH. simpl app in IH.
  fold (sample_refs (S (length prefix + length done)) (length rest)).
  rewrite IH. reflexivity.
Qed.

Definition eta_squared_of (grand_mean : num) (samples : list (list R)) : num :=
  if (ss_total grand_mean samples >? Fin 0)%num
  then (ss_between grand_mean samples / ss_total grand_mean samples)%num
  else Fin 0.

Definition anova_outcome (samples : list (list R)) (f_stat p_value grand_mean : num)
           (group_stats : addr) : Anova.result :=
  Anova.mk f_stat p_value (eta_squared_of grand_mean samples)
    (interpret_eta_squared (eta_squared_of grand_mean samples))
    (p_value <? alpha)%num
    (verdict (p_value <? alpha)%num ++ " diferencia significativa entre grupos (p="
       ++ format_4f p_value ++ ")")%string
    group_stats
    (length samples).

(** Everything [perform_anova] reads and computes before it builds its
    result: the groups, their samples without missing values, the F test
    and the grand mean of the column. *)
Definition anova_inputs (d : DataFrame) (numeric_var group_var : string)
  : res (list (cell * Series) * list (list R) * num * num * num) :=
  res_bind (groupby_series d group_var numeric_var) (fun grouped =>
  res_bind (res_map (fun ng => dropna (snd ng)) grouped) (fun samples =>
  res_bind (f_oneway samples) (fun fp =>
  res_bind (res_bind (getitem d numeric_var) series_mean) (fun grand_mean =>
  Ok (grouped, samples, fst fp, snd fp, grand_mean))))).

Definition anova_heap (h0 : heap) (grouped : list (cell * Series))
           (samples : list (list R)) (f_stat p_value grand_mean : num) : heap :=
  let base := (length h0 + 2)%nat in
  h0 ++ [OList (sample_refs base (length samples));
         OList (map (fun ng => VCell (fst ng)) grouped)]
     ++ map OSample samples
     ++ [ODataFrame (group_stats_frame (map fst grouped) samples);
         OAnova (anova_outcome samples f_stat p_value grand_mean
                               (base + length samples)%nat)].

Lemma perform_anova_run (df : addr) (numeric_var group_var : string) (h0 : heap)
      (d : DataFrame) :
  nth_error h0 df = Some (ODataFrame d) ->
  match anova_inputs d numeric_var group_var with
  | Ok (grouped, samples, f_stat, p_value, grand_mean) =>
      perform_anova df numeric_var group_var h0
      = (Ok (S (length h0 + 2 + length samples))%nat,
         anova_heap h0 grouped samples f_stat p_value grand_mean)
  | Raise e =>
      exists h'',
        perform_anova df numeric_var group_var h0 = (Raise e, h'') /\ extends h0 h''
  end.
Proof.
  intros Hdf. unfold perform_anova, anova_inputs.
  rewrite !run_alloc_bind. rewrite <- app_assoc. simpl app.
  rewrite length_app. simpl length. rewrite Nat.add_1_r.
  rewrite run_bind, run_load_frame.
  rewrite (nth_error_old h0 [OList []; OList []] df Hdf).
  rewrite run_pure_bind.
  destruct (groupby_series d group_var numeric_var) as [grouped|e]; cbn [res_bind].
  2:{ eexists. split; [reflexivity | now eexists]. }
  rewrite run_bind.
  pose proof (anova_loop h0 grouped [] []) as Hloop. cbn zeta in Hloop.
  match goal with
  | |- context [for_each grouped ?b ?hh] =>
      change (for_each grouped b hh)
        with (for_each grouped (anova_body (length h0) (S (length h0)))
                (h0 ++ [OList (sample_refs (length h0 + 2) (length (@nil (list R))));
                        OList []] ++ map OSample []))
  end.
  destruct (res_map (fun ng => dropna (snd ng)) grouped) as [samples|e]; cbn [res_bind].
  2:{ destruct Hloop as (h'' & -> & Hext). eexists. split; [reflexivity | assumption]. }
  rewrite Hloop. clear Hloop. simpl app.
  set (base := (length h0 + 2)%nat).
  set (names := map (fun ng : cell * Series => VCell (fst ng)) grouped).
  set (h1 := h0 ++ OList (sample_refs base (length samples)) :: OList names
                :: map OSample samples).
  assert (Hn0 : nth_error h1 (length h0)
                = Some (OList (sample_refs base (length samples))))
    by (unfold h1; apply nth_error_snoc).
  assert (Hn1 : nth_error h1 (S (length h0)) = Some (OList names))
    by (unfold h1; apply nth_error_snoc2).
  rewrite run_bind, run_load_list, Hn0.
  rewrite run_bind.
  assert (Hls : load_samples (sample_refs base (length samples)) h1 = (Ok samples, h1)).
  { pose proof (load_samples_run
                  (h0 ++ [OList (sample_refs base (length samples)); OList names])
                  samples []) as H.
    rewrite length_app in H. simpl in H. rewrite Nat.add_0_r in H.
    rewrite <- app_assoc in H. simpl in H. exact H. }
  rewrite Hls. rewrite run_pure_bind.
  destruct (f_oneway samples) as [[f_stat p_value]|e]; cbn [res_bind fst snd].
  2:{ eexists. split; [reflexivity | unfold h1; now eexists]. }
  rewrite run_pure_bind.
  destruct (res_bind (getitem d numeric_var) series_mean) as [gm|e]; cbn [res_bind].
  2:{ eexists. split; [reflexivity | unfold h1; now eexists]. }
  rewrite run_bind, run_load_list, Hn1.
  rewrite run_alloc_bind. unfold alloc.
  assert (Hlen : length h1 = (base + length samples)%nat).
  { unfold h1, base. rewrite length_app. simpl. rewrite length_map. lia. }
  rewrite length_app, Hlen. simpl length.
  assert (Hnames : map value_cell names = map fst grouped).
  { unfold names. rewrite map_map. reflexivity. }
  rewrite Hnames. unfold anova_heap. fold base. fold names.
  replace (base + length samples + 1)%nat with (S (base + length samples)) by lia.
  assert (Hrefs : length (sample_refs base (length samples)) = length samples).
  { unfold sample_refs. now rewrite length_map, length_seq. }
  rewrite Hrefs.
  f_equal. unfold h1. rewrite <- !app_assoc. simpl. reflexivity.
Qed.

Lemma perform_anova_no_frame (df : addr) (numeric_var group_var : string) (h0 : heap) :
  (forall d, nth_error h0 df <> Some (ODataFrame d)) ->
  exists h'',
    perform_anova df numeric_var group_var h0 = (Raise TypeError, h'') /\ extends h0 h''.
Proof.
  intros Hno. unfold perform_anova.
  rewrite !run_alloc_bind. rewrite <- app_assoc. simpl app.
  rewrite run_bind, run_load_frame.
  destruct (nth_error (h0 ++ [OList []; OList []]) df) as [o|] eqn:E.
  - destruct o as [d| | | | | | | |];
      try (eexists; split; [reflexivity | now eexists]).
    exfalso. destruct (Nat.lt_ge_cases df (length h0)) as [Hlt | Hge].
    + rewrite nth_error_app1 in E by assumption. now apply Hno in E.
    + rewrite nth_error_app2 in E by assumption.
      destruct (df - length h0)%nat as [|[|[|n]]]; simpl in E; discriminate.
  - eexists; split; [reflexivity | now eexists].
Qed.

Lemma perform_anova_inv (df : addr) (numeric_var group_var : string) (h0 h' : heap)
      (a : addr) :
  perform_anova df numeric_var group_var h0 = (Ok a, h') ->
  exists d grouped samples f_stat p_value grand_mean,
    nth_error h0 df = Some (ODataFrame d)
    /\ anova_inputs d numeric_var group_var
       = Ok (grouped, samples, f_stat, p_value, grand_mean)
    /\ a = S (length h0 + 2 + length samples)
    /\ h' = anova_heap h0 grouped samples f_stat p_value grand_mean.
Proof.
  intros Hrun.
  destruct (nth_error h0 df) as [[d| | | | | | | |]|] eqn:Hdf.
  2-10: destruct (perform_anova_no_frame df numeric_var group_var h0) as (h'' & E & _);
    [intros d; rewrite Hdf; discriminate | rewrite E in Hrun; discriminate].
  pose proof (perform_anova_run df numeric_var group_var h0 Hdf) as H.
  destruct (anova_inputs d numeric_var group_var)
    as [[[[[grouped samples] f_stat] p_value] gm]|e] eqn:Ein.
  - rewrite H in Hrun. inversion Hrun; subst.
    exists d, grouped, samples, f_stat, p_value, gm. repeat split; auto.
  - destruct H as (h'' & E & _). rewrite E in Hrun. discriminate.
Qed.

Lemma anova_heap_result (h0 : heap) (grouped : list (cell * Series))
      (samples : list (list R)) (f_stat p_value grand_mean : num) :
  nth_error (anova_heap h0 grouped samples f_stat p_value grand_mean)
            (S (length h0 + 2 + length samples))
  = Some (OAnova (anova_outcome samples f_stat p_value grand_mean
                                (length h0 + 2 + length samples)%nat)).
Proof.
  unfold anova_heap.
  set (r := OAnova _). set (g := ODataFrame _).
  set (l1 := OList _). set (l2 := OList _).
  replace (h0 ++ [l1; l2] ++ map OSample samples ++ [g; r])
    with ((h0 ++ [l1; l2] ++ map OSample samples) ++ [g; r])
    by (rewrite <- !app_assoc; reflexivity).
  replace (length h0 + 2 + length samples)%nat
    with (length (h0 ++ [l1; l2] ++ map OSample samples))
    by (rewrite !length_app, length_map; simpl; lia).
  apply nth_error_snoc2.
Qed.

(** ** Eta-squared *)















(** ** Claims about [perform_anova] *)


(** ** The significance flag *)

(** C1.  Whenever [perform_chi_square_test], [perform_t_test] or
    [perform_anova] returns, the result's [is_significant] flag is exactly
    the comparison [p_value < 0.05]. *)
Theorem is_significant_iff_p_below_alpha :
  (forall (df : addr) (var1 var2 : string) (h h' : heap) (a : addr),
      perform_chi_square_test df var1 var2 h = (Ok a, h') ->
      exists r : ChiSquare.result,
        nth_error h' a = Some (OChiSquare r)
        /\ ChiSquare.is_significant r = (ChiSquare.p_value r <? Fin (5 / 100))%num)
  /\
  (forall (df : addr) (numeric_var group_var group1 group2 : string) (h h' : heap)
          (a : addr),
      perform_t_test df numeric_var group_var group1 group2 h = (Ok a, h') ->
      exists r : TTest.result,
        nth_error h' a = Some (OTTest r)
        /\ TTest.is_significant r = (TTest.p_value r <? Fin (5 / 100))%num)
  /\
  (forall (df : addr) (numeric_var group_var : string) (h h' : heap) (a : addr),
      perform_anova df numeric_var group_var h = (Ok a, h') ->
      exists r : Anova.result,
        nth_error h' a = Some (OAnova r)
        /\ Anova.is_significant r = (Anova.p_value r <? Fin (5 / 100))%num).
Proof.
  split; [| split].
  - intros df var1 var2 h h' a Hrun.
    apply perform_chi_square_test_inv in Hrun
      as (d & s1 & s2 & chi2 & p & dof & _ & _ & _ & _ & _ & _ & _ & _ & -> & ->).
    eexists. split; [apply nth_error_snoc2 | reflexivity].
  - intros df nv gv g1 g2 h h' a Hrun.
    apply perform_t_test_inv in Hrun as (d & s1 & s2 & r & _ & _ & _ & Hr & -> & ->).
    apply t_test_result_inv in Hr
      as (p1 & p2 & w & pl & name & stat & p & _ & _ & _ & _ & ->).
    eexists. split; [apply nth_error_snoc3 | reflexivity].
  - intros df nv gv h h' a Hrun.
    apply perform_anova_inv in Hrun
      as (d & grouped & samples & f_stat & p_value & gm & _ & _ & -> & ->).
    eexists. split; [apply anova_heap_result | reflexivity].
Qed.

(** ** Claims about [calculate_proportion_ci] *)

Lemma pymax_0_lower (x : num) : exists l, Num.pymax (Fin 0) x = Fin l /\ 0 <= l.
Proof.
  unfold Num.pymax, Num.gtb. destruct x as [|x]; simpl.
  - exists 0. split; [reflexivity | lra].
  - destruct (Rltb 0 x) eqn:E.
    + apply Rltb_true in E. exists x. split; [reflexivity | lra].
    + exists 0. split; [reflexivity | lra].
Qed.

Lemma pymin_1_upper (x : num) : exists u, Num.pymin (Fin 1) x = Fin u /\ u <= 1.
Proof.
  unfold Num.pymin. destruct x as [|x]; simpl.
  - exists 1. split; [reflexivity | lra].
  - destruct (Rltb x 1) eqn:E.
    + apply Rltb_true in E. exists x. split; [reflexivity | lra].
    + exists 1. split; [reflexivity | lra].
Qed.

Lemma pymax_0_Fin (x : R) : Num.pymax (Fin 0) (Fin x) = Fin (Rmax 0 x).
Proof.
  unfold Num.pymax, Num.gtb, Num.ltb, Rltb, Rmax.
  destruct (Rlt_dec 0 x), (Rle_dec 0 x); try reflexivity; try lra; f_equal; lra.
Qed.

Lemma pymin_1_Fin (x : R) : Num.pymin (Fin 1) (Fin x) = Fin (Rmin 1 x).
Proof.
  unfold Num.pymin, Num.ltb, Rltb, Rmin.
  destruct (Rlt_dec x 1), (Rle_dec 1 x); try reflexivity; try lra; f_equal; lra.
Qed.

Lemma Reqb_false_ne (x y : R) : x <> y -> Reqb x y = false.
Proof.
  intros H. destruct (Reqb x y) eqn:E; [| reflexivity].
  apply Reqb_true in E. contradiction.
Qed.

(** C6.  [calculate_proportion_ci] returns exactly [(0, 0)] when [total] is
    0.  For [total > 0] it returns [(max(0, p - z*se), min(1, p + z*se))]
    with [p = successes / total], [z] the normal quantile of the confidence
    level and [se = sqrt (p * (1 - p) / total)]: the lower bound is at
    least 0 and the upper bound at most 1.  For [successes = 0] and
    [total = 100] the lower bound is 0 and the upper bound is at least 0;
    for [successes = total] the upper bound is 1 and the lower bound lies
    between 0 and 1. *)
Theorem proportion_ci_clipped :
  (forall successes confidence : num,
      calculate_proportion_ci successes (Fin 0) confidence = (Fin 0, Fin 0))
  /\
  (forall (successes confidence : num) (total : R),
      0 < total ->
      let p := (successes / Fin total)%num in
      let z := norm_ppf (Fin 1 - (Fin 1 - confidence) / Fin 2)%num in
      let se := Num.sqrt (p * (Fin 1 - p) / Fin total)%num in
      calculate_proportion_ci successes (Fin total) confidence
      = (Num.pymax (Fin 0) (p - z * se)%num, Num.pymin (Fin 1) (p + z * se)%num)
      /\ (forall x, (p - z * se)%num = Fin x ->
                    fst (calculate_proportion_ci successes (Fin total) confidence)
                    = Fin (Rmax 0 x))
      /\ (forall y, (p + z * se)%num = Fin y ->
                    snd (calculate_proportion_ci successes (Fin total) confidence)
                    = Fin (Rmin 1 y))
      /\ exists l u,
           calculate_proportion_ci successes (Fin total) confidence = (Fin l, Fin u)
           /\ 0 <= l /\ u <= 1)
  /\
  (forall confidence : num,
      exists u,
        calculate_proportion_ci (Fin 0) (Fin 100) confidence = (Fin 0, Fin u)
        /\ 0 <= u)
  /\
  (forall (confidence : num) (total : R),
      0 < total ->
      exists l,
        calculate_proportion_ci (Fin total) (Fin total) confidence = (Fin l, Fin 1)
        /\ 0 <= l <= 1).
Proof.
  split; [| split; [| split]].
  - intros s c. unfold calculate_proportion_ci. simpl. now rewrite Reqb_refl.
  - intros s c t Ht p z se.
    assert (E : calculate_proportion_ci s (Fin t) c
                = (Num.pymax (Fin 0) (p - z * se)%num, Num.pymin (Fin 1) (p + z * se)%num)).
    { unfold calculate_proportion_ci. simpl Num.eqb.
      rewrite Reqb_false_ne by lra. reflexivity. }
    split; [exact E |]. rewrite E. cbn [fst snd].
    split; [intros x ->; apply pymax_0_Fin |].
    split; [intros y ->; apply pymin_1_Fin |].
    destruct (pymax_0_lower (p - z * se)%num) as (l & -> & Hl).
    destruct (pymin_1_upper (p + z * se)%num) as (u & -> & Hu).
    exists l, u. auto.
  - intros c. unfold calculate_proportion_ci. simpl Num.eqb.
    rewrite Reqb_false_ne by lra.
    set (z := norm_ppf _).
    assert (Hp : (Fin 0 / Fin 100)%num = Fin 0).
    { simpl. rewrite Reqb_false_ne by lra. f_equal. lra. }
    rewrite Hp.
    assert (Hse : Num.sqrt (Fin 0 * (Fin 1 - Fin 0) / Fin 100)%num = Fin 0).
    { simpl. rewrite Reqb_false_ne by lra. simpl.
      replace (0 * (1 - 0) / 100) with 0 by lra.
      assert (E : Rltb 0 0 = false) by (apply Rltb_false; lra).
      rewrite E. now rewrite sqrt_0. }
    rewrite Hse. destruct z as [|z].
    + simpl. exists 1. split; [reflexivity | lra].
    + cbn [Num.mul Num.sub Num.add Num.lift2].
      rewrite pymax_0_Fin, pymin_1_Fin.
      replace (0 - z * 0) with 0 by lra. replace (0 + z * 0) with 0 by lra.
      exists (Rmin 1 0). split.
      * f_equal. f_equal. unfold Rmax. destruct (Rle_dec 0 0); lra.
      * unfold Rmin. destruct (Rle_dec 1 0); lra.
  - intros c t Ht. unfold calculate_proportion_ci. simpl Num.eqb.
    rewrite Reqb_false_ne by lra.
    set (z := norm_ppf _).
    assert (Hp : (Fin t / Fin t)%num = Fin 1).
    { simpl. rewrite Reqb_false_ne by lra. f_equal. field. lra. }
    rewrite Hp.
    assert (Hse : Num.sqrt (Fin 1 * (Fin 1 - Fin 1) / Fin t)%num = Fin 0).
    { simpl. rewrite Reqb_false_ne by lra. simpl.
      replace (1 * (1 - 1) / t) with 0 by (field; lra).
      assert (E : Rltb 0 0 = false) by (apply Rltb_false; lra).
      rewrite E. now rewrite sqrt_0. }
    rewrite Hse. destruct z as [|z].
    + simpl. exists 0. split; [reflexivity | lra].
    + cbn [Num.mul Num.sub Num.add Num.lift2].
      rewrite pymax_0_Fin, pymin_1_Fin.
      replace (1 - z * 0) with 1 by lra. replace (1 + z * 0) with 1 by lra.
      exists (Rmax 0 1). split.
      * f_equal. f_equal. unfold Rmin. destruct (Rle_dec 1 1); lra.
      * unfold Rmax. destruct (Rle_dec 0 1); lra.
Qed.

(** ** Computations that leave the existing heap alone *)

(** [keeps h0 m P]: started from any heap that extends [h0], [m] ends in a
    heap that still extends [h0] (it only adds objects, or updates objects
    newer than [h0]), and a returned value satisfies [P]. *)
Definition keeps {A : Type} (h0 : heap) (m : M A) (P : A -> Prop) : Prop :=
  forall h, extends h0 h ->
    extends h0 (snd (m h)) /\ (forall a, fst (m h) = Ok a -> P a).

Definition anything {A : Type} : A -> Prop := fun _ => True.

Lemma keeps_weaken {A : Type} (h0 : heap) (m : M A) (P Q : A -> Prop) :
  keeps h0 m P -> (forall a, P a -> Q a) -> keeps h0 m Q.
Proof. intros H HPQ h Hh. destruct (H h Hh) as [H1 H2]. split; auto. Qed.

Lemma keeps_ret {A : Type} (h0 : heap) (a : A) (P : A -> Prop) :
  P a -> keeps h0 (ret a) P.
Proof.
  intros Ha h Hh. split; [exact Hh |]. simpl. intros b E.
  inversion E; subst. exact Ha.
Qed.

Lemma keeps_raise {A : Type} (h0 : heap) (e : exn) (P : A -> Prop) :
  keeps h0 (raise e) P.
Proof. intros h Hh. split; [exact Hh |]. simpl. discriminate. Qed.

Lemma keeps_pure {A : Type} (h0 : heap) (r : res A) : keeps h0 (pure r) anything.
Proof. intros h Hh. split; [exact Hh |]. intros; exact I. Qed.

Lemma keeps_alloc (h0 : heap) (o : obj) :
  keeps h0 (alloc o) (fun a => (length h0 <= a)%nat).
Proof.
  intros h Hh. split; [now apply extends_alloc |].
  simpl. intros a E. inversion E. now apply extends_length.
Qed.

Lemma keeps_load (h0 : heap) (a : addr) : keeps h0 (load a) anything.
Proof.
  intros h Hh. unfold load.
  destruct (nth_error h a); simpl; (split; [exact Hh | intros; exact I]).
Qed.

Lemma keeps_store (h0 : heap) (a : addr) (o : obj) :
  (length h0 <= a)%nat -> keeps h0 (store a o) anything.
Proof.
  intros Ha h Hh. split; [now apply extends_update | intros; exact I].
Qed.

Lemma keeps_bind {A B : Type} (h0 : heap) (m : M A) (k : A -> M B)
      (P : A -> Prop) (Q : B -> Prop) :
  keeps h0 m P -> (forall a, P a -> keeps h0 (k a) Q) -> keeps h0 (bind m k) Q.
Proof.
  intros Hm Hk h Hh. destruct (Hm h Hh) as [H1 H2]. unfold bind.
  destruct (m h) as [[a|e] h1]; simpl in *.
  - apply (Hk a (H2 a eq_refl) h1 H1).
  - split; [exact H1 | discriminate].
Qed.

Lemma keeps_for_each {A : Type} (h0 : heap) (l : list A) (body : A -> M unit) :
  (forall x, keeps h0 (body x) anything) -> keeps h0 (for_each l body) anything.
Proof.
  intros Hb. induction l as [|x l IH]; simpl.
  - now apply keeps_ret.
  - eapply keeps_bind; [apply Hb | intros _ _; exact IH].
Qed.

Lemma keeps_load_sample (h0 : heap) (a : addr) : keeps h0 (load_sample a) anything.
Proof.
  unfold load_sample. eapply keeps_bind; [apply keeps_load |].
  intros o _. destruct o; first [now apply keeps_ret | apply keeps_raise].
Qed.

Lemma keeps_load_samples (h0 : heap) (l : list value) : keeps h0 (load_samples l) anything.
Proof.
  induction l as [|[a|c] l IH]; simpl.
  - now apply keeps_ret.
  - eapply keeps_bind; [apply keeps_load_sample |]. intros s _.
    eapply keeps_bind; [apply IH |]. intros r _. now apply keeps_ret.
  - apply keeps_raise.
Qed.

Lemma keeps_load_entries (h0 : heap) (l : list value) : keeps h0 (load_entries l) anything.
Proof.
  induction l as [|[a|c] l IH]; simpl.
  - now apply keeps_ret.
  - eapply keeps_bind; [apply keeps_load |]. intros o _.
    destruct o; try apply keeps_raise.
    eapply keeps_bind; [apply IH |]. intros es _. now apply keeps_ret.
  - apply keeps_raise.
Qed.

Ltac keeps_tac :=
  lazymatch goal with
  | |- keeps _ (bind (alloc _) _) _ =>
      eapply keeps_bind; [apply keeps_alloc | intros ? ?; keeps_tac]
  | |- keeps _ (bind ?m _) _ =>
      apply (@keeps_bind _ _ _ m _ anything); [keeps_tac | intros ? _; keeps_tac]
  | |- keeps _ (ret _) _ => apply keeps_ret; first [exact I | assumption | lia]
  | |- keeps _ (raise _) _ => apply keeps_raise
  | |- keeps _ (pure _) _ => apply keeps_pure
  | |- keeps _ (alloc _) anything =>
      eapply keeps_weaken; [apply keeps_alloc | intros; exact I]
  | |- keeps _ (alloc _) _ => apply keeps_alloc
  | |- keeps _ (load _) _ => apply keeps_load
  | |- keeps _ (load_samples _) _ => apply keeps_load_samples
  | |- keeps _ (load_entries _) _ => apply keeps_load_entries
  | |- keeps _ (store _ _) _ => apply keeps_store; first [assumption | lia]
  | |- keeps _ (for_each _ _) _ => apply keeps_for_each; intros ?; keeps_tac
  | |- keeps _ (match ?x with _ => _ end) _ => destruct x; keeps_tac
  | |- keeps _ ?m _ =>
      let hd := head_of m in unfold hd; keeps_tac
  end
with head_of m :=
  lazymatch m with
  | ?f _ _ _ _ _ _ => f
  | ?f _ _ _ _ _ => f
  | ?f _ _ _ _ => f
  | ?f _ _ _ => f
  | ?f _ _ => f
  | ?f _ => f
  end.

Lemma keeps_perform_chi_square_test (h0 : heap) (df : addr) (var1 var2 : string) :
  keeps h0 (perform_chi_square_test df var1 var2) (fun a => (length h0 <= a)%nat).
Proof. keeps_tac. Qed.

Lemma keeps_perform_t_test (h0 : heap) (df : addr)
      (numeric_var group_var group1 group2 : string) :
  keeps h0 (perform_t_test df numeric_var group_var group1 group2)
        (fun a => (length h0 <= a)%nat).
Proof. keeps_tac. Qed.

Lemma keeps_perform_anova (h0 : heap) (df : addr) (numeric_var group_var : string) :
  keeps h0 (perform_anova df numeric_var group_var) (fun a => (length h0 <= a)%nat).
Proof. keeps_tac. Qed.

Lemma keeps_calculate_cancellation_metrics (h0 : heap) (df : addr)
      (group_vars : list string) :
  keeps h0 (calculate_cancellation_metrics df group_vars)
        (fun a => (length h0 <= a)%nat).
Proof. keeps_tac. Qed.

Lemma keeps_analyze_feature_importance (h0 : heap) (df : addr) (target : string)
      (features : list string) :
  keeps h0 (analyze_feature_importance df target features)
        (fun a => (length h0 <= a)%nat).
Proof. keeps_tac. Qed.

Lemma keeps_calculate_business_metrics (h0 : heap) (df : addr) :
  keeps h0 (calculate_business_metrics df) (fun a => (length h0 <= a)%nat).
Proof. keeps_tac. Qed.

(** ** The input dataset is never mutated *)

(** [intact h m]: run from [h], the computation [m] ends in [h] followed by
    the objects it created; every object of [h] (the input frame among
    them) is still there unchanged, and the object it returns is one of the
    created ones. *)
Definition intact (h : heap) (m : M addr) : Prop :=
  (exists created, snd (m h) = h ++ created)
  /\ (forall x o, nth_error h x = Some o -> nth_error (snd (m h)) x = Some o)
  /\ (forall a, fst (m h) = Ok a -> (length h <= a)%nat).

Lemma keeps_intact (h : heap) (m : M addr) :
  keeps h m (fun a => (length h <= a)%nat) -> intact h m.
Proof.
  intros H. destruct (H h (extends_refl h)) as [He Ha].
  split; [exact He |]. split; [| exact Ha].
  intros x o Hx. eapply extends_lookup; eauto.
Qed.

(** The table a chi-square result refers to and the group statistics an
    ANOVA result refers to are created by the call. *)
Definition fresh_parts (h : heap) (m : M addr) : Prop :=
  match m h with
  | (Ok a, h') =>
      match nth_error h' a with
      | Some (OChiSquare r) => (length h <= ChiSquare.contingency_table r)%nat
      | Some (OAnova r) => (length h <= Anova.group_stats r)%nat
      | _ => True
      end
  | _ => True
  end.

(** C9.  No operation mutates the input dataset: whatever the heap and the
    arguments, after [perform_chi_square_test], [perform_t_test],
    [perform_anova], [calculate_cancellation_metrics],
    [analyze_feature_importance] or [calculate_business_metrics] every
    object that existed before the call is unchanged, whether the call
    returns or raises; the heap has only grown by the objects the call
    created, and the returned object and the structures it refers to are
    among them. *)
Theorem operations_leave_dataset_intact :
  forall (h : heap) (df : addr),
    (forall var1 var2,
        intact h (perform_chi_square_test df var1 var2)
        /\ fresh_parts h (perform_chi_square_test df var1 var2))
    /\ (forall numeric_var group_var group1 group2,
           intact h (perform_t_test df numeric_var group_var group1 group2))
    /\ (forall numeric_var group_var,
           intact h (perform_anova df numeric_var group_var)
           /\ fresh_parts h (perform_anova df numeric_var group_var))
    /\ (forall group_vars, intact h (calculate_cancellation_metrics df group_vars))
    /\ (forall target features, intact h (analyze_feature_importance df target features))
    /\ intact h (calculate_business_metrics df).
Proof.
  intros h df.
  split; [intros var1 var2; split |].
  { apply keeps_intact, keeps_perform_chi_square_test. }
  { unfold fresh_parts.
    destruct (perform_chi_square_test df var1 var2 h) as [[a|e] h'] eqn:E; [| exact I].
    apply perform_chi_square_test_inv in E
      as (d & s1 & s2 & chi2 & p & dof & _ & _ & _ & _ & _ & _ & _ & _ & -> & ->).
    rewrite nth_error_snoc2. simpl. lia. }
  split; [intros; apply keeps_intact, keeps_perform_t_test |].
  split; [intros numeric_var group_var; split |].
  { apply keeps_intact, keeps_perform_anova. }
  { unfold fresh_parts.
    destruct (perform_anova df numeric_var group_var h) as [[a|e] h'] eqn:E; [| exact I].
    apply perform_anova_inv in E
      as (d & grouped & samples & f_stat & p_value & gm & _ & _ & -> & ->).
    rewrite anova_heap_result. simpl. lia. }
  split; [intros; apply keeps_intact, keeps_calculate_cancellation_metrics |].
  split; [intros; apply keeps_intact, keeps_analyze_feature_importance |].
  apply keeps_intact, keeps_calculate_business_metrics.
Qed.

(** ** [calculate_business_metrics] *)

Lemma run_dict_setitem (h tail : heap) (dct : list (string * num)) (k : string) (v : num) :
  dict_setitem (length h) k v (h ++ ODict dct :: tail)
  = (Ok tt, h ++ ODict (dict_set k v dct) :: tail).
Proof.
  unfold dict_setitem. rewrite run_bind, run_load_dict, nth_error_snoc.
  unfold store. now rewrite update_at_length.
Qed.

Lemma dict_get_set (k : string) (v : num) (d : list (string * num)) :
  dict_get k (dict_set k v d) = Some v.
Proof.
  induction d as [|[k' v'] d IH]; simpl.
  - now rewrite String.eqb_refl.
  - destruct (String.eqb k' k) eqn:E; simpl.
    + now rewrite String.eqb_refl.
    + now rewrite E.
Qed.

(** A column of numeric dtype. *)
Definition numeric_in (sch : list (string * dtype)) (name : string) : Prop :=
  exists j t, col_index name sch = Some (j, t) /\ is_numeric t = true.

(** The finite values of column [j]. *)
Definition column_values (j : nat) (rs : list row) : list R :=
  finite_values (map cell_num (map (cell_at j) rs)).

Lemma mean_of_numeric (sch : list (string * dtype)) (rs : list row) (name : string) :
  numeric_in sch name ->
  exists v, res_bind (getitem (mkDataFrame sch rs) name) series_mean = Ok v.
Proof.
  intros (j & t & Hc & Ht). unfold getitem. simpl schema. rewrite Hc. simpl.
  unfold series_mean, dropna, to_nums. simpl. rewrite Ht. simpl. eauto.
Qed.

Lemma sum_of_numeric (sch : list (string * dtype)) (rs : list row) (name : string)
      (j : nat) (t : dtype) :
  col_index name sch = Some (j, t) -> is_numeric t = true ->
  res_bind (getitem (mkDataFrame sch rs) name) series_sum
  = Ok (Fin (Rsum (column_values j rs))).
Proof.
  intros Hc Ht. unfold getitem. simpl schema. rewrite Hc. simpl.
  unfold series_sum, dropna, to_nums. simpl. rewrite Ht. reflexivity.
Qed.

Lemma has_column_numeric (sch : list (string * dtype)) (rs : list row) (name : string) :
  numeric_in sch name -> has_column (mkDataFrame sch rs) name = true.
Proof. intros (j & t & Hc & _). unfold has_column. simpl. now rewrite Hc. Qed.

Lemma positive_mean_ok (sch : list (string * dtype)) (rs : list row) (name : string) :
  (has_column (mkDataFrame sch rs) name = true -> numeric_in sch name) ->
  exists v, positive_mean (mkDataFrame sch rs) name = Ok v.
Proof.
  intros H. unfold positive_mean.
  destruct (has_column (mkDataFrame sch rs) name) eqn:E; [| eauto].
  destruct (H eq_refl) as (j & t & Hc & Ht).
  unfold select_pos. simpl schema. rewrite Hc, Ht. simpl res_bind.
  apply mean_of_numeric. exists j, t. auto.
Qed.

Lemma has_column_rows (sch : list (string * dtype)) (rs rs' : list row) (name : string) :
  has_column (mkDataFrame sch rs) name = has_column (mkDataFrame sch rs') name.
Proof. reflexivity. Qed.

Lemma sum_product_ok (sch : list (string * dtype)) (rs : list row) (a b : string) :
  numeric_in sch a -> numeric_in sch b ->
  exists v,
    res_bind (getitem (mkDataFrame sch rs) a) (fun x =>
    res_bind (getitem (mkDataFrame sch rs) b) (fun y => sum_product x y)) = Ok v.
Proof.
  intros (ja & ta & Ha & Hta) (jb & tb & Hb & Htb).
  unfold getitem. simpl schema. rewrite Ha, Hb. simpl.
  unfold sum_product, to_nums. simpl. rewrite Hta, Htb. simpl. eauto.
Qed.

(** The columns [calculate_business_metrics] needs: numeric [is_canceled]
    and [lead_time], a [hotel] column, and numeric [adr] and
    [total_stay_nights] when the frame has them. *)
Definition business_frame (d : DataFrame) : Prop :=
  numeric_in (schema d) "is_canceled"
  /\ numeric_in (schema d) "lead_time"
  /\ has_column d "hotel" = true
  /\ (has_column d "adr" = true -> numeric_in (schema d) "adr")
  /\ (has_column d "total_stay_nights" = true -> numeric_in (schema d) "total_stay_nights").

Definition hotel_body (metrics : addr) (d : DataFrame) (hotel_type : cell) : M unit :=
  hd <- pure (select_eq d "hotel" hotel_type) ;;
  hotel_data <- alloc (ODataFrame hd) ;;
  r <- pure (res_bind (getitem hd "is_canceled") series_mean) ;;
  dict_setitem metrics (str_of_cell hotel_type ++ "_cancellation_rate")%string r ;;;
  a <- pure (positive_mean hd "adr") ;;
  dict_setitem metrics (str_of_cell hotel_type ++ "_avg_adr")%string a.


(** Total and canceled room-nights, as the function computes them. *)
Definition total_room_nights (d : DataFrame) : res num :=
  sum_if_present d "total_stay_nights".

Definition canceled_room_nights (d : DataFrame) : res num :=
  if has_column d "total_stay_nights"
  then res_bind (select_eq d "is_canceled" (Int 1)) (fun c =>
       res_bind (getitem c "total_stay_nights") series_sum)
  else Ok (Fin 0).

Lemma column_values_filter_le (j : nat) (p : row -> bool) (rs : list row) :
  (forall r x, In r rs -> cell_num (cell_at j r) = Fin x -> 0 <= x) ->
  0 <= Rsum (column_values j (filter p rs)) <= Rsum (column_values j rs).
Proof.
  unfold column_values. induction rs as [|r rs IH]; intros H; simpl; [lra |].
  assert (IH' : 0 <= Rsum (finite_values (map cell_num (map (cell_at j) (filter p rs))))
                <= Rsum (finite_values (map cell_num (map (cell_at j) rs)))).
  { apply IH. intros r' x Hin. apply H. now right. }
  destruct (cell_num (cell_at j r)) as [|x] eqn:E.
  - destruct (p r); simpl; rewrite ?E; exact IH'.
  - assert (0 <= x) by (apply (H r x); [now left | exact E]).
    destruct (p r); simpl; rewrite ?E; simpl; lra.
Qed.

Lemma room_nights_values (d : DataFrame) :
  business_frame d ->
  exists total canceled,
    total_room_nights d = Ok (Fin total)
    /\ canceled_room_nights d = Ok (Fin canceled)
    /\ ((forall s, getitem d "total_stay_nights" = Ok s ->
                   forall c x, In c (s_values s) -> cell_num c = Fin x -> 0 <= x) ->
        0 < total -> 0 <= canceled <= total).
Proof.
  intros (Hic & _ & _ & _ & Htsn).
  destruct d as [sch rs]. simpl schema in *.
  unfold total_room_nights, canceled_room_nights, sum_if_present.
  destruct (has_column (mkDataFrame sch rs) "total_stay_nights") eqn:Ehas.
  - destruct (Htsn eq_refl) as (j & t & Hc & Ht).
    destruct Hic as (jc & tc & Hcc & _).
    unfold select_eq. simpl schema. rewrite Hcc. simpl res_bind.
    rewrite (@sum_of_numeric sch rs _ j t Hc Ht).
    rewrite (@sum_of_numeric sch (filter (fun r => cell_eqb (cell_at jc r) (Int 1)) rs)
                             _ j t Hc Ht).
    do 2 eexists. split; [reflexivity |]. split; [reflexivity |].
    intros Hnn _. apply column_values_filter_le.
    intros r x Hin Hx.
    apply (Hnn (mkSeries t (map (cell_at j) rs))) with (cell_at j r).
    + unfold getitem. simpl schema. now rewrite Hc.
    + simpl. now apply in_map.
    + exact Hx.
  - exists 0, 0. split; [reflexivity |]. split; [reflexivity |]. intros _ H. lra.
Qed.





(** ** Sorting rows by a score *)

Section SortRows.

Variable j : nat.




Lemma insert_desc_perm (x : row) (l : list row) :
  Permutation (x :: l) (insert_desc j x l).
Proof.
  induction l as [|y l IH]; simpl; [reflexivity |].
  destruct (Num.ltb _ _); [reflexivity |].
  rewrite perm_swap. now apply perm_skip.
Qed.

Lemma sort_desc_perm (l : list row) :
  Permutation l (fold_right (insert_desc j) [] l).
Proof.
  induction l as [|x l IH]; simpl; [reflexivity |].
  rewrite <- insert_desc_perm. now apply perm_skip.
Qed.




Lemma sort_rows_desc_perm (l : list row) : Permutation (sort_rows_desc j l) l.
Proof.
  unfold sort_rows_desc. rewrite <- sort_desc_perm.
  induction l as [|x l IH]; simpl; [reflexivity |].
  destruct (Num.is_nan (cell_num (cell_at j x))); simpl.
  - rewrite <- Permutation_middle. now apply perm_skip.
  - now apply perm_skip.
Qed.




End SortRows.

(** ** [analyze_feature_importance] in closed form *)

(** Cramer's V of the cross-tabulation of two series, given the statistic. *)
Definition cramers_v_of (s1 s2 : Series) (chi2 : num) : num :=
  if (0 <? min_dim (crosstab s1 s2))%Z
  then Num.sqrt (chi2 / Num.of_Z (table_total (crosstab s1 s2)
                                  * min_dim (crosstab s1 s2)))%num
  else Fin 0.

(** The score of one feature against the target, and the name of the
    measure, as functions of the frame alone. *)
Definition feature_score (d : DataFrame) (target feature : string) : res (num * string) :=
  res_bind (getitem d feature) (fun s =>
  if is_categorical (s_dtype s) then
    res_bind (getitem d target) (fun t =>
    res_bind (chi2_contingency chi2_sf (counts (crosstab s t)) true) (fun x =>
    Ok (cramers_v_of s t (fst (fst (fst x))), "Cramér's V")))
  else
    res_bind (res_bind (getitem d target) to_nums) (fun t =>
    res_bind (to_nums s) (fun f =>
    res_bind (pointbiserialr t (impute_median f)) (fun sp =>
    Ok (Num.abs (fst sp), "Correlación"))))).

Definition importance_entry (feature : string) (sc : num * string) : Importance.entry :=
  Importance.mk feature (fst sc) (snd sc) (interpret_importance_score (fst sc)).

Definition importance_body (scores_list df : addr) (target feature : string) : M unit :=
  d <- load_frame df ;;
  ' (score, test_type) <- score_feature df d target feature ;;
  e <- alloc (OEntry (Importance.mk feature score test_type
                        (interpret_importance_score score))) ;;
  list_append scores_list (VRef e).

Lemma score_feature_run (df : addr) (d : DataFrame) (target feature : string) (H : heap) :
  nth_error H df = Some (ODataFrame d) ->
  exists t,
    score_feature df d target feature H = (feature_score d target feature, H ++ t).
Proof.
  intros Hdf. unfold score_feature, feature_score.
  rewrite run_pure_bind.
  destruct (getitem d feature) as [s|e] eqn:Es; cbn [res_bind].
  2:{ exists []. now rewrite app_nil_r. }
  destruct (is_categorical (s_dtype s)).
  - rewrite run_bind, perform_chi_square_test_run, Hdf, Es.
    destruct (getitem d target) as [t|e]; cbn [res_bind].
    2:{ exists []. now rewrite app_nil_r. }
    destruct (chi2_contingency chi2_sf (counts (crosstab s t)) true)
      as [[[[chi2 p] dof] E]|e]; cbn [res_bind fst].
    2:{ eexists. reflexivity. }
    rewrite run_bind. unfold load. rewrite nth_error_snoc2.
    eexists. reflexivity.
  - rewrite run_pure_bind.
    destruct (res_bind (getitem d target) to_nums) as [t|e]; cbn [res_bind].
    2:{ exists []. now rewrite app_nil_r. }
    rewrite run_pure_bind.
    destruct (to_nums s) as [f|e]; cbn [res_bind].
    2:{ exists []. now rewrite app_nil_r. }
    rewrite run_pure_bind.
    destruct (pointbiserialr t (impute_median f)) as [[sc p]|e]; cbn [res_bind fst].
    2:{ exists []. now rewrite app_nil_r. }
    exists []. now rewrite app_nil_r.
Qed.

(** The references of a list point to the given entries, in order. *)
Definition entries_at (H : heap) (refs : list value) (entries : list Importance.entry)
  : Prop :=
  Forall2 (fun v e => exists a, v = VRef a /\ nth_error H a = Some (OEntry e))
          refs entries.

Lemma entry_lookup_grow (h0 tail t : heap) (x y : list value) (a : addr)
      (e : Importance.entry) :
  nth_error (h0 ++ OList x :: tail) a = Some (OEntry e) ->
  nth_error (h0 ++ OList y :: tail ++ t) a = Some (OEntry e).
Proof.
  intros H. destruct (Nat.lt_ge_cases a (length h0)) as [Hlt | Hge].
  - rewrite nth_error_app1 in * by assumption. exact H.
  - rewrite nth_error_app2 in * by assumption.
    destruct (a - length h0)%nat as [|k]; simpl in *; [discriminate |].
    rewrite nth_error_app1; [exact H |].
    apply nth_error_Some. congruence.
Qed.

Lemma entries_at_grow (h0 tail t : heap) (x y refs : list value)
      (entries : list Importance.entry) :
  entries_at (h0 ++ OList x :: tail) refs entries ->
  entries_at (h0 ++ OList y :: tail ++ t) refs entries.
Proof.
  unfold entries_at. intros H. induction H as [|v e refs entries Hv _ IH].
  - constructor.
  - constructor; [| exact IH].
    destruct Hv as (a & -> & Ha). exists a. split; [reflexivity |].
    now apply entry_lookup_grow with x.
Qed.

Lemma load_entries_run (H : heap) (refs : list value) (entries : list Importance.entry) :
  entries_at H refs entries -> load_entries refs H = (Ok entries, H).
Proof.
  unfold entries_at. intros Hat. induction Hat as [|v e refs entries Hv _ IH].
  - reflexivity.
  - destruct Hv as (a & -> & Ha). cbn [load_entries].
    rewrite run_bind. unfold load. rewrite Ha.
    rewrite run_bind, IH. reflexivity.
Qed.

Lemma importance_loop (h0 : heap) (df : addr) (d : DataFrame) (target : string)
      (todo : list string) :
  nth_error h0 df = Some (ODataFrame d) ->
  forall (refs : list value) (tail : heap) (entries : list Importance.entry),
    entries_at (h0 ++ OList refs :: tail) refs entries ->
    match res_map (feature_score d target) todo with
    | Ok scores =>
        exists refs' tail',
          for_each todo (importance_body (length h0) df target) (h0 ++ OList refs :: tail)
          = (Ok tt, h0 ++ OList refs' :: tail')
          /\ entries_at (h0 ++ OList refs' :: tail') refs'
                        (entries ++ map (fun p => importance_entry (fst p) (snd p))
                                        (combine todo scores))
    | Raise e =>
        exists H',
          for_each todo (importance_body (length h0) df target) (h0 ++ OList refs :: tail)
          = (Raise e, H')
    end.
Proof.
  intros Hdf. induction todo as [|feature todo IH]; intros refs tail entries Hat.
  - simpl. exists refs, tail. split; [reflexivity |]. now rewrite app_nil_r.
  - cbn [res_map].
    assert (Hdf' : nth_error (h0 ++ OList refs :: tail) df = Some (ODataFrame d))
      by now apply nth_error_old.
    destruct (@score_feature_run df d target feature _ Hdf') as [t Hscore].
    destruct (feature_score d target feature) as [[score name]|e] eqn:Efs; cbn [res_bind].
    2:{ eexists. cbn [for_each]. rewrite run_bind. unfold importance_body.
        rewrite run_bind, run_load_frame, Hdf'. rewrite run_bind, Hscore. reflexivity. }
    set (H1 := h0 ++ OList refs :: tail) in *.
    set (e := Importance.mk feature score name (interpret_importance_score score)).
    assert (Hstep :
      for_each (feature :: todo) (importance_body (length h0) df target) H1
      = for_each todo (importance_body (length h0) df target)
          (h0 ++ OList (refs ++ [VRef (length (H1 ++ t))]) :: (tail ++ t ++ [OEntry e]))).
    { cbn [for_each]. rewrite run_bind. unfold importance_body at 1.
      rewrite run_bind, run_load_frame, Hdf'. rewrite run_bind, Hscore.
      rewrite run_alloc_bind. fold e.
      assert (Hform : (H1 ++ t) ++ [OEntry e]
                      = h0 ++ OList refs :: (tail ++ t ++ [OEntry e])).
      { unfold H1. rewrite <- !app_assoc. reflexivity. }
      rewrite Hform.
      rewrite (@run_list_append (length h0) _ refs) by apply nth_error_snoc.
      rewrite update_at_length. reflexivity. }
    rewrite Hstep.
    assert (Hat' : entries_at
                     (h0 ++ OList (refs ++ [VRef (length (H1 ++ t))])
                         :: (tail ++ t ++ [OEntry e]))
                     (refs ++ [VRef (length (H1 ++ t))]) (entries ++ [e])).
    { apply Forall2_app.
      - apply (@entries_at_grow h0 tail (t ++ [OEntry e]) refs). exact Hat.
      - constructor; [| constructor].
        exists (length (H1 ++ t)). split; [reflexivity |].
        replace (h0 ++ OList (refs ++ [VRef (length (H1 ++ t))])
                    :: (tail ++ t ++ [OEntry e]))
          with ((h0 ++ OList (refs ++ [VRef (length (H1 ++ t))]) :: (tail ++ t))
                  ++ [OEntry e])
          by (rewrite <- app_assoc; simpl; now rewrite <- app_assoc).
        replace (length (H1 ++ t))
          with (length (h0 ++ OList (refs ++ [VRef (length (H1 ++ t))]) :: (tail ++ t)))
          at 2
          by (unfold H1; rewrite !length_app; simpl; rewrite !length_app; lia).
        apply nth_error_snoc. }
    specialize (IH _ _ _ Hat').
    destruct (res_map (feature_score d target) todo) as [scores|e']; cbn [res_bind].
    + destruct IH as (refs' & tail' & Hrun & Hfin).
      exists refs', tail'. split; [exact Hrun |].
      cbn [combine map fst snd]. rewrite <- app_assoc in Hfin. exact Hfin.
    + exact IH.
Qed.

Lemma res_map_Forall2 {A B : Type} (f : A -> res B) (l : list A) (ys : list B) :
  res_map f l = Ok ys -> Forall2 (fun x y => f x = Ok y) l ys.
Proof.
  revert ys. induction l as [|x l IH]; intros ys H; simpl in H.
  - inversion H. constructor.
  - destruct (f x) as [y|] eqn:E; [| discriminate]. simpl in H.
    destruct (res_map f l) as [r|]; [| discriminate]. simpl in H.
    inversion H; subst. constructor; [exact E | now apply IH].
Qed.

Lemma res_map_length {A B : Type} (f : A -> res B) (l : list A) (ys : list B) :
  res_map f l = Ok ys -> length ys = length l.
Proof.
  intros H. apply res_map_Forall2 in H. symmetry. now apply Forall2_length in H.
Qed.

(** The entries of the features, in the order of the feature list. *)
Definition importance_entries (features : list string) (scores : list (num * string))
  : list Importance.entry :=
  map (fun p => importance_entry (fst p) (snd p)) (combine features scores).

Lemma importance_frame_sorted (entries : list Importance.entry) :
  entries <> [] ->
  sort_values_desc (importance_frame entries) "importance_score"
  = Ok (mkDataFrame (schema (importance_frame entries))
                    (sort_rows_desc 1 (rows (importance_frame entries)))).
Proof. destruct entries; [congruence | reflexivity]. Qed.

Lemma analyze_feature_importance_run (df : addr) (target : string) (features : list string)
      (h : heap) (d : DataFrame) (scores : list (num * string)) :
  nth_error h df = Some (ODataFrame d) ->
  res_map (feature_score d target) features = Ok scores ->
  features <> [] ->
  exists h1,
    analyze_feature_importance df target features h
    = (Ok (S (length h1)),
       h1 ++ [ODataFrame (importance_frame (importance_entries features scores));
              ODataFrame
                (mkDataFrame
                   (schema (importance_frame (importance_entries features scores)))
                   (sort_rows_desc 1
                      (rows (importance_frame (importance_entries features scores)))))]).
Proof.
  intros Hdf Hscores Hne. unfold analyze_feature_importance.
  rewrite run_alloc_bind, run_bind.
  match goal with
  | |- context [for_each ?l ?b ?hh] =>
      change (for_each l b hh)
        with (for_each l (importance_body (length h) df target) (h ++ OList [] :: []))
  end.
  pose proof (@importance_loop h df d target features Hdf [] [] []) as Hloop.
  rewrite Hscores in Hloop.
  destruct Hloop as (refs & tail & Hrun & Hat); [constructor |].
  rewrite Hrun. simpl app in Hat. fold (importance_entries features scores) in Hat.
  rewrite run_bind, run_load_list, nth_error_snoc.
  rewrite run_bind, (load_entries_run Hat).
  rewrite run_alloc_bind, run_bind, run_load_frame, nth_error_snoc.
  rewrite run_pure_bind.
  assert (Hentries : importance_entries features scores <> []).
  { unfold importance_entries. apply res_map_length in Hscores.
    destruct features; [congruence |]. destruct scores; [discriminate | discriminate]. }
  rewrite (importance_frame_sorted Hentries).
  unfold alloc. rewrite length_app. simpl length. rewrite Nat.add_1_r.
  rewrite <- app_assoc. simpl app.
  eexists. reflexivity.
Qed.


(** ** Claims about [analyze_feature_importance] *)



(** * Further properties of the module *)

(** ** Effect-size labels of the test results *)

Lemma interpret_cramers_v_buckets (x : R) :
  (x < 1 / 10 -> interpret_cramers_v (Fin x) = "Efecto despreciable")
  /\ (1 / 10 <= x < 3 / 10 -> interpret_cramers_v (Fin x) = "Efecto pequeño")
  /\ (3 / 10 <= x < 5 / 10 -> interpret_cramers_v (Fin x) = "Efecto mediano")
  /\ (5 / 10 <= x -> interpret_cramers_v (Fin x) = "Efecto grande").
Proof.
  unfold interpret_cramers_v. rewrite !lit_ltb. unfold Rltb.
  destruct (Rlt_dec x (1 / 10)), (Rlt_dec x (3 / 10)), (Rlt_dec x (5 / 10));
    repeat split; intros; try reflexivity; exfalso; lra.
Qed.

Lemma interpret_eta_squared_buckets (x : R) :
  (x < 1 / 100 -> interpret_eta_squared (Fin x) = "Efecto despreciable")
  /\ (1 / 100 <= x < 6 / 100 -> interpret_eta_squared (Fin x) = "Efecto pequeño")
  /\ (6 / 100 <= x < 14 / 100 -> interpret_eta_squared (Fin x) = "Efecto mediano")
  /\ (14 / 100 <= x -> interpret_eta_squared (Fin x) = "Efecto grande").
Proof.
  unfold interpret_eta_squared. rewrite !lit_ltb. unfold Rltb.
  destruct (Rlt_dec x (1 / 100)), (Rlt_dec x (6 / 100)), (Rlt_dec x (14 / 100));
    repeat split; intros; try reflexivity; exfalso; lra.
Qed.

(** X1.  On a frame with the two columns and at least one row holding a
    value in both, [perform_chi_square_test] returns a result whose
    [cramers_v] is a finite number and whose [effect_size] label is its
    bucket: below 0.1 negligible, below 0.3 small, below 0.5 medium, large
    from 0.5 on. *)
Theorem chi_square_effect_size_label :
  forall (df : addr) (var1 var2 : string) (h : heap) (d : DataFrame) (s1 s2 : Series),
    nth_error h df = Some (ODataFrame d) ->
    getitem d var1 = Ok s1 ->
    getitem d var2 = Ok s2 ->
    row_labels (crosstab s1 s2) <> [] ->
    exists (a : addr) (h' : heap) (r : ChiSquare.result) (v : R),
      perform_chi_square_test df var1 var2 h = (Ok a, h')
      /\ nth_error h' a = Some (OChiSquare r)
      /\ ChiSquare.cramers_v r = Fin v
      /\ (v < 1 / 10 -> ChiSquare.effect_size r = "Efecto despreciable")
      /\ (1 / 10 <= v < 3 / 10 -> ChiSquare.effect_size r = "Efecto pequeño")
      /\ (3 / 10 <= v < 5 / 10 -> ChiSquare.effect_size r = "Efecto mediano")
      /\ (5 / 10 <= v -> ChiSquare.effect_size r = "Efecto grande").
Proof.
  intros df var1 var2 h d s1 s2 Hdf H1 H2 Hne.
  destruct (chi2_contingency_crosstab s1 s2 Hne)
    as (chi2 & p & dof & E & Heq & B0 & B1 & B2 & B3).
  pose proof (outcome_cramers_v_range var1 var2 s1 s2 (length h) p dof B0 B1 B2 B3)
    as Hrange.
  set (r := chi_square_outcome var1 var2 s1 s2 (length h) (Fin chi2) p dof) in *.
  assert (Hlabel : ChiSquare.effect_size r = interpret_cramers_v (ChiSquare.cramers_v r))
    by reflexivity.
  destruct (ChiSquare.cramers_v r) as [|v] eqn:Ev; [destruct Hrange |].
  exists (S (length h)), (h ++ [OCrosstab (crosstab s1 s2); OChiSquare r]), r, v.
  split; [rewrite perform_chi_square_test_run, Hdf, H1, H2, Heq; reflexivity |].
  split; [apply nth_error_snoc2 |]. split; [exact Ev |].
  rewrite Hlabel. apply interpret_cramers_v_buckets.
Qed.

(** X2.  Whenever [perform_anova] returns, the [effect_size] label of its
    result is the bucket of [eta_squared]: below 0.01 negligible, below 0.06
    small, below 0.14 medium, large from 0.14 on; an undefined (NaN)
    [eta_squared] fails every comparison and is labelled a large effect. *)
Theorem anova_effect_size_label :
  forall (df : addr) (numeric_var group_var : string) (h h' : heap) (a : addr),
    perform_anova df numeric_var group_var h = (Ok a, h') ->
    exists r : Anova.result,
      nth_error h' a = Some (OAnova r)
      /\ (forall x : R,
             Anova.eta_squared r = Fin x ->
             (x < 1 / 100 -> Anova.effect_size r = "Efecto despreciable")
             /\ (1 / 100 <= x < 6 / 100 -> Anova.effect_size r = "Efecto pequeño")
             /\ (6 / 100 <= x < 14 / 100 -> Anova.effect_size r = "Efecto mediano")
             /\ (14 / 100 <= x -> Anova.effect_size r = "Efecto grande"))
      /\ (Anova.eta_squared r = NaN -> Anova.effect_size r = "Efecto grande").
Proof.
  intros df numeric_var group_var h h' a Hrun.
  apply perform_anova_inv in Hrun
    as (d & grouped & samples & f_stat & p_value & gm & _ & _ & -> & ->).
  eexists. split; [apply anova_heap_result |].
  cbn [Anova.eta_squared Anova.effect_size anova_outcome].
  split.
  - intros x Hx. rewrite Hx. apply interpret_eta_squared_buckets.
  - intros Hx. rewrite Hx. reflexivity.
Qed.

(** ** Missing columns and empty tables *)

Lemma getitem_missing (d : DataFrame) (name : string) :
  has_column d name = false -> getitem d name = Raise (KeyError name).
Proof.
  unfold has_column, getitem.
  destruct (col_index name (schema d)) as [[j t]|]; [discriminate | reflexivity].
Qed.

Lemma getitem_present (d : DataFrame) (name : string) :
  has_column d name = true -> exists s, getitem d name = Ok s.
Proof.
  unfold has_column, getitem.
  destruct (col_index name (schema d)) as [[j t]|]; [eauto | discriminate].
Qed.

Lemma select_eq_missing (d : DataFrame) (name : string) (v : cell) :
  has_column d name = false -> select_eq d name v = Raise (KeyError name).
Proof.
  unfold has_column, select_eq.
  destruct (col_index name (schema d)) as [[j t]|]; [discriminate | reflexivity].
Qed.

Lemma select_eq_schema (d g : DataFrame) (name : string) (v : cell) :
  select_eq d name v = Ok g -> schema g = schema d.
Proof.
  unfold select_eq.
  destruct (col_index name (schema d)) as [[j t]|]; [| discriminate].
  intros H. inversion H. reflexivity.
Qed.

Lemma select_eq_present (d : DataFrame) (name : string) (v : cell) :
  has_column d name = true -> exists g, select_eq d name v = Ok g.
Proof.
  unfold has_column, select_eq.
  destruct (col_index name (schema d)) as [[j t]|]; [eauto | discriminate].
Qed.

(** X3.  [perform_chi_square_test] on a frame that lacks one of the two
    columns raises [KeyError] for the first missing one and allocates
    nothing; when no row has a value in both columns (an empty frame, for
    one) the cross-tabulation is empty and the call raises [ValueError]. *)
Theorem chi_square_test_errors :
  forall (df : addr) (var1 var2 : string) (h : heap) (d : DataFrame),
    nth_error h df = Some (ODataFrame d) ->
    (has_column d var1 = false ->
     perform_chi_square_test df var1 var2 h = (Raise (KeyError var1), h))
    /\ (has_column d var1 = true -> has_column d var2 = false ->
        perform_chi_square_test df var1 var2 h = (Raise (KeyError var2), h))
    /\ (forall s1 s2 : Series,
           getitem d var1 = Ok s1 -> getitem d var2 = Ok s2 ->
           present_pairs (s_values s1) (s_values s2) = [] ->
           perform_chi_square_test df var1 var2 h
           = (Raise ValueError, h ++ [OCrosstab (crosstab s1 s2)])).
Proof.
  intros df var1 var2 h d Hdf. repeat split.
  - intros H1. rewrite perform_chi_square_test_run, Hdf, (getitem_missing _ _ H1).
    reflexivity.
  - intros H1 H2. destruct (getitem_present _ _ H1) as [s1 E1].
    rewrite perform_chi_square_test_run, Hdf, E1, (getitem_missing _ _ H2).
    reflexivity.
  - intros s1 s2 E1 E2 Hnone.
    rewrite perform_chi_square_test_run, Hdf, E1, E2.
    rewrite (chi2_contingency_empty s1 s2 (crosstab_rows_empty s1 s2 Hnone)).
    reflexivity.
Qed.

(** X4.  [perform_t_test] reads the grouping column first: without it the
    call raises [KeyError] for the grouping column, and with it but without
    the numeric column [KeyError] for the numeric column; in both cases no
    object is created.  [perform_anova] raises a [KeyError] in the same two
    cases. *)
Theorem tests_missing_column :
  forall (df : addr) (numeric_var group_var : string) (h : heap) (d : DataFrame),
    nth_error h df = Some (ODataFrame d) ->
    (has_column d group_var = false ->
     (forall group1 group2,
         perform_t_test df numeric_var group_var group1 group2 h
         = (Raise (KeyError group_var), h))
     /\ fst (perform_anova df numeric_var group_var h) = Raise (KeyError group_var))
    /\ (has_column d group_var = true -> has_column d numeric_var = false ->
        (forall group1 group2,
            perform_t_test df numeric_var group_var group1 group2 h
            = (Raise (KeyError numeric_var), h))
        /\ exists k, fst (perform_anova df numeric_var group_var h) = Raise (KeyError k)).
Proof.
  intros df numeric_var group_var h d Hdf. split.
  - intros Hg. split.
    + intros group1 group2. rewrite perform_t_test_run, Hdf.
      unfold group_sample. rewrite (select_eq_missing _ _ _ Hg). reflexivity.
    + pose proof (perform_anova_run df numeric_var group_var h Hdf) as Hrun.
      assert (E : anova_inputs d numeric_var group_var = Raise (KeyError group_var)).
      { unfold anova_inputs, groupby_series, groupby. cbn [col_indices].
        unfold has_column in Hg.
        destruct (col_index group_var (schema d)) as [[j t]|]; [discriminate | reflexivity]. }
      rewrite E in Hrun. destruct Hrun as (h'' & -> & _). reflexivity.
  - intros Hg Hn. split.
    + intros group1 group2. rewrite perform_t_test_run, Hdf.
      destruct (select_eq_present d group_var (Label group1) Hg) as [g1 E1].
      unfold group_sample. rewrite E1. cbn [res_bind].
      rewrite getitem_missing; [reflexivity |].
      unfold has_column in *. now rewrite (select_eq_schema _ _ _ E1).
    + exists numeric_var.
      pose proof (perform_anova_run df numeric_var group_var h Hdf) as Hrun.
      assert (E : anova_inputs d numeric_var group_var = Raise (KeyError numeric_var)).
      { unfold anova_inputs, groupby_series, groupby. cbn [col_indices].
        unfold has_column in Hg, Hn.
        destruct (col_index group_var (schema d)) as [[j t]|]; [| discriminate].
        cbn [res_bind].
        destruct (col_index numeric_var (schema d)) as [[j' t']|];
          [discriminate | reflexivity]. }
      rewrite E in Hrun. destruct Hrun as (h'' & -> & _). reflexivity.
Qed.

(** ** The two groups of [perform_t_test] *)

Lemma pooled_std_of_swap (s1 s2 : list R) : pooled_std_of s2 s1 = pooled_std_of s1 s2.
Proof.
  unfold pooled_std_of. f_equal. f_equal.
  destruct (std s1), (std s2); simpl; try reflexivity.
  f_equal. apply Rplus_comm.
Qed.

Lemma cohens_d_of_swap (s1 s2 : list R) (x : R) :
  cohens_d_of s1 s2 = Fin x -> cohens_d_of s2 s1 = Fin (- x).
Proof.
  unfold cohens_d_of. rewrite (pooled_std_of_swap s1 s2).
  destruct (pooled_std_of s1 s2 >? Fin 0)%num eqn:G.
  - destruct (pooled_std_of s1 s2) as [|p]; [discriminate G |].
    apply Rltb_true in G.
    destruct (mean s1) as [|m1], (mean s2) as [|m2]; simpl; try discriminate.
    rewrite Reqb_false_ne by lra.
    intros H. inversion H. f_equal. field. lra.
  - intros H. inversion H. f_equal. lra.
Qed.



(** X5.  Exchanging the two groups of [perform_t_test] exchanges the
    reported means, standard deviations and sizes, negates [cohens_d] and
    leaves the effect-size label unchanged, whenever both calls return. *)
Theorem t_test_groups_exchanged :
  forall (df : addr) (numeric_var group_var group1 group2 : string)
         (h h1 h2 : heap) (a1 a2 : addr),
    perform_t_test df numeric_var group_var group1 group2 h = (Ok a1, h1) ->
    perform_t_test df numeric_var group_var group2 group1 h = (Ok a2, h2) ->
    exists (r1 r2 : TTest.result) (x : R),
      nth_error h1 a1 = Some (OTTest r1)
      /\ nth_error h2 a2 = Some (OTTest r2)
      /\ TTest.mean_group1 r2 = TTest.mean_group2 r1
      /\ TTest.mean_group2 r2 = TTest.mean_group1 r1
      /\ TTest.std_group1 r2 = TTest.std_group2 r1
      /\ TTest.std_group2 r2 = TTest.std_group1 r1
      /\ TTest.n_group1 r2 = TTest.n_group2 r1
      /\ TTest.n_group2 r2 = TTest.n_group1 r1
      /\ TTest.cohens_d r1 = Fin x
      /\ TTest.cohens_d r2 = Fin (- x)
      /\ TTest.effect_size r2 = TTest.effect_size r1.
Proof.
  intros df numeric_var group_var group1 group2 h h1 h2 a1 a2 Hrun1 Hrun2.
  apply perform_t_test_inv in Hrun1
    as (d & s1 & s2 & r1 & Hdf & G1 & G2 & R1 & -> & ->).
  apply perform_t_test_inv in Hrun2
    as (d' & s2' & s1' & r2 & Hdf' & G2' & G1' & R2 & -> & ->).
  rewrite Hdf in Hdf'. inversion Hdf'. subst d'.
  rewrite G1 in G1'. inversion G1'. subst s1'.
  rewrite G2 in G2'. inversion G2'. subst s2'.
  apply t_test_result_inv in R1 as (p1 & p2 & w & pl & name & stat & p & _ & _ & _ & _ & ->).
  apply t_test_result_inv in R2
    as (p1' & p2' & w' & pl' & name' & stat' & p' & _ & _ & _ & _ & ->).
  destruct (cohens_d_of_finite s1 s2) as [x Hx].
  do 2 eexists. exists x.
  split; [apply nth_error_snoc3 |]. split; [apply nth_error_snoc3 |].
  cbn [TTest.mean_group1 TTest.mean_group2 TTest.std_group1 TTest.std_group2
       TTest.n_group1 TTest.n_group2 TTest.cohens_d TTest.effect_size t_test_outcome].
  rewrite (cohens_d_of_swap s1 s2 Hx), Hx.
  repeat (split; [reflexivity |]).
  simpl. now rewrite Rabs_Ropp.
Qed.


(** ** The interval of [calculate_proportion_ci] *)

(** [stats.norm.ppf(1 - (1 - confidence) / 2)] *)
Definition quantile_of (confidence : num) : num :=
  norm_ppf (Fin 1 - (Fin 1 - confidence) / Fin 2)%num.

(** The half-width [z * se] of the interval before clipping. *)
Definition margin_of (s total : R) (confidence : num) : num :=
  (quantile_of confidence
   * Num.sqrt (Fin (s / total * (1 - s / total) / total)))%num.

Lemma calculate_proportion_ci_finite (s total : R) (confidence : num) :
  total <> 0 ->
  calculate_proportion_ci (Fin s) (Fin total) confidence
  = (Num.pymax (Fin 0) (Fin (s / total) - margin_of s total confidence)%num,
     Num.pymin (Fin 1) (Fin (s / total) + margin_of s total confidence)%num).
Proof.
  intros Ht. unfold calculate_proportion_ci, margin_of, quantile_of.
  cbn [Num.eqb Num.div Num.sub Num.mul Num.lift2].
  rewrite (Reqb_false_ne Ht).
  cbn [Num.eqb Num.div Num.sub Num.mul Num.lift2].
  rewrite (Reqb_false_ne Ht). reflexivity.
Qed.


(** X7.  For a count between 0 and [total] and a non-negative normal
    quantile, the interval of [calculate_proportion_ci] is made of two finite
    bounds with the observed proportion between them. *)
Theorem proportion_ci_contains_proportion :
  forall (s total z : R) (confidence : num),
    0 < total -> 0 <= s <= total ->
    norm_ppf (Fin 1 - (Fin 1 - confidence) / Fin 2)%num = Fin z -> 0 <= z ->
    exists l u : R,
      calculate_proportion_ci (Fin s) (Fin total) confidence = (Fin l, Fin u)
      /\ l <= s / total <= u.
Proof.
  intros s total z confidence Ht Hs Hz Hz0.
  rewrite calculate_proportion_ci_finite by lra.
  unfold margin_of, quantile_of. rewrite Hz.
  assert (Hp : 0 <= s / total <= 1).
  { split.
    - apply Rmult_le_pos; [lra | apply Rlt_le, Rinv_0_lt_compat; exact Ht].
    - apply Rmult_le_reg_r with total; [exact Ht |].
      unfold Rdiv. rewrite Rmult_assoc, Rinv_l by lra. lra. }
  set (p := s / total) in *.
  assert (Hv : 0 <= p * (1 - p) / total).
  { apply Rmult_le_pos; [| apply Rlt_le, Rinv_0_lt_compat; exact Ht].
    apply Rmult_le_pos; lra. }
  unfold Num.sqrt. rewrite (proj2 (Rltb_false _ _) Hv).
  cbn [Num.mul Num.sub Num.add Num.lift2].
  pose proof (sqrt_pos (p * (1 - p) / total)) as Hse.
  set (se := sqrt (p * (1 - p) / total)) in *.
  assert (Hm : 0 <= z * se) by (apply Rmult_le_pos; assumption).
  rewrite pymax_0_Fin, pymin_1_Fin.
  do 2 eexists. split; [reflexivity |].
  split.
  - apply Rmax_lub; lra.
  - apply Rmin_glb; lra.
Qed.

(** X8.  With a finite normal quantile the interval collapses at the two
    boundary proportions: no success gives exactly (0, 0) and only
    successes give exactly (1, 1), whatever the positive total and the
    confidence level. *)
Theorem proportion_ci_boundary :
  forall (total z : R) (confidence : num),
    0 < total ->
    norm_ppf (Fin 1 - (Fin 1 - confidence) / Fin 2)%num = Fin z ->
    calculate_proportion_ci (Fin 0) (Fin total) confidence = (Fin 0, Fin 0)
    /\ calculate_proportion_ci (Fin total) (Fin total) confidence = (Fin 1, Fin 1).
Proof.
  intros total z confidence Ht Hz.
  assert (Hse : forall s, s = 0 \/ s = total ->
                          margin_of s total confidence = Fin 0).
  { intros s Hs. unfold margin_of, quantile_of. rewrite Hz.
    assert (E : s / total * (1 - s / total) / total = 0).
    { destruct Hs as [-> | ->]; field; lra. }
    rewrite E. unfold Num.sqrt.
    rewrite (proj2 (Rltb_false 0 0)) by lra.
    rewrite sqrt_0. simpl. f_equal. lra. }
  split.
  - rewrite calculate_proportion_ci_finite, Hse by (auto; lra).
    cbn [Num.sub Num.add Num.lift2]. rewrite pymax_0_Fin, pymin_1_Fin.
    f_equal; f_equal.
    + replace (0 / total - 0) with 0 by (field; lra). apply Rmax_left. lra.
    + replace (0 / total + 0) with 0 by (field; lra). apply Rmin_right. lra.
  - rewrite calculate_proportion_ci_finite, Hse by (auto; lra).
    cbn [Num.sub Num.add Num.lift2]. rewrite pymax_0_Fin, pymin_1_Fin.
    f_equal; f_equal.
    + replace (total / total - 0) with 1 by (field; lra). apply Rmax_right. lra.
    + replace (total / total + 0) with 1 by (field; lra). apply Rmin_left. lra.
Qed.



(** ** The descriptive statistics of [perform_anova] *)




(** ** The table of [analyze_feature_importance] *)

(** X11.  With an empty feature list [analyze_feature_importance] builds
    a table without any column, so sorting it by [importance_score] raises
    [KeyError]; the input frame is not even read. *)
Theorem feature_importance_no_features :
  forall (df : addr) (target : string) (h : heap),
    analyze_feature_importance df target [] h
    = (Raise (KeyError "importance_score"),
       h ++ [OList []; ODataFrame (mkDataFrame [] [])]).
Proof.
  intros df target h. unfold analyze_feature_importance.
  rewrite run_alloc_bind. cbn [for_each]. rewrite run_ret_bind.
  rewrite run_bind, run_load_list, nth_error_snoc.
  cbn [load_entries]. rewrite run_ret_bind.
  rewrite run_alloc_bind, run_bind, run_load_frame, nth_error_snoc.
  rewrite run_pure_bind. cbn [importance_frame sort_values_desc schema col_index].
  rewrite <- app_assoc. reflexivity.
Qed.

Lemma res_map_stops {A B : Type} (f : A -> res B) (done : list A) (x : A) (rest : list A)
      (ys : list B) (e : exn) :
  res_map f done = Ok ys -> f x = Raise e -> res_map f (done ++ x :: rest) = Raise e.
Proof.
  revert ys. induction done as [|y done IH]; intros ys Hd Hx; simpl.
  - rewrite Hx. reflexivity.
  - simpl in Hd. destruct (f y) as [b|]; [| discriminate]. cbn [res_bind] in *.
    destruct (res_map f done) as [r|] eqn:E; [| discriminate].
    rewrite (IH r eq_refl Hx). reflexivity.
Qed.

(** X12.  [analyze_feature_importance] stops at the first feature whose
    column the frame lacks: when the features before it can be scored, the
    call raises [KeyError] for that feature and returns no table. *)
Theorem feature_importance_missing_feature :
  forall (df : addr) (target : string) (done : list string) (feature : string)
         (rest : list string) (h : heap) (d : DataFrame) (scores : list (num * string)),
    nth_error h df = Some (ODataFrame d) ->
    res_map (feature_score d target) done = Ok scores ->
    has_column d feature = false ->
    fst (analyze_feature_importance df target (done ++ feature :: rest) h)
    = Raise (KeyError feature).
Proof.
  intros df target done feature rest h d scores Hdf Hdone Hmiss.
  assert (Hraise : res_map (feature_score d target) (done ++ feature :: rest)
                   = Raise (KeyError feature)).
  { apply res_map_stops with scores; [exact Hdone |].
    unfold feature_score. rewrite (getitem_missing _ _ Hmiss). reflexivity. }
  unfold analyze_feature_importance.
  rewrite run_alloc_bind, run_bind.
  match goal with
  | |- context [for_each ?l ?b ?hh] =>
      change (for_each l b hh)
        with (for_each l (importance_body (length h) df target) (h ++ OList [] :: []))
  end.
  pose proof (@importance_loop h df d target (done ++ feature :: rest) Hdf [] [] []) as Hloop.
  rewrite Hraise in Hloop.
  destruct Hloop as (H' & Hrun); [constructor |].
  rewrite Hrun. reflexivity.
Qed.

Lemma interpret_importance_score_buckets (x : R) :
  (x < 1 / 10 -> interpret_importance_score (Fin x) = "Muy baja")
  /\ (1 / 10 <= x < 3 / 10 -> interpret_importance_score (Fin x) = "Baja")
  /\ (3 / 10 <= x < 5 / 10 -> interpret_importance_score (Fin x) = "Moderada")
  /\ (5 / 10 <= x < 7 / 10 -> interpret_importance_score (Fin x) = "Alta")
  /\ (7 / 10 <= x -> interpret_importance_score (Fin x) = "Muy alta").
Proof.
  unfold interpret_importance_score. rewrite !lit_ltb. unfold Rltb.
  destruct (Rlt_dec x (1 / 10)), (Rlt_dec x (3 / 10)), (Rlt_dec x (5 / 10)),
    (Rlt_dec x (7 / 10));
    repeat split; intros; try reflexivity; exfalso; lra.
Qed.

Lemma cell_num_num_cell (a : num) : cell_num (num_cell a) = a.
Proof. destruct a; reflexivity. Qed.

(** A row of the importance table: the feature it scores and the label of
    its score. *)
Definition labelled_row (features : list string) (r : row) : Prop :=
  exists feature : string,
    In feature features
    /\ cell_at 0 r = Label feature
    /\ (cell_num (cell_at 1 r) = NaN -> cell_at 3 r = Label "Muy alta")
    /\ (forall x : R,
           cell_num (cell_at 1 r) = Fin x ->
           (x < 1 / 10 -> cell_at 3 r = Label "Muy baja")
           /\ (1 / 10 <= x < 3 / 10 -> cell_at 3 r = Label "Baja")
           /\ (3 / 10 <= x < 5 / 10 -> cell_at 3 r = Label "Moderada")
           /\ (5 / 10 <= x < 7 / 10 -> cell_at 3 r = Label "Alta")
           /\ (7 / 10 <= x -> cell_at 3 r = Label "Muy alta")).

Lemma labelled_row_of_entry (features : list string) (index : list cell)
      (e : Importance.entry) :
  In (Importance.feature e) features ->
  Importance.interpretation e
  = interpret_importance_score (Importance.importance_score e) ->
  labelled_row features
    (index,
     [Label (Importance.feature e); num_cell (Importance.importance_score e);
      Label (Importance.test_type e); Label (Importance.interpretation e)]).
Proof.
  intros Hin Hlab. exists (Importance.feature e). unfold cell_at. cbn [snd nth].
  split; [exact Hin |]. split; [reflexivity |].
  rewrite cell_num_num_cell, Hlab. split.
  - intros ->. reflexivity.
  - intros x ->.
    destruct (interpret_importance_score_buckets x) as (B1 & B2 & B3 & B4 & B5).
    repeat split; intros Hx; f_equal; auto.
Qed.

Lemma importance_rows_labelled (features : list string) (scores : list (num * string)) :
  Forall (labelled_row features)
         (rows (importance_frame (importance_entries features scores))).
Proof.
  assert (H : Forall (fun e => In (Importance.feature e) features
                               /\ Importance.interpretation e
                                  = interpret_importance_score
                                      (Importance.importance_score e))
                     (importance_entries features scores)).
  { apply Forall_forall. intros e He. unfold importance_entries in He.
    apply in_map_iff in He as ([f sc] & <- & Hin).
    apply in_combine_l in Hin. split; [exact Hin | reflexivity]. }
  unfold importance_frame.
  destruct (importance_entries features scores) as [|e0 es] eqn:E;
    [constructor |].
  rewrite <- E in *. clear E e0 es. cbn [rows].
  unfold indexed. generalize 0%nat.
  induction H as [|e es [He Hl] Hes IH]; intros start; simpl; constructor.
  - now apply labelled_row_of_entry.
  - apply IH.
Qed.

Lemma importance_frame_length (entries : list Importance.entry) :
  length (rows (importance_frame entries)) = length entries.
Proof.
  destruct entries as [|e es]; [reflexivity |].
  unfold importance_frame. cbn [rows]. unfold indexed.
  now rewrite length_map, length_combine, length_seq, Nat.min_id.
Qed.

(** X13.  When every feature can be scored, the table
    [analyze_feature_importance] returns has the columns feature,
    importance_score, test_type and interpretation and one row per feature;
    each row names one of the features and its interpretation is the bucket
    of its own score: below 0.1 very low, below 0.3 low, below 0.5 moderate,
    below 0.7 high, very high from 0.7 on, and very high as well for an
    undefined (NaN) score, which fails every comparison. *)
Theorem feature_importance_rows_labelled :
  forall (df : addr) (target : string) (features : list string) (h : heap)
         (d : DataFrame) (scores : list (num * string)),
    nth_error h df = Some (ODataFrame d) ->
    res_map (feature_score d target) features = Ok scores ->
    features <> [] ->
    exists (a : addr) (h' : heap) (table : DataFrame),
      analyze_feature_importance df target features h = (Ok a, h')
      /\ nth_error h' a = Some (ODataFrame table)
      /\ map fst (schema table)
         = ["feature"; "importance_score"; "test_type"; "interpretation"]
      /\ length (rows table) = length features
      /\ Forall (labelled_row features) (rows table).
Proof.
  intros df target features h d scores Hdf Hscores Hne.
  destruct (@analyze_feature_importance_run df target features h d scores
                                            Hdf Hscores Hne) as [h1 Hrun].
  pose proof (res_map_length _ _ Hscores) as Hlen.
  assert (Hentries : length (importance_entries features scores) = length features).
  { unfold importance_entries. rewrite length_map, length_combine. lia. }
  do 3 eexists. split; [exact Hrun |].
  split; [apply nth_error_snoc2 |].
  cbn [rows schema].
  pose proof (sort_rows_desc_perm 1
                (rows (importance_frame (importance_entries features scores)))) as Hperm.
  split; [| split].
  - unfold importance_frame.
    destruct (importance_entries features scores) as [|e0 es];
      [destruct features; [congruence | discriminate] | reflexivity].
  - rewrite (Permutation_length Hperm), importance_frame_length. exact Hentries.
  - eapply Permutation_Forall; [apply Permutation_sym; exact Hperm |].
    apply importance_rows_labelled.
Qed.

(** ** The table of [calculate_cancellation_metrics] *)




Lemma run_frame_setitem (h : heap) (d : DataFrame) (name : string) (t : dtype)
      (vals : list cell) :
  frame_setitem (length h) name t vals (h ++ [ODataFrame d])
  = (Ok tt, h ++ [ODataFrame (with_column d name t vals)]).
Proof.
  unfold frame_setitem. rewrite run_bind, run_load_frame, nth_error_snoc.
  unfold ret, store. now rewrite update_at_length.
Qed.









(** ** The dictionary of [calculate_business_metrics] *)

(** Keys of the dictionary: a key built with the suffix of a per-hotel
    metric never equals a key that does not end with that suffix. *)
Fixpoint starts_with (p l : list Ascii.ascii) : bool :=
  match p, l with
  | [], _ => true
  | _ :: _, [] => false
  | a :: p', b :: l' => Ascii.eqb a b && starts_with p' l'
  end.

Definition ends_with (suffix k : string) : bool :=
  starts_with (rev (list_ascii_of_string suffix)) (rev (list_ascii_of_string k)).

Lemma list_ascii_of_string_app (s t : string) :
  list_ascii_of_string (s ++ t)
  = list_ascii_of_string s ++ list_ascii_of_string t.
Proof. induction s as [|c s IH]; simpl; [reflexivity | now rewrite IH]. Qed.

Lemma starts_with_app (p l : list Ascii.ascii) : starts_with p (p ++ l) = true.
Proof.
  induction p as [|a p IH]; simpl; [reflexivity |].
  now rewrite Ascii.eqb_refl, IH.
Qed.

Lemma ends_with_append (s suffix : string) : ends_with suffix (s ++ suffix) = true.
Proof.
  unfold ends_with. rewrite list_ascii_of_string_app, rev_app_distr.
  apply starts_with_app.
Qed.

Lemma suffix_key_neq (s suffix k : string) :
  ends_with suffix k = false -> (s ++ suffix)%string <> k.
Proof.
  intros H E. rewrite <- E, ends_with_append in H. discriminate.
Qed.

Lemma append_inv_tail (s1 s2 suffix : string) :
  (s1 ++ suffix)%string = (s2 ++ suffix)%string -> s1 = s2.
Proof.
  intros H. apply (f_equal list_ascii_of_string) in H.
  rewrite !list_ascii_of_string_app in H. apply app_inv_tail in H.
  rewrite <- (string_of_list_ascii_of_string s1), <- (string_of_list_ascii_of_string s2).
  now rewrite H.
Qed.

Lemma hotel_keys_differ (s1 s2 : string) :
  (s1 ++ "_cancellation_rate")%string <> (s2 ++ "_avg_adr")%string.
Proof.
  intros H. apply (f_equal list_ascii_of_string) in H.
  rewrite !list_ascii_of_string_app in H. apply (f_equal (@rev Ascii.ascii)) in H.
  rewrite !rev_app_distr in H. simpl in H. discriminate H.
Qed.

Lemma dict_get_set_other (k k' : string) (v : num) (d : list (string * num)) :
  k' <> k -> dict_get k (dict_set k' v d) = dict_get k d.
Proof.
  intros Hne. induction d as [|[k0 v0] d IH]; simpl.
  - destruct (String.eqb_spec k' k); [contradiction | reflexivity].
  - destruct (String.eqb_spec k0 k') as [E | E]; simpl.
    + subst k0. destruct (String.eqb_spec k' k); [contradiction | reflexivity].
    + destruct (String.eqb_spec k0 k); [reflexivity | exact IH].
Qed.

(** The two metrics of one hotel type: the cancellation rate of its
    bookings and the mean of their positive rates. *)
Definition hotel_metrics (d : DataFrame) (hotel_type : cell) : res (num * num) :=
  res_bind (select_eq d "hotel" hotel_type) (fun hd =>
  res_bind (res_bind (getitem hd "is_canceled") series_mean) (fun r =>
  res_bind (positive_mean hd "adr") (fun a => Ok (r, a)))).

Definition hotel_step (d : DataFrame) (dct : list (string * num)) (hotel_type : cell)
  : list (string * num) :=
  match hotel_metrics d hotel_type with
  | Ok (r, a) =>
      dict_set (str_of_cell hotel_type ++ "_avg_adr")%string a
        (dict_set (str_of_cell hotel_type ++ "_cancellation_rate")%string r dct)
  | Raise _ => dct
  end.

Lemma hotel_loop_dict (h : heap) (d : DataFrame) (types : list cell) :
  business_frame d ->
  forall dct tail,
  exists tail',
    for_each types (hotel_body (length h) d) (h ++ ODict dct :: tail)
    = (Ok tt, h ++ ODict (fold_left (hotel_step d) types dct) :: tail').
Proof.
  intros (Hic & _ & Hh & Hadr & _).
  destruct d as [sch rs]. simpl schema in *.
  induction types as [|ty types IH]; intros dct tail.
  - exists tail. reflexivity.
  - cbn [for_each fold_left]. rewrite run_bind. unfold hotel_body at 1.
    unfold hotel_step at 2. unfold hotel_metrics.
    rewrite run_pure_bind. unfold select_eq. simpl schema.
    unfold has_column in Hh. simpl schema in Hh.
    destruct (col_index "hotel" sch) as [[jh th]|] eqn:Ehot; [| discriminate].
    rewrite run_alloc_bind. rewrite <- app_assoc. simpl app.
    rewrite run_pure_bind. simpl rows. cbn [res_bind].
    destruct (mean_of_numeric (filter (fun r => cell_eqb (cell_at jh r) ty) rs) Hic)
      as [v Hv].
    rewrite Hv. rewrite run_bind, run_dict_setitem.
    rewrite run_pure_bind.
    destruct (@positive_mean_ok sch (filter (fun r => cell_eqb (cell_at jh r) ty) rs) "adr")
      as [w Hw]; [exact Hadr |].
    rewrite Hw. rewrite run_dict_setitem. cbn [res_bind].
    apply IH.
Qed.

(** [(canceled_bookings['adr'] * canceled_bookings['total_stay_nights']).sum()] *)
Definition revenue_loss (d : DataFrame) : res num :=
  res_bind (select_eq d "is_canceled" (Int 1)) (fun cb =>
  res_bind (getitem cb "adr") (fun a =>
  res_bind (getitem cb "total_stay_nights") (fun n => sum_product a n))).

(** The dictionary after each part of the function. *)
Definition general_dict (d : DataFrame) (rate lead adr : num) : list (string * num) :=
  dict_set "avg_adr" adr
    (dict_set "avg_lead_time" lead
       (dict_set "cancellation_rate" rate
          (dict_set "total_bookings" (Num.of_nat (length (rows d))) []))).

Definition with_revenue_loss (d : DataFrame) (loss : num) (dct : list (string * num))
  : list (string * num) :=
  if has_column d "adr" && has_column d "total_stay_nights"
  then dict_set "potential_revenue_loss" loss dct
  else dct.

Definition business_dict (d : DataFrame) (rate lead adr : num) (types : list cell)
           (loss total canceled : num) : list (string * num) :=
  dict_set "estimated_occupancy_rate" (occupancy total canceled)
    (with_revenue_loss d loss
       (fold_left (hotel_step d) types (general_dict d rate lead adr))).

Lemma calculate_business_metrics_dict (df : addr) (h : heap) (d : DataFrame) :
  nth_error h df = Some (ODataFrame d) ->
  business_frame d ->
  exists rate lead adr hotel loss total canceled tail,
    res_bind (getitem d "is_canceled") series_mean = Ok rate
    /\ res_bind (getitem d "lead_time") series_mean = Ok lead
    /\ positive_mean d "adr" = Ok adr
    /\ getitem d "hotel" = Ok hotel
    /\ (has_column d "adr" && has_column d "total_stay_nights" = true ->
        revenue_loss d = Ok loss)
    /\ total_room_nights d = Ok total
    /\ canceled_room_nights d = Ok canceled
    /\ calculate_business_metrics df h
       = (Ok (length h),
          h ++ ODict (business_dict d rate lead adr (unique (s_values hotel))
                                    loss total canceled) :: tail).
Proof.
  intros Hdf Hbf.
  pose proof Hbf as (Hic & Hlt & Hh & Hadr & Htsn).
  destruct (room_nights_values Hbf) as (total & canceled & Htot & Hcan & _).
  unfold calculate_business_metrics.
  rewrite run_alloc_bind, run_bind, run_load_frame.
  rewrite (nth_error_old h [ODict []] df Hdf).
  rewrite run_bind, run_dict_setitem.
  destruct d as [sch rs]. simpl schema in *.
  destruct (mean_of_numeric rs Hic) as [v1 Hv1].
  rewrite run_pure_bind, Hv1, run_bind, run_dict_setitem.
  destruct (mean_of_numeric rs Hlt) as [v2 Hv2].
  rewrite run_pure_bind, Hv2, run_bind, run_dict_setitem.
  destruct (@positive_mean_ok sch rs "adr" Hadr) as [v3 Hv3].
  rewrite run_pure_bind, Hv3, run_bind, run_dict_setitem.
  rewrite run_pure_bind.
  assert (Hhot : exists s, getitem (mkDataFrame sch rs) "hotel" = Ok s).
  { unfold getitem. unfold has_column in Hh.
    destruct (col_index "hotel" (schema (mkDataFrame sch rs))) as [[j t]|];
      [eauto | discriminate]. }
  destruct Hhot as [hs Hhs]. rewrite Hhs.
  rewrite run_bind.
  match goal with
  | |- context [for_each ?l ?b ?hh] =>
      change (for_each l b hh)
        with (for_each l (hotel_body (length h) (mkDataFrame sch rs)) hh)
  end.
  match goal with
  | |- context [for_each ?l _ (h ++ ODict ?dct :: ?tail)] =>
      destruct (@hotel_loop_dict h (mkDataFrame sch rs) l Hbf dct tail)
        as (tail1 & Hloop)
  end.
  rewrite Hloop. clear Hloop.
  rewrite run_bind.
  fold (general_dict (mkDataFrame sch rs) v1 v2 v3).
  set (dct1 := fold_left _ _ _).
  assert (Hstep : exists loss tail2,
    (has_column (mkDataFrame sch rs) "adr"
     && has_column (mkDataFrame sch rs) "total_stay_nights" = true ->
     revenue_loss (mkDataFrame sch rs) = Ok loss)
    /\ (if has_column (mkDataFrame sch rs) "adr"
           && has_column (mkDataFrame sch rs) "total_stay_nights"
        then
          cb <- pure (select_eq (mkDataFrame sch rs) "is_canceled" (Int 1)) ;;
          canceled_bookings <- alloc (ODataFrame cb) ;;
          loss <- pure (res_bind (getitem cb "adr") (fun a =>
                        res_bind (getitem cb "total_stay_nights") (fun n =>
                        sum_product a n))) ;;
          dict_setitem (length h) "potential_revenue_loss" loss
        else ret tt) (h ++ ODict dct1 :: tail1)
       = (Ok tt, h ++ ODict (with_revenue_loss (mkDataFrame sch rs) loss dct1) :: tail2)).
  { unfold with_revenue_loss.
    destruct (has_column (mkDataFrame sch rs) "adr") eqn:E1;
      [destruct (has_column (mkDataFrame sch rs) "total_stay_nights") eqn:E2 |];
      cbn [andb];
      try (exists NaN; eexists; split; [discriminate | reflexivity]).
    destruct Hic as (jc & tc & Hcc & Htc).
    destruct (sum_product_ok (filter (fun r => cell_eqb (cell_at jc r) (Int 1)) rs)
                             (Hadr eq_refl) (Htsn eq_refl)) as [v Hv].
    exists v. eexists.
    assert (Hloss : revenue_loss (mkDataFrame sch rs) = Ok v).
    { unfold revenue_loss, select_eq. simpl schema. rewrite Hcc. cbn [res_bind rows schema].
      exact Hv. }
    split; [intros _; exact Hloss |].
    rewrite run_pure_bind. unfold select_eq. simpl schema. rewrite Hcc.
    rewrite run_alloc_bind, <- app_assoc. simpl app.
    rewrite run_pure_bind. cbn [schema rows].
    rewrite Hv, run_dict_setitem. reflexivity. }
  destruct Hstep as (loss & tail2 & Hloss & Hstep). rewrite Hstep. clear Hstep.
  pose proof Htot as Htot'. pose proof Hcan as Hcan'.
  unfold total_room_nights in Htot'. unfold canceled_room_nights in Hcan'.
  rewrite run_pure_bind, Htot'. rewrite run_pure_bind, Hcan'.
  rewrite run_bind, run_dict_setitem. unfold ret.
  exists v1, v2, v3, hs, loss, (Fin total), (Fin canceled), tail2.
  repeat (split; [first [assumption | reflexivity] |]).
  reflexivity.
Qed.

Lemma hotel_fold_keeps (d : DataFrame) (types : list cell) (k : string) :
  (forall ty, In ty types ->
              (str_of_cell ty ++ "_cancellation_rate")%string <> k
              /\ (str_of_cell ty ++ "_avg_adr")%string <> k) ->
  forall dct, dict_get k (fold_left (hotel_step d) types dct) = dict_get k dct.
Proof.
  induction types as [|ty types IH]; intros Hk dct; cbn [fold_left]; [reflexivity |].
  rewrite IH by (intros ty' Hty'; apply Hk; now right).
  destruct (Hk ty (or_introl eq_refl)) as [H1 H2].
  unfold hotel_step. destruct (hotel_metrics d ty) as [[r a]|]; [| reflexivity].
  now rewrite !dict_get_set_other.
Qed.

Lemma general_key_kept (d : DataFrame) (types : list cell) (k : string) :
  ends_with "_cancellation_rate" k = false ->
  ends_with "_avg_adr" k = false ->
  forall dct, dict_get k (fold_left (hotel_step d) types dct) = dict_get k dct.
Proof.
  intros H1 H2. apply hotel_fold_keeps. intros ty _.
  split; apply suffix_key_neq; assumption.
Qed.

Lemma positive_mean_absent (d : DataFrame) (name : string) (v : num) :
  has_column d name = false -> positive_mean d name = Ok v -> v = Fin 0.
Proof.
  unfold positive_mean. intros ->. intros H. now inversion H.
Qed.

(** X16.  On a frame with the columns the function reads,
    [calculate_business_metrics] returns a new dictionary in which
    [total_bookings] is the number of rows, [cancellation_rate] and
    [avg_lead_time] are the means of [is_canceled] and [lead_time], and
    [avg_adr] is the mean of the positive [adr] values, or 0 when the frame
    has no [adr] column; the per-hotel entries never overwrite these keys.
    The key [potential_revenue_loss] is present exactly when the frame has
    both [adr] and [total_stay_nights], and then holds the sum of
    [adr * total_stay_nights] over the canceled bookings. *)
Theorem business_metrics_general :
  forall (df : addr) (h : heap) (d : DataFrame),
    nth_error h df = Some (ODataFrame d) ->
    business_frame d ->
    exists (h' : heap) (metrics : list (string * num)) (rate lead adr : num),
      calculate_business_metrics df h = (Ok (length h), h')
      /\ nth_error h' (length h) = Some (ODict metrics)
      /\ res_bind (getitem d "is_canceled") series_mean = Ok rate
      /\ res_bind (getitem d "lead_time") series_mean = Ok lead
      /\ positive_mean d "adr" = Ok adr
      /\ dict_get "total_bookings" metrics = Some (Num.of_nat (length (rows d)))
      /\ dict_get "cancellation_rate" metrics = Some rate
      /\ dict_get "avg_lead_time" metrics = Some lead
      /\ dict_get "avg_adr" metrics = Some adr
      /\ (has_column d "adr" = false -> adr = Fin 0)
      /\ (has_column d "adr" && has_column d "total_stay_nights" = false ->
          dict_get "potential_revenue_loss" metrics = None)
      /\ (has_column d "adr" && has_column d "total_stay_nights" = true ->
          exists loss : num,
            revenue_loss d = Ok loss
            /\ dict_get "potential_revenue_loss" metrics = Some loss).
Proof.
  intros df h d Hdf Hbf.
  destruct (calculate_business_metrics_dict df h Hdf Hbf)
    as (rate & lead & adr & hotel & loss & total & canceled & tail
        & Hrate & Hlead & Hadr & Hhotel & Hloss & Htot & Hcan & Hrun).
  eexists. eexists. exists rate, lead, adr.
  split; [exact Hrun |]. split; [apply nth_error_snoc |].
  repeat (split; [assumption |]).
  unfold business_dict.
  set (types := unique (s_values hotel)).
  assert (Hgen : forall k,
             k <> "estimated_occupancy_rate" -> k <> "potential_revenue_loss" ->
             ends_with "_cancellation_rate" k = false ->
             ends_with "_avg_adr" k = false ->
             dict_get k (dict_set "estimated_occupancy_rate" (occupancy total canceled)
                           (with_revenue_loss d loss
                              (fold_left (hotel_step d) types
                                         (general_dict d rate lead adr))))
             = dict_get k (general_dict d rate lead adr)).
  { intros k K1 K2 K3 K4.
    rewrite dict_get_set_other by congruence.
    unfold with_revenue_loss.
    destruct (has_column d "adr" && has_column d "total_stay_nights").
    - rewrite dict_get_set_other by congruence. now apply general_key_kept.
    - now apply general_key_kept. }
  split; [rewrite Hgen by (discriminate || reflexivity); reflexivity |].
  split; [rewrite Hgen by (discriminate || reflexivity); reflexivity |].
  split; [rewrite Hgen by (discriminate || reflexivity); reflexivity |].
  split; [rewrite Hgen by (discriminate || reflexivity); reflexivity |].
  split; [intros Habs; now apply (positive_mean_absent d "adr") |].
  split.
  - intros Hnone. rewrite dict_get_set_other by discriminate.
    unfold with_revenue_loss. rewrite Hnone.
    rewrite general_key_kept by reflexivity. reflexivity.
  - intros Hboth. exists loss. split; [now apply Hloss |].
    rewrite dict_get_set_other by discriminate.
    unfold with_revenue_loss. rewrite Hboth. apply dict_get_set.
Qed.

Lemma hotel_metrics_ok (d : DataFrame) (ty : cell) :
  business_frame d ->
  exists hd r a,
    select_eq d "hotel" ty = Ok hd
    /\ res_bind (getitem hd "is_canceled") series_mean = Ok r
    /\ positive_mean hd "adr" = Ok a
    /\ hotel_metrics d ty = Ok (r, a).
Proof.
  intros (Hic & _ & Hh & Hadr & _).
  destruct d as [sch rs]. simpl schema in *.
  unfold hotel_metrics, select_eq. simpl schema.
  unfold has_column in Hh. simpl schema in Hh.
  destruct (col_index "hotel" sch) as [[jh th]|] eqn:Ehot; [| discriminate].
  destruct (mean_of_numeric (filter (fun r => cell_eqb (cell_at jh r) ty) rs) Hic)
    as [v Hv].
  destruct (@positive_mean_ok sch (filter (fun r => cell_eqb (cell_at jh r) ty) rs) "adr")
    as [w Hw]; [exact Hadr |].
  do 3 eexists. split; [reflexivity |]. cbn [res_bind rows schema].
  split; [exact Hv |]. split; [exact Hw |].
  rewrite Hv. cbn [res_bind]. rewrite Hw. reflexivity.
Qed.

Lemma hotel_fold_sets (d : DataFrame) (types : list cell) (ty : cell) (r a : num) :
  NoDup (map str_of_cell types) ->
  In ty types ->
  hotel_metrics d ty = Ok (r, a) ->
  forall dct,
    dict_get (str_of_cell ty ++ "_cancellation_rate")%string
             (fold_left (hotel_step d) types dct) = Some r
    /\ dict_get (str_of_cell ty ++ "_avg_adr")%string
                (fold_left (hotel_step d) types dct) = Some a.
Proof.
  induction types as [|t0 types IH]; intros Hnd Hin Hm dct; [destruct Hin |].
  cbn [map] in Hnd. inversion Hnd as [|x l Hnotin Hnd']; subst.
  cbn [fold_left].
  destruct (in_dec string_dec (str_of_cell ty) (map str_of_cell types)) as [Hlater | Hlast].
  - destruct Hin as [-> | Hin]; [contradiction |].
    now apply IH.
  - assert (Hk : forall (suffix : string) ty',
               In ty' types ->
               (str_of_cell ty' ++ suffix)%string <> (str_of_cell ty ++ suffix)%string).
    { intros suffix ty' Hty' E. apply append_inv_tail in E.
      apply Hlast. rewrite <- E. now apply in_map. }
    destruct Hin as [-> | Hin]; [| exfalso; apply Hlast; now apply in_map].
    rewrite !hotel_fold_keeps.
    + unfold hotel_step. rewrite Hm. split.
      * rewrite dict_get_set_other; [apply dict_get_set |].
        intros E. symmetry in E. now apply hotel_keys_differ in E.
      * apply dict_get_set.
    + intros ty' Hty'. split; [| now apply Hk].
      apply hotel_keys_differ.
    + intros ty' Hty'. split; [now apply Hk |].
      intros E. symmetry in E. now apply hotel_keys_differ in E.
Qed.

(** X17.  For every hotel type of the [hotel] column, the dictionary of
    [calculate_business_metrics] holds under [<type>_cancellation_rate] the
    mean of [is_canceled] over the bookings of that type and under
    [<type>_avg_adr] the mean of their positive [adr] values (0 without an
    [adr] column), provided the names of the hotel types are distinct. *)
Theorem business_metrics_per_hotel :
  forall (df : addr) (h : heap) (d : DataFrame) (hotel : Series),
    nth_error h df = Some (ODataFrame d) ->
    business_frame d ->
    getitem d "hotel" = Ok hotel ->
    NoDup (map str_of_cell (unique (s_values hotel))) ->
    exists (h' : heap) (metrics : list (string * num)),
      calculate_business_metrics df h = (Ok (length h), h')
      /\ nth_error h' (length h) = Some (ODict metrics)
      /\ forall hotel_type : cell,
           In hotel_type (unique (s_values hotel)) ->
           exists (hotel_data : DataFrame) (rate adr : num),
             select_eq d "hotel" hotel_type = Ok hotel_data
             /\ res_bind (getitem hotel_data "is_canceled") series_mean = Ok rate
             /\ positive_mean hotel_data "adr" = Ok adr
             /\ dict_get (str_of_cell hotel_type ++ "_cancellation_rate")%string metrics
                = Some rate
             /\ dict_get (str_of_cell hotel_type ++ "_avg_adr")%string metrics
                = Some adr.
Proof.
  intros df h d hotel Hdf Hbf Hhotel Hnd.
  destruct (calculate_business_metrics_dict df h Hdf Hbf)
    as (rate & lead & adr & hotel' & loss & total & canceled & tail
        & _ & _ & _ & Hhotel' & _ & _ & _ & Hrun).
  rewrite Hhotel in Hhotel'. inversion Hhotel'. subst hotel'.
  do 2 eexists. split; [exact Hrun |]. split; [apply nth_error_snoc |].
  intros ty Hty.
  destruct (hotel_metrics_ok ty Hbf) as (hd & r & a & Hsel & Hr & Ha & Hm).
  exists hd, r, a. repeat (split; [assumption |]).
  destruct (@hotel_fold_sets d _ _ _ _ Hnd Hty Hm (general_dict d rate lead adr)) as [G1 G2].
  unfold business_dict.
  assert (Hkeep : forall k v,
             ends_with "estimated_occupancy_rate" k = false ->
             ends_with "potential_revenue_loss" k = false ->
             dict_get k (fold_left (hotel_step d) (unique (s_values hotel))
                                   (general_dict d rate lead adr)) = Some v ->
             dict_get k (dict_set "estimated_occupancy_rate" (occupancy total canceled)
                           (with_revenue_loss d loss
                              (fold_left (hotel_step d) (unique (s_values hotel))
                                         (general_dict d rate lead adr)))) = Some v).
  { intros k v K1 K2 Hv.
    rewrite dict_get_set_other
      by (apply (suffix_key_neq ""); exact K1).
    unfold with_revenue_loss.
    destruct (has_column d "adr" && has_column d "total_stay_nights"); [| exact Hv].
    rewrite dict_get_set_other by (apply (suffix_key_neq ""); exact K2).
    exact Hv. }
  split; apply Hkeep; try assumption.
  all: unfold ends_with; rewrite list_ascii_of_string_app, rev_app_distr; reflexivity.
Qed.

(** X18.  [calculate_business_metrics] reads [is_canceled], [lead_time]
    and [hotel] in this order and raises [KeyError] for the first of them
    the frame lacks; [adr] and [total_stay_nights] are optional. *)
Theorem business_metrics_missing_column :
  forall (df : addr) (h : heap) (d : DataFrame),
    nth_error h df = Some (ODataFrame d) ->
    (has_column d "is_canceled" = false ->
     fst (calculate_business_metrics df h) = Raise (KeyError "is_canceled"))
    /\ (numeric_in (schema d) "is_canceled" ->
        has_column d "lead_time" = false ->
        fst (calculate_business_metrics df h) = Raise (KeyError "lead_time"))
    /\ (numeric_in (schema d) "is_canceled" ->
        numeric_in (schema d) "lead_time" ->
        (has_column d "adr" = true -> numeric_in (schema d) "adr") ->
        has_column d "hotel" = false ->
        fst (calculate_business_metrics df h) = Raise (KeyError "hotel")).
Proof.
  intros df h d Hdf.
  destruct d as [sch rs]. simpl schema in *.
  repeat split.
  - intros Hc. unfold calculate_business_metrics.
    rewrite run_alloc_bind, run_bind, run_load_frame.
    rewrite (nth_error_old h [ODict []] df Hdf).
    rewrite run_bind, run_dict_setitem.
    rewrite run_pure_bind, (getitem_missing _ _ Hc). reflexivity.
  - intros Hic Hl. unfold calculate_business_metrics.
    rewrite run_alloc_bind, run_bind, run_load_frame.
    rewrite (nth_error_old h [ODict []] df Hdf).
    rewrite run_bind, run_dict_setitem.
    destruct (mean_of_numeric rs Hic) as [v1 Hv1].
    rewrite run_pure_bind, Hv1, run_bind, run_dict_setitem.
    rewrite run_pure_bind, (getitem_missing _ _ Hl). reflexivity.
  - intros Hic Hlt Hadr Hh. unfold calculate_business_metrics.
    rewrite run_alloc_bind, run_bind, run_load_frame.
    rewrite (nth_error_old h [ODict []] df Hdf).
    rewrite run_bind, run_dict_setitem.
    destruct (mean_of_numeric rs Hic) as [v1 Hv1].
    rewrite run_pure_bind, Hv1, run_bind, run_dict_setitem.
    destruct (mean_of_numeric rs Hlt) as [v2 Hv2].
    rewrite run_pure_bind, Hv2, run_bind, run_dict_setitem.
    destruct (@positive_mean_ok sch rs "adr" Hadr) as [v3 Hv3].
    rewrite run_pure_bind, Hv3, run_bind, run_dict_setitem.
    rewrite run_pure_bind, (getitem_missing _ _ Hh). reflexivity.
Qed.

(** ** Cancellation metrics of a 0/1 column *)







(** ** The range of the importance scores *)





End Engine.

(** * The module [utils_io] *)

Module UtilsIO.

Open Scope list_scope.

(** ** Frame operations of [clean_data] *)

(** [a >= b] on floats: false as soon as an operand is [NaN]. *)
Definition geb (a b : num) : bool :=
  match a, b with
  | Fin x, Fin y => negb (Rltb x y)
  | _, _ => false
  end.

Fixpoint cells_same (a b : list cell) : bool :=
  match a, b with
  | [], [] => true
  | x :: a', y :: b' => cell_same x y && cells_same a' b'
  | _, _ => false
  end.

(** Two rows are duplicates when they agree on every column; missing
    values count as equal, the index label does not matter. *)
Definition rows_same (r1 r2 : row) : bool := cells_same (snd r1) (snd r2).

(** [df.drop_duplicates()]: the first row of every class of duplicates, in
    a new frame. *)
Definition drop_duplicates (d : DataFrame) : DataFrame :=
  mkDataFrame (schema d) (uniq_by rows_same (rows d)).

(** The position of a column that is compared with a number: [KeyError]
    when it does not exist, [TypeError] when it is not numeric. *)
Definition numeric_column (d : DataFrame) (name : string) : res nat :=
  match col_index name (schema d) with
  | Some (j, t) => if is_numeric t then Ok j else Raise TypeError
  | None => Raise (KeyError name)
  end.

Definition value_at (j : nat) (r : row) : num := cell_num (cell_at j r).

(** [df[mask]] for a mask computed row by row. *)
Definition select_rows (d : DataFrame) (mask : row -> bool) : DataFrame :=
  mkDataFrame (schema d) (filter mask (rows d)).

(** [(df['adr'] >= 0) & (df['adr'] < 5000)] *)
Definition adr_in_range (j : nat) (r : row) : bool :=
  geb (value_at j r) (Fin 0) && Num.ltb (value_at j r) (Fin 5000).

(** [(df['adults'] > 0) | (df['children'] > 0)] *)
Definition has_guests (ja jc : nat) (r : row) : bool :=
  Num.gtb (value_at ja r) (Fin 0) || Num.gtb (value_at jc r) (Fin 0).

(** [(df['stays_in_weekend_nights'] + df['stays_in_week_nights']) > 0] *)
Definition has_nights (jw jk : nat) (r : row) : bool :=
  Num.gtb (value_at jw r + value_at jk r)%num (Fin 0).

Definition select_adr (d : DataFrame) : res DataFrame :=
  res_bind (numeric_column d "adr") (fun j =>
  Ok (select_rows d (adr_in_range j))).

Definition select_guests (d : DataFrame) : res DataFrame :=
  res_bind (numeric_column d "adults") (fun ja =>
  res_bind (numeric_column d "children") (fun jc =>
  Ok (select_rows d (has_guests ja jc)))).

Definition select_nights (d : DataFrame) : res DataFrame :=
  res_bind (numeric_column d "stays_in_weekend_nights") (fun jw =>
  res_bind (numeric_column d "stays_in_week_nights") (fun jk =>
  Ok (select_rows d (has_nights jw jk)))).

(** [series.fillna(0)]: a float column is filled with [0.0], an integer or
    object column with [0].  A categorical column can only be filled with
    one of its categories; categories are not part of [dtype], and filling
    such a column is taken to raise. *)
Definition zero_of (t : dtype) : cell :=
  match t with DFloat => Flt 0 | _ => Int 0 end.

Definition fill_zero (t : dtype) (c : cell) : cell :=
  if is_missing c then zero_of t else c.

Definition fillna_zero (s : Series) : res (list cell) :=
  match s_dtype s with
  | DCategory => Raise TypeError
  | t => Ok (map (fill_zero t) (s_values s))
  end.

(** The lines [clean_data] prints when [verbose] is set. *)
Inductive line : Type :=
| Forma_inicial (n_rows n_cols : nat)
| Forma_final (n_rows n_cols : nat)
| Registros_eliminados (n : Z).

(** [df.shape] *)
Definition frame_shape (d : DataFrame) : nat * nat :=
  (length (rows d), length (schema d)).

Definition report (verbose : bool) (initial_shape final_shape : nat * nat) : list line :=
  if verbose
  then [Forma_inicial (fst initial_shape) (snd initial_shape);
        Forma_final (fst final_shape) (snd final_shape);
        Registros_eliminados (Z.of_nat (fst initial_shape) - Z.of_nat (fst final_shape))]
  else [].

(** ** clean_data *)

(** The function returns the cleaned frame; the lines it prints are
    returned with it. *)
Definition clean_data (df : addr) (verbose : bool) : M (addr * list line) :=
  original <- load_frame df ;;
  df <- alloc (ODataFrame original) ;;
  d <- load_frame df ;;
  let initial_shape := frame_shape d in
  df <- alloc (ODataFrame (drop_duplicates d)) ;;
  d <- load_frame df ;;
  df <- (if has_column d "adr"
         then kept <- pure (select_adr d) ;; alloc (ODataFrame kept)
         else ret df) ;;
  d <- load_frame df ;;
  (if has_column d "children"
   then s <- pure (getitem d "children") ;;
        filled <- pure (fillna_zero s) ;;
        frame_setitem df "children" (s_dtype s) filled
   else ret tt) ;;;
  d <- load_frame df ;;
  df <- (if has_column d "adults" && has_column d "children"
         then kept <- pure (select_guests d) ;; alloc (ODataFrame kept)
         else ret df) ;;
  d <- load_frame df ;;
  df <- (if has_column d "stays_in_weekend_nights"
            && has_column d "stays_in_week_nights"
         then kept <- pure (select_nights d) ;; alloc (ODataFrame kept)
         else ret df) ;;
  d <- load_frame df ;;
  ret (df, report verbose initial_shape (frame_shape d)).

(** ** The cleaned frame as a function of the input frame *)

Definition step_adr (d : DataFrame) : res DataFrame :=
  if has_column d "adr" then select_adr d else Ok d.

Definition step_children (d : DataFrame) : res DataFrame :=
  if has_column d "children"
  then res_bind (getitem d "children") (fun s =>
       res_bind (fillna_zero s) (fun filled =>
       Ok (with_column d "children" (s_dtype s) filled)))
  else Ok d.

Definition step_guests (d : DataFrame) : res DataFrame :=
  if has_column d "adults" && has_column d "children" then select_guests d else Ok d.

Definition step_nights (d : DataFrame) : res DataFrame :=
  if has_column d "stays_in_weekend_nights" && has_column d "stays_in_week_nights"
  then select_nights d else Ok d.

Definition clean_frame (d : DataFrame) : res DataFrame :=
  res_bind (step_adr (drop_duplicates d)) (fun d1 =>
  res_bind (step_children d1) (fun d2 =>
  res_bind (step_guests d2) step_nights)).

(** A step that replaces the current frame by a new one when [cond] holds. *)
Lemma run_replace_step {B : Type} (cond : bool) (f : DataFrame -> res DataFrame)
      (H : heap) (d : DataFrame) (k : addr -> M B) :
  bind (if cond
        then bind (pure (f d)) (fun kept => alloc (ODataFrame kept))
        else ret (length H)) k (H ++ [ODataFrame d])
  = match (if cond then f d else Ok d) with
    | Ok d' =>
        if cond
        then k (length (H ++ [ODataFrame d])) ((H ++ [ODataFrame d]) ++ [ODataFrame d'])
        else k (length H) (H ++ [ODataFrame d])
    | Raise e => (Raise e, H ++ [ODataFrame d])
    end.
Proof.
  destruct cond.
  - rewrite run_bind, run_pure_bind. destruct (f d) as [d'|e]; reflexivity.
  - now rewrite run_ret_bind.
Qed.

(** ** Running [clean_data] *)

(** [follows g out k]: run on a heap that ends with the current frame [d],
    the rest [k] of the function returns a frame [g d] stored last, behind
    the objects it created, together with the lines [out]; or it raises
    what [g d] raises. *)
Definition follows (g : DataFrame -> res DataFrame) (out : DataFrame -> list line)
           (k : addr -> M (addr * list line)) : Prop :=
  forall (H : heap) (d : DataFrame),
    match g d with
    | Ok d' =>
        exists created,
          k (length H) (H ++ [ODataFrame d])
          = (Ok (length (H ++ created), out d'), (H ++ created) ++ [ODataFrame d'])
    | Raise e =>
        exists created, k (length H) (H ++ [ODataFrame d]) = (Raise e, H ++ created)
    end.

Lemma follows_finish (out : DataFrame -> list line) :
  follows (fun d => Ok d) out
          (fun df => bind (load_frame df) (fun d => ret (df, out d))).
Proof.
  intros H d. exists []. rewrite run_bind, run_load_frame, nth_error_snoc.
  unfold ret. now rewrite app_nil_r.
Qed.

Lemma follows_replace (cond : DataFrame -> bool) (f g : DataFrame -> res DataFrame)
      (out : DataFrame -> list line) (k : addr -> M (addr * list line)) :
  follows g out k ->
  follows (fun d => res_bind (if cond d then f d else Ok d) g) out
          (fun df =>
             bind (load_frame df) (fun d =>
             bind (if cond d
                   then bind (pure (f d)) (fun kept => alloc (ODataFrame kept))
                   else ret df) k)).
Proof.
  intros Hk H d. rewrite run_bind, run_load_frame, nth_error_snoc.
  rewrite run_replace_step.
  destruct (cond d).
  - destruct (f d) as [d1|e]; cbn [res_bind].
    + specialize (Hk (H ++ [ODataFrame d]) d1).
      destruct (g d1) as [d'|e].
      * destruct Hk as [c Hk]. exists (ODataFrame d :: c).
        rewrite Hk. rewrite <- !app_assoc. reflexivity.
      * destruct Hk as [c Hk]. exists (ODataFrame d :: c).
        rewrite Hk. rewrite <- !app_assoc. reflexivity.
    + exists [ODataFrame d]. reflexivity.
  - cbn [res_bind]. specialize (Hk H d).
    destruct (g d) as [d'|e]; exact Hk.
Qed.

Lemma follows_children (g : DataFrame -> res DataFrame) (out : DataFrame -> list line)
      (k : addr -> M (addr * list line)) :
  follows g out k ->
  follows (fun d => res_bind (step_children d) g) out
          (fun df =>
             bind (load_frame df) (fun d =>
             bind (if has_column d "children"
                   then bind (pure (getitem d "children")) (fun s =>
                        bind (pure (fillna_zero s)) (fun filled =>
                        frame_setitem df "children" (s_dtype s) filled))
                   else ret tt)
                  (fun _ => k df))).
Proof.
  intros Hk H d. rewrite run_bind, run_load_frame, nth_error_snoc.
  unfold step_children. destruct (has_column d "children").
  - rewrite run_bind, run_pure_bind.
    destruct (getitem d "children") as [s|e]; cbn [res_bind];
      [| exists [ODataFrame d]; reflexivity].
    rewrite run_pure_bind.
    destruct (fillna_zero s) as [filled|e]; cbn [res_bind];
      [| exists [ODataFrame d]; reflexivity].
    rewrite run_frame_setitem.
    apply (Hk H (with_column d "children" (s_dtype s) filled)).
  - rewrite run_ret_bind. apply (Hk H d).
Qed.

Lemma clean_data_run (df : addr) (verbose : bool) (h : heap) (d : DataFrame) :
  nth_error h df = Some (ODataFrame d) ->
  match clean_frame d with
  | Ok d' =>
      exists created,
        clean_data df verbose h
        = (Ok (length (h ++ ODataFrame d :: created),
               report verbose (frame_shape d) (frame_shape d')),
           (h ++ ODataFrame d :: created) ++ [ODataFrame d'])
  | Raise e =>
      exists created, clean_data df verbose h = (Raise e, h ++ ODataFrame d :: created)
  end.
Proof.
  intros Hdf. unfold clean_data.
  rewrite run_bind, run_load_frame, Hdf.
  rewrite run_alloc_bind.
  rewrite run_bind, run_load_frame, nth_error_snoc.
  rewrite run_alloc_bind.
  pose proof
    (follows_replace (fun d => has_column d "adr") select_adr
       (follows_children
          (follows_replace (fun d => has_column d "adults" && has_column d "children")
             select_guests
             (follows_replace
                (fun d => has_column d "stays_in_weekend_nights"
                          && has_column d "stays_in_week_nights")
                select_nights
                (follows_finish (fun d' => report verbose (frame_shape d)
                                                  (frame_shape d'))))))
       (h ++ [ODataFrame d]) (drop_duplicates d)) as Hrun.
  cbv beta in Hrun.
  match type of Hrun with
  | match ?c with _ => _ end => assert (E : c = clean_frame d)
  end.
  { unfold clean_frame. fold (step_adr (drop_duplicates d)).
    destruct (step_adr (drop_duplicates d)) as [d1|]; cbn [res_bind]; [| reflexivity].
    destruct (step_children d1) as [d2|]; cbn [res_bind]; [| reflexivity].
    fold (step_guests d2).
    destruct (step_guests d2) as [d3|]; cbn [res_bind]; [| reflexivity].
    fold (step_nights d3). destruct (step_nights d3); reflexivity. }
  rewrite E in Hrun. clear E.
  destruct (clean_frame d) as [d'|e]; destruct Hrun as [created Hrun];
    exists created; rewrite Hrun; rewrite <- !app_assoc; reflexivity.
Qed.

Lemma clean_data_inv (df : addr) (verbose : bool) (h h' : heap) (a : addr)
      (out : list line) :
  clean_data df verbose h = (Ok (a, out), h') ->
  exists d d' created,
    nth_error h df = Some (ODataFrame d)
    /\ clean_frame d = Ok d'
    /\ a = length (h ++ ODataFrame d :: created)
    /\ h' = (h ++ ODataFrame d :: created) ++ [ODataFrame d']
    /\ out = report verbose (frame_shape d) (frame_shape d').
Proof.
  intros Hrun.
  destruct (nth_error h df) as [o|] eqn:Hdf.
  - destruct o as [d| | | | | | | |];
      try (unfold clean_data in Hrun;
           rewrite run_bind, run_load_frame, Hdf in Hrun; discriminate).
    pose proof (clean_data_run df verbose h Hdf) as H.
    destruct (clean_frame d) as [d'|e] eqn:Ec; destruct H as [created H];
      rewrite H in Hrun; [| discriminate].
    inversion Hrun; subst. exists d, d', created.
    split; [reflexivity |]. split; [exact Ec |]. repeat split; reflexivity.
  - unfold clean_data in Hrun.
    rewrite run_bind, run_load_frame, Hdf in Hrun. discriminate.
Qed.

(** ** Columns and cells *)




(** Replacing a column by values of its own dtype leaves every lookup of
    the schema as it was. *)
Lemma col_index_retyped (name n : string) (sch : list (string * dtype)) (j : nat)
      (t : dtype) :
  col_index name sch = Some (j, t) ->
  col_index n (map (fun c : string * dtype =>
                      if String.eqb (fst c) name then (name, t) else c) sch)
  = col_index n sch.
Proof.
  revert j. induction sch as [|[n0 t0] sch IH]; intros j H; [reflexivity |].
  simpl in H. cbn [map fst].
  destruct (String.eqb_spec n0 name) as [-> | Hne].
  - inversion H; subst. simpl.
    destruct (String.eqb name n) eqn:En; [reflexivity |].
    clear - En. induction sch as [|[n1 t1] sch IH]; [reflexivity |].
    cbn [map fst].
    destruct (String.eqb_spec n1 name) as [-> | Hne]; simpl.
    + rewrite En. now rewrite IH.
    + destruct (String.eqb n1 n); [reflexivity |]. now rewrite IH.
  - destruct (col_index name sch) as [[j' t']|] eqn:E; [| discriminate].
    inversion H; subst. simpl.
    destruct (String.eqb n0 n); [reflexivity |]. now rewrite (IH j' eq_refl).
Qed.



Lemma length_set_nth (j : nat) (c : cell) (l : list cell) :
  length (set_nth j c l) = length l.
Proof.
  revert j. induction l as [|x l IH]; intros [|j]; simpl; auto.
Qed.

(** The row after [df['children'] = df['children'].fillna(0)]. *)
Definition fill_row (j : nat) (t : dtype) (r : row) : row :=
  (fst r, set_nth j (fill_zero t (cell_at j r)) (snd r)).

Lemma combine_map_same {A B : Type} (f : A -> B) (l : list A) :
  combine l (map f l) = map (fun x => (x, f x)) l.
Proof. induction l as [|x l IH]; simpl; [reflexivity | now rewrite IH]. Qed.

Lemma step_children_rows (d d2 : DataFrame) :
  step_children d = Ok d2 ->
  (forall n, col_index n (schema d2) = col_index n (schema d))
  /\ map fst (schema d2) = map fst (schema d)
  /\ match col_index "children" (schema d) with
     | Some (j, t) => rows d2 = map (fill_row j t) (rows d)
     | None => rows d2 = rows d
     end.
Proof.
  unfold step_children, has_column, getitem.
  destruct (col_index "children" (schema d)) as [[j t]|] eqn:E.
  - cbn [res_bind]. unfold fillna_zero. cbn [s_dtype s_values].
    intros H.
    assert (Hd2 : d2 = with_column d "children" t
                                   (map (fill_zero t) (map (cell_at j) (rows d)))).
    { destruct t; cbn [res_bind] in H; inversion H; reflexivity. }
    subst d2. unfold with_column. rewrite E. cbn [schema rows].
    split; [intros n; now apply col_index_retyped with j |].
    split.
    + rewrite map_map. apply map_ext_in. intros [n0 t0] _. cbn [fst].
      destruct (String.eqb_spec n0 "children"); [now subst | reflexivity].
    + rewrite map_map, combine_map_same, map_map. reflexivity.
  - intros H. inversion H. auto.
Qed.

(** ** The steps of [clean_frame] *)

Lemma numeric_column_inv (d : DataFrame) (name : string) (j : nat) :
  numeric_column d name = Ok j ->
  exists t, col_index name (schema d) = Some (j, t) /\ is_numeric t = true.
Proof.
  unfold numeric_column.
  destruct (col_index name (schema d)) as [[j' t]|]; [| discriminate].
  destruct (is_numeric t) eqn:Ht; [| discriminate].
  intros H. inversion H; subst. eauto.
Qed.

Lemma step_adr_rows (d d1 : DataFrame) :
  step_adr d = Ok d1 ->
  schema d1 = schema d
  /\ match col_index "adr" (schema d) with
     | Some (j, _) => rows d1 = filter (adr_in_range j) (rows d)
     | None => rows d1 = rows d
     end.
Proof.
  unfold step_adr, has_column, select_adr.
  destruct (col_index "adr" (schema d)) as [[j t]|] eqn:E.
  - destruct (numeric_column d "adr") as [j'|] eqn:N; [| discriminate].
    apply numeric_column_inv in N as (t' & N & _). rewrite E in N. inversion N; subst.
    cbn [res_bind]. intros H. inversion H. auto.
  - intros H. inversion H. auto.
Qed.

Lemma step_guests_rows (d d3 : DataFrame) :
  step_guests d = Ok d3 ->
  schema d3 = schema d
  /\ match col_index "adults" (schema d), col_index "children" (schema d) with
     | Some (ja, _), Some (jc, _) => rows d3 = filter (has_guests ja jc) (rows d)
     | _, _ => rows d3 = rows d
     end.
Proof.
  unfold step_guests, has_column, select_guests.
  destruct (col_index "adults" (schema d)) as [[ja ta]|] eqn:Ea;
    destruct (col_index "children" (schema d)) as [[jc tc]|] eqn:Ec; cbn [andb];
    try (intros H; inversion H; now auto).
  destruct (numeric_column d "adults") as [ja'|] eqn:Na; [| discriminate].
  apply numeric_column_inv in Na as (t' & Na & _). rewrite Ea in Na. inversion Na; subst.
  cbn [res_bind].
  destruct (numeric_column d "children") as [jc'|] eqn:Nc; [| discriminate].
  apply numeric_column_inv in Nc as (t'' & Nc & _). rewrite Ec in Nc. inversion Nc; subst.
  cbn [res_bind]. intros H. inversion H. auto.
Qed.

Lemma step_nights_rows (d d4 : DataFrame) :
  step_nights d = Ok d4 ->
  schema d4 = schema d
  /\ match col_index "stays_in_weekend_nights" (schema d),
           col_index "stays_in_week_nights" (schema d) with
     | Some (jw, _), Some (jk, _) => rows d4 = filter (has_nights jw jk) (rows d)
     | _, _ => rows d4 = rows d
     end.
Proof.
  unfold step_nights, has_column, select_nights.
  destruct (col_index "stays_in_weekend_nights" (schema d)) as [[jw tw]|] eqn:Ew;
    destruct (col_index "stays_in_week_nights" (schema d)) as [[jk tk]|] eqn:Ek;
    cbn [andb]; try (intros H; inversion H; now auto).
  destruct (numeric_column d "stays_in_weekend_nights") as [jw'|] eqn:Nw; [| discriminate].
  apply numeric_column_inv in Nw as (t' & Nw & _). rewrite Ew in Nw. inversion Nw; subst.
  cbn [res_bind].
  destruct (numeric_column d "stays_in_week_nights") as [jk'|] eqn:Nk; [| discriminate].
  apply numeric_column_inv in Nk as (t'' & Nk & _). rewrite Ek in Nk. inversion Nk; subst.
  cbn [res_bind]. intros H. inversion H. auto.
Qed.

Lemma clean_frame_inv (d d' : DataFrame) :
  clean_frame d = Ok d' ->
  exists d1 d2 d3,
    step_adr (drop_duplicates d) = Ok d1
    /\ step_children d1 = Ok d2
    /\ step_guests d2 = Ok d3
    /\ step_nights d3 = Ok d'.
Proof.
  unfold clean_frame.
  destruct (step_adr (drop_duplicates d)) as [d1|] eqn:E1; [| discriminate].
  cbn [res_bind].
  destruct (step_children d1) as [d2|] eqn:E2; [| discriminate]. cbn [res_bind].
  destruct (step_guests d2) as [d3|] eqn:E3; [| discriminate]. cbn [res_bind].
  intros H. exists d1, d2, d3. repeat split; assumption.
Qed.

(** The rows of the cleaned frame: the duplicate-free rows of the input
    that pass the three filters, with their [children] value filled. *)
Definition filled (sch : list (string * dtype)) (r : row) : row :=
  match col_index "children" sch with
  | Some (j, t) => fill_row j t r
  | None => r
  end.

Definition passes_adr (sch : list (string * dtype)) (r : row) : bool :=
  match col_index "adr" sch with
  | Some (j, _) => adr_in_range j r
  | None => true
  end.

Definition passes_guests (sch : list (string * dtype)) (r : row) : bool :=
  match col_index "adults" sch, col_index "children" sch with
  | Some (ja, _), Some (jc, _) => has_guests ja jc r
  | _, _ => true
  end.

Definition passes_nights (sch : list (string * dtype)) (r : row) : bool :=
  match col_index "stays_in_weekend_nights" sch, col_index "stays_in_week_nights" sch with
  | Some (jw, _), Some (jk, _) => has_nights jw jk r
  | _, _ => true
  end.

Lemma filter_true {A : Type} (l : list A) : filter (fun _ => true) l = l.
Proof. induction l as [|x l IH]; simpl; [reflexivity | now rewrite IH]. Qed.

Lemma clean_frame_rows (d d' : DataFrame) :
  clean_frame d = Ok d' ->
  (forall n, col_index n (schema d') = col_index n (schema d))
  /\ map fst (schema d') = map fst (schema d)
  /\ rows d'
     = filter (passes_nights (schema d))
         (filter (passes_guests (schema d))
            (map (filled (schema d))
               (filter (passes_adr (schema d)) (uniq_by rows_same (rows d))))).
Proof.
  intros H. apply clean_frame_inv in H as (d1 & d2 & d3 & H1 & H2 & H3 & H4).
  apply step_adr_rows in H1 as [S1 R1]. cbn [drop_duplicates schema rows] in S1, R1.
  apply step_children_rows in H2 as (C2 & N2 & R2).
  apply step_guests_rows in H3 as [S3 R3].
  apply step_nights_rows in H4 as [S4 R4].
  assert (C : forall n, col_index n (schema d') = col_index n (schema d)).
  { intros n. now rewrite S4, S3, C2, S1. }
  split; [exact C |].
  split; [now rewrite S4, S3, N2, S1 |].
  rewrite S3, !C2, S1 in R4. rewrite !C2, S1 in R3. rewrite S1 in R2.
  unfold passes_nights, passes_guests, passes_adr, filled.
  assert (E4 : rows d'
               = filter (passes_nights (schema d)) (rows d3)).
  { unfold passes_nights.
    destruct (col_index "stays_in_weekend_nights" (schema d)) as [[jw tw]|];
      [destruct (col_index "stays_in_week_nights" (schema d)) as [[jk tk]|] |];
      rewrite R4; try reflexivity; now rewrite filter_true. }
  assert (E3 : rows d3 = filter (passes_guests (schema d)) (rows d2)).
  { unfold passes_guests.
    destruct (col_index "adults" (schema d)) as [[ja ta]|];
      [destruct (col_index "children" (schema d)) as [[jc tc]|] |];
      rewrite R3; try reflexivity; now rewrite filter_true. }
  assert (E2 : rows d2 = map (filled (schema d)) (rows d1)).
  { unfold filled.
    destruct (col_index "children" (schema d)) as [[jc tc]|]; rewrite R2;
      [reflexivity | now rewrite map_id]. }
  assert (E1 : rows d1 = filter (passes_adr (schema d)) (uniq_by rows_same (rows d))).
  { unfold passes_adr.
    destruct (col_index "adr" (schema d)) as [[j t]|]; rewrite R1;
      [reflexivity | now rewrite filter_true]. }
  rewrite E4, E3, E2, E1. reflexivity.
Qed.

(** ** What [clean_data] guarantees *)







Lemma result_lookup (h : heap) (d d' : DataFrame) (created : list obj) :
  nth_error ((h ++ ODataFrame d :: created) ++ [ODataFrame d'])
            (length (h ++ ODataFrame d :: created))
  = Some (ODataFrame d').
Proof. apply nth_error_snoc. Qed.


Lemma length_uniq_by {A : Type} (eqb : A -> A -> bool) (l : list A) :
  (length (uniq_by eqb l) <= length l)%nat.
Proof.
  induction l as [|x l IH]; simpl; [lia |].
  pose proof (filter_length_le (fun y => negb (eqb x y)) (uniq_by eqb l)). lia.
Qed.

Lemma clean_frame_fewer_rows (d d' : DataFrame) :
  clean_frame d = Ok d' -> (length (rows d') <= length (rows d))%nat.
Proof.
  intros H. apply clean_frame_rows in H as (_ & _ & R). rewrite R.
  eapply Nat.le_trans; [apply filter_length_le |].
  eapply Nat.le_trans; [apply filter_length_le |].
  rewrite length_map.
  eapply Nat.le_trans; [apply filter_length_le |].
  apply length_uniq_by.
Qed.

(** X20.  [clean_data] works on a copy: every object of the heap it is
    run on, the input frame among them, is unchanged afterwards, and the
    frame it returns is a new object.  Every row of that frame is a row of
    the input, under its index label, with its [children] value filled; the
    frame has at most as many rows as the input. *)
Theorem clean_data_keeps_input :
  forall (df : addr) (verbose : bool) (h h' : heap) (a : addr) (out : list line),
    clean_data df verbose h = (Ok (a, out), h') ->
    exists d d' : DataFrame,
      nth_error h df = Some (ODataFrame d)
      /\ nth_error h' a = Some (ODataFrame d')
      /\ (length h < a)%nat
      /\ (forall x o, nth_error h x = Some o -> nth_error h' x = Some o)
      /\ (length (rows d') <= length (rows d))%nat
      /\ Forall (fun r : row => exists r0, In r0 (rows d) /\ r = filled (schema d) r0)
                (rows d').
Proof.
  intros df verbose h h' a out Hrun.
  apply clean_data_inv in Hrun as (d & d' & created & Hdf & Hc & -> & -> & _).
  exists d, d'. split; [exact Hdf |]. split; [apply result_lookup |].
  split; [rewrite length_app; simpl; lia |].
  split.
  { intros x o Hx. rewrite <- app_assoc. now apply nth_error_old. }
  split; [now apply clean_frame_fewer_rows |].
  apply clean_frame_rows in Hc as (_ & _ & R).
  apply Forall_forall. intros r Hr. rewrite R in Hr.
  apply filter_In in Hr as [Hr _]. apply filter_In in Hr as [Hr _].
  apply in_map_iff in Hr as (r1 & <- & Hr1).
  apply filter_In in Hr1 as [Hr1 _]. apply uniq_by_incl in Hr1.
  exists r1. auto.
Qed.

(** X21.  Without [verbose] nothing is printed; with it, three lines:
    the shape of the input, the shape of the result, which has the same
    number of columns and at most as many rows, and the number of rows
    removed, which is their difference and never negative. *)
Theorem clean_data_report :
  forall (df : addr) (verbose : bool) (h h' : heap) (a : addr) (out : list line),
    clean_data df verbose h = (Ok (a, out), h') ->
    exists d d' : DataFrame,
      nth_error h df = Some (ODataFrame d)
      /\ nth_error h' a = Some (ODataFrame d')
      /\ (length (rows d') <= length (rows d))%nat
      /\ (verbose = false -> out = [])
      /\ (verbose = true ->
          out = [Forma_inicial (length (rows d)) (length (schema d));
                 Forma_final (length (rows d')) (length (schema d));
                 Registros_eliminados
                   (Z.of_nat (length (rows d) - length (rows d')))]).
Proof.
  intros df verbose h h' a out Hrun.
  apply clean_data_inv in Hrun as (d & d' & created & Hdf & Hc & -> & -> & ->).
  pose proof (@clean_frame_fewer_rows d d' Hc) as Hle.
  exists d, d'. split; [exact Hdf |]. split; [apply result_lookup |].
  split; [exact Hle |].
  split; intros ->; [reflexivity |].
  apply clean_frame_rows in Hc as (_ & N & _).
  apply (f_equal (@length string)) in N. rewrite !length_map in N.
  unfold report, frame_shape. cbn [fst snd]. rewrite N.
  rewrite Nat2Z.inj_sub by exact Hle. reflexivity.
Qed.

(** ** Cleaning twice *)







(** The columns a frame must have numeric for [clean_data] to go through. *)
Definition cleanable (sch : list (string * dtype)) : Prop :=
  (forall j t, col_index "adr" sch = Some (j, t) -> is_numeric t = true)
  /\ (forall j t, col_index "children" sch = Some (j, t) -> t <> DCategory)
  /\ (forall ja ta jc tc,
         col_index "adults" sch = Some (ja, ta) ->
         col_index "children" sch = Some (jc, tc) ->
         is_numeric ta = true /\ is_numeric tc = true)
  /\ (forall jw tw jk tk,
         col_index "stays_in_weekend_nights" sch = Some (jw, tw) ->
         col_index "stays_in_week_nights" sch = Some (jk, tk) ->
         is_numeric tw = true /\ is_numeric tk = true).

(** The schema after the [children] column was assigned. *)
Definition retyped (sch : list (string * dtype)) : list (string * dtype) :=
  match col_index "children" sch with
  | Some (_, t) =>
      map (fun c : string * dtype =>
             if String.eqb (fst c) "children" then ("children", t) else c) sch
  | None => sch
  end.

Lemma col_index_of_retyped (sch : list (string * dtype)) (n : string) :
  col_index n (retyped sch) = col_index n sch.
Proof.
  unfold retyped. destruct (col_index "children" sch) as [[j t]|] eqn:E; [| reflexivity].
  now apply col_index_retyped with j.
Qed.


Definition cleaned_rows (sch : list (string * dtype)) (rs : list row) : list row :=
  filter (passes_nights sch)
    (filter (passes_guests sch)
       (map (filled sch) (filter (passes_adr sch) (uniq_by rows_same rs)))).

Lemma numeric_column_ok (d : DataFrame) (name : string) (j : nat) (t : dtype) :
  col_index name (schema d) = Some (j, t) -> is_numeric t = true ->
  numeric_column d name = Ok j.
Proof. intros H Ht. unfold numeric_column. now rewrite H, Ht. Qed.



(** On a cleanable frame every step goes through. *)
Lemma clean_frame_total (d : DataFrame) :
  cleanable (schema d) ->
  clean_frame d
  = Ok (mkDataFrame (retyped (schema d)) (cleaned_rows (schema d) (rows d))).
Proof.
  intros (Ha & Hc & Hg & Hn). unfold clean_frame.
  set (sch := schema d) in *.
  assert (E1 : step_adr (drop_duplicates d)
               = Ok (mkDataFrame sch (filter (passes_adr sch)
                                            (uniq_by rows_same (rows d))))).
  { unfold step_adr, has_column, select_adr, passes_adr. cbn [drop_duplicates schema].
    fold sch. destruct (col_index "adr" sch) as [[j t]|] eqn:E.
    - rewrite (@numeric_column_ok (drop_duplicates d) "adr" j t E (Ha j t eq_refl)).
      reflexivity.
    - now rewrite filter_true. }
  rewrite E1. cbn [res_bind].
  set (r1 := filter (passes_adr sch) (uniq_by rows_same (rows d))).
  assert (E2 : step_children (mkDataFrame sch r1)
               = Ok (mkDataFrame (retyped sch) (map (filled sch) r1))).
  { unfold step_children, has_column, getitem, retyped, filled. cbn [schema rows].
    destruct (col_index "children" sch) as [[j t]|] eqn:E.
    - cbn [res_bind]. unfold fillna_zero. cbn [s_dtype s_values].
      specialize (Hc j t eq_refl).
      destruct t; try (exfalso; apply Hc; reflexivity);
        cbn [res_bind]; unfold with_column; cbn [schema rows]; rewrite E;
        f_equal; f_equal; rewrite map_map, combine_map_same, map_map; reflexivity.
    - now rewrite map_id. }
  rewrite E2. cbn [res_bind].
  set (r2 := map (filled sch) r1).
  assert (E3 : step_guests (mkDataFrame (retyped sch) r2)
               = Ok (mkDataFrame (retyped sch) (filter (passes_guests sch) r2))).
  { unfold step_guests, has_column, select_guests, passes_guests. cbn [schema].
    rewrite !col_index_of_retyped.
    destruct (col_index "adults" sch) as [[ja ta]|] eqn:Ea;
      destruct (col_index "children" sch) as [[jc tc]|] eqn:Ec; cbn [andb];
      try (now rewrite filter_true).
    destruct (Hg ja ta jc tc eq_refl eq_refl) as [Hta Htc].
    rewrite (@numeric_column_ok (mkDataFrame (retyped sch) r2) "adults" ja ta)
      by (cbn [schema]; rewrite ?col_index_of_retyped; assumption).
    cbn [res_bind].
    rewrite (@numeric_column_ok (mkDataFrame (retyped sch) r2) "children" jc tc)
      by (cbn [schema]; rewrite ?col_index_of_retyped; assumption).
    reflexivity. }
  rewrite E3. cbn [res_bind].
  set (r3 := filter (passes_guests sch) r2).
  unfold step_nights, has_column, select_nights, cleaned_rows, passes_nights.
  cbn [schema]. rewrite !col_index_of_retyped.
  destruct (col_index "stays_in_weekend_nights" sch) as [[jw tw]|] eqn:Ew;
    destruct (col_index "stays_in_week_nights" sch) as [[jk tk]|] eqn:Ek; cbn [andb];
    try (now rewrite filter_true).
  destruct (Hn jw tw jk tk eq_refl eq_refl) as [Htw Htk].
  rewrite (@numeric_column_ok (mkDataFrame (retyped sch) r3) "stays_in_weekend_nights"
                              jw tw)
    by (cbn [schema]; rewrite ?col_index_of_retyped; assumption).
  cbn [res_bind].
  rewrite (@numeric_column_ok (mkDataFrame (retyped sch) r3) "stays_in_week_nights"
                              jk tk)
    by (cbn [schema]; rewrite ?col_index_of_retyped; assumption).
  reflexivity.
Qed.








End UtilsIO.

(** * Concrete runs *)

Module Examples.

Open Scope list_scope.

(** Stand-ins for the library functions: a test that reports an undefined
    statistic and p-value (what SciPy returns on degenerate samples), a
    normality test that cannot reject, a fixed normal quantile. *)
Definition undefined_test (_ : list R) : res (num * num) := Ok (NaN, NaN).
Definition undefined_test2 (_ _ : list R) : res (num * num) := Ok (NaN, NaN).
Definition undefined_ttest (_ _ : list R) (_ : bool) : res (num * num) := Ok (NaN, NaN).
Definition undefined_anova (_ : list (list R)) : res (num * num) := Ok (NaN, NaN).
Definition shapiro_accepts (_ : list R) : res (num * num) := Ok (Fin 1, Fin 1).
Definition no_correlation (_ _ : list num) : res (num * num) := Ok (Fin 0, Fin 1).
Definition sf_one (_ : R) (_ : Z) : num := Fin 1.
Definition z_95 (_ : num) : num := Fin (196 / 100).
Definition no_format (_ : num) : string := "".
Definition no_number (_ : R) : string := "".

Definition default_index (i : Z) : list cell := [Int i].

(** Two categorical columns. *)
Definition categories : DataFrame :=
  mkDataFrame
    [("a", DObject); ("b", DObject)]
    [(default_index 0, [Label "x"; Label "u"]);
     (default_index 1, [Label "x"; Label "v"]);
     (default_index 2, [Label "y"; Label "u"])].

Definition categories_a : Series := mkSeries DObject [Label "x"; Label "x"; Label "y"].
Definition categories_b : Series := mkSeries DObject [Label "u"; Label "v"; Label "u"].

(** Two groups of three bookings; within a group every value is the same. *)
Definition constant_groups : DataFrame :=
  mkDataFrame
    [("g", DObject); ("x", DFloat)]
    [(default_index 0, [Label "a"; Flt 1]);
     (default_index 1, [Label "a"; Flt 1]);
     (default_index 2, [Label "a"; Flt 1]);
     (default_index 3, [Label "b"; Flt 2]);
     (default_index 4, [Label "b"; Flt 2]);
     (default_index 5, [Label "b"; Flt 2])].


(** A bookings frame with the columns of the business metrics. *)
Definition bookings : DataFrame :=
  mkDataFrame
    [("hotel", DCategory); ("is_canceled", DInt); ("lead_time", DFloat);
     ("total_stay_nights", DInt)]
    [(default_index 0, [Label "City Hotel"; Int 1; Flt 10; Int 2]);
     (default_index 1, [Label "Resort Hotel"; Int 0; Flt 20; Int 3])].





(** C2, witness: the decision procedure on the two constant groups. *)
Lemma t_test_decision_witness :
  match spec_select_test shapiro_accepts undefined_test2 undefined_ttest undefined_test2
                         [1; 1; 1] [2; 2; 2] with
  | Ok (name, stat, p) =>
      exists r : TTest.result,
        perform_t_test shapiro_accepts undefined_test2 undefined_ttest undefined_test2
                       no_format 0%nat "x" "g" "a" "b" [ODataFrame constant_groups]
        = (Ok 3%nat,
           [ODataFrame constant_groups] ++ [OSample [1; 1; 1]; OSample [2; 2; 2]; OTTest r])
        /\ TTest.test_type r = name
        /\ TTest.statistic r = stat
        /\ TTest.p_value r = p
  | Raise e =>
      perform_t_test shapiro_accepts undefined_test2 undefined_ttest undefined_test2
                     no_format 0%nat "x" "g" "a" "b" [ODataFrame constant_groups]
      = (Raise e, [ODataFrame constant_groups] ++ [OSample [1; 1; 1]; OSample [2; 2; 2]])
  end.
Proof.
  apply (@t_test_decision_procedure shapiro_accepts undefined_test2 undefined_ttest
           undefined_test2 no_format 0%nat "x" "g" "a" "b" [ODataFrame constant_groups]
           constant_groups [1; 1; 1] [2; 2; 2]);
    reflexivity.
Defined.

(** The heap after a rank-based comparison of the two constant groups, when
    the normality test reports an undefined p-value. *)
Definition rank_test_heap : heap :=
  [ODataFrame constant_groups; OSample [1; 1; 1]; OSample [2; 2; 2];
   OTTest (t_test_outcome no_format "a" "b" [1; 1; 1] [2; 2; 2] "Mann-Whitney U" NaN NaN)].

Lemma rank_test_run :
  perform_t_test undefined_test undefined_test2 undefined_ttest undefined_test2
                 no_format 0%nat "x" "g" "a" "b" [ODataFrame constant_groups]
  = (Ok 3%nat, rank_test_heap).
Proof. reflexivity. Qed.








(** C1, witness: the flag of the rank-based comparison. *)
Lemma is_significant_witness :
  exists r : TTest.result,
    nth_error rank_test_heap 3 = Some (OTTest r)
    /\ TTest.is_significant r = (TTest.p_value r <? Fin (5 / 100))%num.
Proof.
  apply (proj1 (proj2 (is_significant_iff_p_below_alpha
                         sf_one undefined_test undefined_test2 undefined_ttest
                         undefined_test2 undefined_anova no_format))
               0%nat "x" "g" "a" "b" [ODataFrame constant_groups] rank_test_heap 3%nat).
  reflexivity.
Defined.

(** C6, witness: 30 cancellations out of 100 bookings at the 95% level. *)
Lemma proportion_ci_witness :
  exists l u : R,
    calculate_proportion_ci z_95 (Fin 30) (Fin 100) (Fin (95 / 100)) = (Fin l, Fin u)
    /\ 0 <= l /\ u <= 1.
Proof.
  assert (H : 0 < 100) by lra.
  exact (proj2 (proj2 (proj2 (proj1 (proj2 (proportion_ci_clipped z_95))
                                    (Fin 30) (Fin (95 / 100)) 100 H)))).
Defined.

Lemma bookings_business_frame : business_frame bookings.
Proof.
  split; [exists 1%nat, DInt; split; reflexivity |].
  split; [exists 2%nat, DFloat; split; reflexivity |].
  split; [reflexivity |].
  split; [intros H; discriminate H |].
  intros _. exists 3%nat, DInt. split; reflexivity.
Defined.



(** X1, witness: the two categorical columns. *)
Lemma chi_square_effect_size_witness :
  exists (a : addr) (h' : heap) (r : ChiSquare.result) (v : R),
    perform_chi_square_test sf_one no_format 0%nat "a" "b" [ODataFrame categories]
    = (Ok a, h')
    /\ nth_error h' a = Some (OChiSquare r)
    /\ ChiSquare.cramers_v r = Fin v
    /\ (v < 1 / 10 -> ChiSquare.effect_size r = "Efecto despreciable")
    /\ (1 / 10 <= v < 3 / 10 -> ChiSquare.effect_size r = "Efecto pequeño")
    /\ (3 / 10 <= v < 5 / 10 -> ChiSquare.effect_size r = "Efecto mediano")
    /\ (5 / 10 <= v -> ChiSquare.effect_size r = "Efecto grande").
Proof.
  apply (@chi_square_effect_size_label sf_one no_format 0%nat "a" "b"
           [ODataFrame categories] categories categories_a categories_b);
    try reflexivity.
  discriminate.
Defined.

(** The heap after the analysis of variance of the two constant groups. *)
Definition constant_groups_anova_heap : heap :=
  anova_heap no_format [ODataFrame constant_groups]
    [(Label "a", mkSeries DFloat [Flt 1; Flt 1; Flt 1]);
     (Label "b", mkSeries DFloat [Flt 2; Flt 2; Flt 2])]
    [[1; 1; 1]; [2; 2; 2]] NaN NaN (mean [1; 1; 1; 2; 2; 2]).

(** X2, witness: the analysis of variance of the two constant groups. *)
Lemma anova_effect_size_witness :
  exists r : Anova.result,
    nth_error constant_groups_anova_heap 6 = Some (OAnova r)
    /\ (forall x : R,
           Anova.eta_squared r = Fin x ->
           (x < 1 / 100 -> Anova.effect_size r = "Efecto despreciable")
           /\ (1 / 100 <= x < 6 / 100 -> Anova.effect_size r = "Efecto pequeño")
           /\ (6 / 100 <= x < 14 / 100 -> Anova.effect_size r = "Efecto mediano")
           /\ (14 / 100 <= x -> Anova.effect_size r = "Efecto grande"))
    /\ (Anova.eta_squared r = NaN -> Anova.effect_size r = "Efecto grande").
Proof.
  apply (@anova_effect_size_label undefined_anova no_format 0%nat "x" "g"
           [ODataFrame constant_groups] constant_groups_anova_heap 6%nat).
  reflexivity.
Defined.

(** X3, witness: a column the frame does not have. *)
Lemma chi_square_test_errors_witness :
  perform_chi_square_test sf_one no_format 0%nat "c" "b" [ODataFrame categories]
  = (Raise (KeyError "c"), [ODataFrame categories]).
Proof.
  apply (proj1 (@chi_square_test_errors sf_one no_format 0%nat "c" "b"
                  [ODataFrame categories] categories eq_refl)).
  reflexivity.
Defined.

(** X4, witness: a grouping column the frame does not have. *)
Lemma tests_missing_column_witness :
  (forall group1 group2 : string,
      perform_t_test undefined_test undefined_test2 undefined_ttest undefined_test2
                     no_format 0%nat "x" "k" group1 group2 [ODataFrame constant_groups]
      = (Raise (KeyError "k"), [ODataFrame constant_groups]))
  /\ fst (perform_anova undefined_anova no_format 0%nat "x" "k"
                        [ODataFrame constant_groups])
     = Raise (KeyError "k").
Proof.
  apply (proj1 (@tests_missing_column undefined_test undefined_test2 undefined_ttest
                  undefined_test2 undefined_anova no_format 0%nat "x" "k"
                  [ODataFrame constant_groups] constant_groups eq_refl)).
  reflexivity.
Defined.

(** The heap after the rank-based comparison with the groups exchanged. *)
Definition rank_test_heap_exchanged : heap :=
  [ODataFrame constant_groups; OSample [2; 2; 2]; OSample [1; 1; 1];
   OTTest (t_test_outcome no_format "b" "a" [2; 2; 2] [1; 1; 1] "Mann-Whitney U" NaN NaN)].

(** X5, witness: the two constant groups in both orders. *)
Lemma t_test_groups_exchanged_witness :
  exists (r1 r2 : TTest.result) (x : R),
    nth_error rank_test_heap 3 = Some (OTTest r1)
    /\ nth_error rank_test_heap_exchanged 3 = Some (OTTest r2)
    /\ TTest.mean_group1 r2 = TTest.mean_group2 r1
    /\ TTest.mean_group2 r2 = TTest.mean_group1 r1
    /\ TTest.std_group1 r2 = TTest.std_group2 r1
    /\ TTest.std_group2 r2 = TTest.std_group1 r1
    /\ TTest.n_group1 r2 = TTest.n_group2 r1
    /\ TTest.n_group2 r2 = TTest.n_group1 r1
    /\ TTest.cohens_d r1 = Fin x
    /\ TTest.cohens_d r2 = Fin (- x)
    /\ TTest.effect_size r2 = TTest.effect_size r1.
Proof.
  apply (@t_test_groups_exchanged undefined_test undefined_test2 undefined_ttest
           undefined_test2 no_format 0%nat "x" "g" "a" "b" [ODataFrame constant_groups]
           rank_test_heap rank_test_heap_exchanged 3%nat 3%nat);
    reflexivity.
Defined.


(** X7, witness: 30 cancellations out of 100 bookings. *)
Lemma proportion_ci_contains_witness :
  exists l u : R,
    calculate_proportion_ci z_95 (Fin 30) (Fin 100) (Fin (95 / 100)) = (Fin l, Fin u)
    /\ l <= 30 / 100 <= u.
Proof.
  apply (@proportion_ci_contains_proportion z_95 30 100 (196 / 100) (Fin (95 / 100)));
    try reflexivity; lra.
Defined.

(** X8, witness: no cancellation and only cancellations out of 100. *)
Lemma proportion_ci_boundary_witness :
  calculate_proportion_ci z_95 (Fin 0) (Fin 100) (Fin (95 / 100)) = (Fin 0, Fin 0)
  /\ calculate_proportion_ci z_95 (Fin 100) (Fin 100) (Fin (95 / 100)) = (Fin 1, Fin 1).
Proof.
  apply (@proportion_ci_boundary z_95 100 (196 / 100) (Fin (95 / 100)));
    try reflexivity; lra.
Defined.



(** X12, witness: a feature the bookings frame does not have. *)
Lemma feature_importance_missing_witness :
  fst (analyze_feature_importance sf_one no_correlation no_format 0%nat "is_canceled"
         (["lead_time"] ++ "deposit" :: ["total_stay_nights"]) [ODataFrame bookings])
  = Raise (KeyError "deposit").
Proof.
  apply (@feature_importance_missing_feature sf_one no_correlation no_format 0%nat
           "is_canceled" ["lead_time"] "deposit" ["total_stay_nights"]
           [ODataFrame bookings] bookings [(Num.abs (Fin 0), "Correlación")]);
    reflexivity.
Defined.

(** X13, witness: two numeric features of the bookings frame. *)
Lemma feature_importance_rows_witness :
  exists (a : addr) (h' : heap) (table : DataFrame),
    analyze_feature_importance sf_one no_correlation no_format 0%nat "is_canceled"
                               ["lead_time"; "total_stay_nights"] [ODataFrame bookings]
    = (Ok a, h')
    /\ nth_error h' a = Some (ODataFrame table)
    /\ map fst (schema table)
       = ["feature"; "importance_score"; "test_type"; "interpretation"]
    /\ length (rows table) = length ["lead_time"; "total_stay_nights"]
    /\ Forall (labelled_row ["lead_time"; "total_stay_nights"]) (rows table).
Proof.
  apply (@feature_importance_rows_labelled sf_one no_correlation no_format 0%nat
           "is_canceled" ["lead_time"; "total_stay_nights"] [ODataFrame bookings]
           bookings
           [(Num.abs (Fin 0), "Correlación"); (Num.abs (Fin 0), "Correlación")]).
  - reflexivity.
  - reflexivity.
  - discriminate.
Defined.




(** X16, witness: the general metrics of the two bookings. *)
Lemma business_metrics_general_witness :
  exists (h' : heap) (metrics : list (string * num)) (rate lead adr : num),
    calculate_business_metrics no_number 0%nat [ODataFrame bookings]
    = (Ok (length [ODataFrame bookings]), h')
    /\ nth_error h' (length [ODataFrame bookings]) = Some (ODict metrics)
    /\ res_bind (getitem bookings "is_canceled") series_mean = Ok rate
    /\ res_bind (getitem bookings "lead_time") series_mean = Ok lead
    /\ positive_mean bookings "adr" = Ok adr
    /\ dict_get "total_bookings" metrics = Some (Num.of_nat (length (rows bookings)))
    /\ dict_get "cancellation_rate" metrics = Some rate
    /\ dict_get "avg_lead_time" metrics = Some lead
    /\ dict_get "avg_adr" metrics = Some adr
    /\ (has_column bookings "adr" = false -> adr = Fin 0)
    /\ (has_column bookings "adr" && has_column bookings "total_stay_nights" = false ->
        dict_get "potential_revenue_loss" metrics = None)
    /\ (has_column bookings "adr" && has_column bookings "total_stay_nights" = true ->
        exists loss : num,
          revenue_loss bookings = Ok loss
          /\ dict_get "potential_revenue_loss" metrics = Some loss).
Proof.
  apply (@business_metrics_general no_number 0%nat [ODataFrame bookings] bookings
           eq_refl bookings_business_frame).
Defined.

(** X17, witness: the per-hotel metrics of the two bookings. *)
Lemma business_metrics_per_hotel_witness :
  exists (h' : heap) (metrics : list (string * num)),
    calculate_business_metrics no_number 0%nat [ODataFrame bookings]
    = (Ok (length [ODataFrame bookings]), h')
    /\ nth_error h' (length [ODataFrame bookings]) = Some (ODict metrics)
    /\ forall hotel_type : cell,
         In hotel_type [Label "City Hotel"; Label "Resort Hotel"] ->
         exists (hotel_data : DataFrame) (rate adr : num),
           select_eq bookings "hotel" hotel_type = Ok hotel_data
           /\ res_bind (getitem hotel_data "is_canceled") series_mean = Ok rate
           /\ positive_mean hotel_data "adr" = Ok adr
           /\ dict_get (str_of_cell no_number hotel_type ++ "_cancellation_rate")%string
                       metrics = Some rate
           /\ dict_get (str_of_cell no_number hotel_type ++ "_avg_adr")%string
                       metrics = Some adr.
Proof.
  apply (@business_metrics_per_hotel no_number 0%nat [ODataFrame bookings] bookings
           (mkSeries DCategory [Label "City Hotel"; Label "Resort Hotel"])
           eq_refl bookings_business_frame eq_refl).
  repeat constructor; simpl; intuition discriminate.
Defined.

(** X18, witness: a frame without the [is_canceled] column. *)
Lemma business_metrics_missing_witness :
  fst (calculate_business_metrics no_number 0%nat [ODataFrame categories])
  = Raise (KeyError "is_canceled").
Proof.
  apply (proj1 (@business_metrics_missing_column no_number 0%nat [ODataFrame categories]
                  categories eq_refl)).
  reflexivity.
Defined.

(** Four raw bookings: the second duplicates the first, the third has a
    negative rate and the fourth no guest. *)
Definition raw_bookings : DataFrame :=
  mkDataFrame
    [("adr", DFloat); ("children", DFloat); ("adults", DInt);
     ("stays_in_weekend_nights", DInt); ("stays_in_week_nights", DInt)]
    [(default_index 0, [Flt 100; Missing; Int 2; Int 1; Int 2]);
     (default_index 1, [Flt 100; Missing; Int 2; Int 1; Int 2]);
     (default_index 2, [Flt (-5); Flt 0; Int 1; Int 0; Int 1]);
     (default_index 3, [Flt 80; Flt 0; Int 0; Int 1; Int 1])].

Lemma raw_bookings_cleanable : UtilsIO.cleanable (schema raw_bookings).
Proof.
  repeat split; intros; simpl in *;
    repeat match goal with H : Some _ = Some _ |- _ => inversion H; clear H; subst end;
    try reflexivity; discriminate.
Qed.

Ltac decide_reals :=
  repeat (unfold UtilsIO.adr_in_range, UtilsIO.has_guests, UtilsIO.has_nights,
                 UtilsIO.value_at, UtilsIO.fill_row, UtilsIO.fill_zero, UtilsIO.geb,
                 UtilsIO.rows_same, cell_same, cell_at;
          simpl;
          try match goal with
          | |- context [Reqb ?x ?y] =>
              first [ rewrite (Reqb_refl x)
                    | rewrite (@Reqb_false_ne x y) by lra ]
          | |- context [Rltb ?x ?y] =>
              first [ rewrite (proj2 (Rltb_true x y)) by lra
                    | rewrite (proj2 (Rltb_false x y)) by lra ]
          end).

(** The cleaned bookings: only the first one is left, without children. *)
Lemma raw_bookings_cleaned :
  UtilsIO.clean_frame raw_bookings
  = Ok (mkDataFrame (schema raw_bookings)
                    [(default_index 0, [Flt 100; Flt 0; Int 2; Int 1; Int 2])]).
Proof.
  rewrite (@UtilsIO.clean_frame_total raw_bookings raw_bookings_cleanable).
  f_equal. f_equal.
  unfold UtilsIO.cleaned_rows.
  change (UtilsIO.passes_adr (schema raw_bookings)) with (UtilsIO.adr_in_range 0).
  change (UtilsIO.passes_guests (schema raw_bookings)) with (UtilsIO.has_guests 2 1).
  change (UtilsIO.passes_nights (schema raw_bookings)) with (UtilsIO.has_nights 3 4).
  change (UtilsIO.filled (schema raw_bookings)) with (UtilsIO.fill_row 1 DFloat).
  unfold raw_bookings. cbn [rows].
  decide_reals. reflexivity.
Qed.

Lemma raw_bookings_run :
  exists (a : addr) (out : list UtilsIO.line) (h' : heap),
    UtilsIO.clean_data 0%nat true [ODataFrame raw_bookings] = (Ok (a, out), h').
Proof.
  pose proof (@UtilsIO.clean_data_run 0%nat true [ODataFrame raw_bookings]
                raw_bookings eq_refl) as H.
  rewrite raw_bookings_cleaned in H. destruct H as [created H].
  do 3 eexists. exact H.
Qed.


(** X20, witness: cleaning the four raw bookings. *)
Lemma clean_data_keeps_input_witness :
  exists (a : addr) (out : list UtilsIO.line) (h' : heap) (d d' : DataFrame),
    UtilsIO.clean_data 0%nat true [ODataFrame raw_bookings] = (Ok (a, out), h')
    /\ nth_error [ODataFrame raw_bookings] 0 = Some (ODataFrame d)
    /\ nth_error h' a = Some (ODataFrame d')
    /\ (length [ODataFrame raw_bookings] < a)%nat
    /\ (forall x o, nth_error [ODataFrame raw_bookings] x = Some o ->
                    nth_error h' x = Some o)
    /\ (length (rows d') <= length (rows d))%nat
    /\ Forall (fun r : row =>
                 exists r0, In r0 (rows d) /\ r = UtilsIO.filled (schema d) r0)
              (rows d').
Proof.
  destruct raw_bookings_run as (a & out & h' & Hrun).
  destruct (@UtilsIO.clean_data_keeps_input 0%nat true [ODataFrame raw_bookings]
              h' a out Hrun) as (d & d' & H).
  exists a, out, h', d, d'. split; [exact Hrun | exact H].
Defined.

(** X21, witness: the report on the four raw bookings. *)
Lemma clean_data_report_witness :
  exists (a : addr) (out : list UtilsIO.line) (h' : heap) (d d' : DataFrame),
    UtilsIO.clean_data 0%nat true [ODataFrame raw_bookings] = (Ok (a, out), h')
    /\ nth_error [ODataFrame raw_bookings] 0 = Some (ODataFrame d)
    /\ nth_error h' a = Some (ODataFrame d')
    /\ (length (rows d') <= length (rows d))%nat
    /\ (true = false -> out = [])
    /\ (true = true ->
        out = [UtilsIO.Forma_inicial (length (rows d)) (length (schema d));
               UtilsIO.Forma_final (length (rows d')) (length (schema d));
               UtilsIO.Registros_eliminados
                 (Z.of_nat (length (rows d) - length (rows d')))]).
Proof.
  destruct raw_bookings_run as (a & out & h' & Hrun).
  destruct (@UtilsIO.clean_data_report 0%nat true [ODataFrame raw_bookings]
              h' a out Hrun) as (d & d' & H).
  exists a, out, h', d, d'. split; [exact Hrun | exact H].
Defined.




End Examples.
